(** * Vibemap: geometry predicates, spatial query orchestration, draw-select
      and measurement tools of the application, embedded in Rocq.

    Numbers are JavaScript numbers, that is IEEE 754 binary64 values: they are
    modelled by Rocq's primitive floats, whose comparisons are false on NaN as
    in JavaScript.  Promises are modelled by their outcome, the console, the
    network and the React setters by a trace of events.  [calculateArea] is
    written over a small arithmetic interface with two instances, binary64
    (what the browser computes) and exact rationals. *)

From stdpp Require Import gmap strings.
From Stdlib Require Import ZArith QArith Qabs Qfield List Bool Lia Lqa.
From Stdlib Require Import PrimFloat FloatOps FloatAxioms Uint63.
Import ListNotations.
Close Scope Q_scope.
#[local] Set Warnings "-inexact-float".
Open Scope Z_scope.

(** ** JavaScript numbers *)

Module JS.

Definition number := float.

(** [a >= b], [a <= b], [a > b], [a < b]: all false when an operand is NaN. *)
Definition ge (a b : number) : bool := PrimFloat.leb b a.
Definition le (a b : number) : bool := PrimFloat.leb a b.
Definition gt (a b : number) : bool := PrimFloat.ltb b a.
Definition lt (a b : number) : bool := PrimFloat.ltb a b.

(** [a !== b] on booleans. *)
Definition neq (a b : bool) : bool := xorb a b.

(** [Math.abs]. *)
Definition Math_abs (a : number) : number := PrimFloat.abs a.

(** [Math.min(...l)] and [Math.max(...l)]: NaN as soon as one argument is
    NaN, [Infinity] and [-Infinity] on no argument. *)
Definition min2 (a b : number) : number :=
  if PrimFloat.is_nan a || PrimFloat.is_nan b then PrimFloat.nan
  else if PrimFloat.ltb b a then b else a.
Definition max2 (a b : number) : number :=
  if PrimFloat.is_nan a || PrimFloat.is_nan b then PrimFloat.nan
  else if PrimFloat.ltb a b then b else a.
Definition Math_min (l : list number) : number :=
  List.fold_left min2 l PrimFloat.infinity.
Definition Math_max (l : list number) : number :=
  List.fold_left max2 l PrimFloat.neg_infinity.

(** What a GeoJSON position [[lon, lat]] (an array of two or more numbers)
    or [undefined] becomes where the code reads it as a number: its string
    form has a comma, so [ToNumber] gives NaN. *)
Definition array_as_number : number := PrimFloat.nan.

End JS.

(** ** Arithmetic interface of [calculateArea] *)

Class Arith (T : Type) := {
  zero : T;
  add : T -> T -> T;
  sub : T -> T -> T;
  mul : T -> T -> T;
  div : T -> T -> T;
  abs : T -> T;
  Math_PI : T;
  (** the decimal literal [m * 10^(-k)] *)
  lit : Z -> nat -> T
}.

(** Binary64: a literal [m * 10^(-k)] with [m] and [10^k] below [2^53] is the
    correctly rounded quotient of two exactly represented integers, which is
    how JavaScript reads it. *)
Definition float_of_Z (z : Z) : float := PrimFloat.of_uint63 (Uint63.of_Z z).

#[export] Instance Arith_float : Arith float := {
  zero := 0%float;
  add := PrimFloat.add;
  sub := PrimFloat.sub;
  mul := PrimFloat.mul;
  div := PrimFloat.div;
  abs := PrimFloat.abs;
  Math_PI := 0x1.921fb54442d18p+1%float;
  lit m k := PrimFloat.div (float_of_Z m) (float_of_Z (10 ^ Z.of_nat k))
}.

(** Exact rationals; [Math_PI] is the rational value of the binary64 constant
    [Math.PI]. *)
#[export] Instance Arith_Q : Arith Q := {
  zero := 0%Q;
  add := Qplus;
  sub := Qminus;
  mul := Qmult;
  div := Qdiv;
  abs := Qabs;
  Math_PI := (884279719003555 # 281474976710656)%Q;
  lit m k := (m # Z.to_pos (10 ^ Z.of_nat k))%Q
}.

(** The exact value of a finite binary64 number. *)
Definition Q_of_float (x : float) : Q :=
  match Prim2SF x with
  | SpecFloat.S754_finite s m e =>
      let n := if s then Z.neg m else Z.pos m in
      if (0 <=? e)%Z then inject_Z (n * 2 ^ e)
      else (n # Z.to_pos (2 ^ (- e)))%Q
  | _ => 0%Q
  end.

(** ** Geometry intersection library *)

Module Geometry.
Import JS.

Record point := { x : number; y : number }.
Record rect := { minX : number; minY : number; maxX : number; maxY : number }.

(** A Leaflet [LatLngBounds], read through [getWest()], [getSouth()],
    [getEast()] and [getNorth()]. *)
Record bounds := {
  getWest : number; getSouth : number; getEast : number; getNorth : number
}.

(** A GeoJSON position [[lon, lat]]; [p[0]] is [fst p], [p[1]] is [snd p]. *)
Definition position := (number * number)%type.

Definition rect_of_bounds (b : bounds) : rect :=
  {| minX := getWest b; minY := getSouth b;
     maxX := getEast b; maxY := getNorth b |}.

Definition point_of (p : position) : point := {| x := fst p; y := snd p |}.

Definition pointInRectangle (p : point) (r : rect) : bool :=
  ge (x p) (minX r) && le (x p) (maxX r) &&
  ge (y p) (minY r) && le (y p) (maxY r).

Definition ccw (A B C : point) : bool :=
  gt ((y C - y A) * (x B - x A))%float ((y B - y A) * (x C - x A))%float.

Definition lineSegmentsIntersect (p1 p2 p3 p4 : point) : bool :=
  neq (ccw p1 p3 p4) (ccw p2 p3 p4) && neq (ccw p1 p2 p3) (ccw p1 p2 p4).

Definition rect_edges (r : rect) : list (point * point) :=
  [ ({| x := minX r; y := minY r |}, {| x := maxX r; y := minY r |});
    ({| x := maxX r; y := minY r |}, {| x := maxX r; y := maxY r |});
    ({| x := maxX r; y := maxY r |}, {| x := minX r; y := maxY r |});
    ({| x := minX r; y := maxY r |}, {| x := minX r; y := minY r |}) ].

Definition lineSegmentIntersectsRectangle (p1 p2 : point) (r : rect) : bool :=
  if pointInRectangle p1 r || pointInRectangle p2 r then true
  else List.existsb
         (fun edge => lineSegmentsIntersect p1 p2 (fst edge) (snd edge))
         (rect_edges r).

(** [for (i = 0; i < line.length - 1; i++)] over [line[i]], [line[i + 1]]. *)
Fixpoint any_segment (f : point -> point -> bool) (line : list position)
  : bool :=
  match line with
  | a :: (b :: _) as rest => f (point_of a) (point_of b) || any_segment f rest
  | _ => false
  end.

Definition lineIntersectsRectangle (line : list position) (b : bounds)
  : bool :=
  let r := rect_of_bounds b in
  if List.existsb (fun p => pointInRectangle (point_of p) r) line then true
  else any_segment (fun p1 p2 => lineSegmentIntersectsRectangle p1 p2 r) line.

(** [for (i = 0, j = polygon.length - 1; i < polygon.length; j = i++)]. *)
Fixpoint pointInPolygon_loop (p : point) (polygon : list position)
    (indices : list nat) (j : nat) (inside : bool) : bool :=
  match indices with
  | [] => inside
  | i :: rest =>
      let xi := fst (List.nth i polygon (nan, nan)) in
      let yi := snd (List.nth i polygon (nan, nan)) in
      let xj := fst (List.nth j polygon (nan, nan)) in
      let yj := snd (List.nth j polygon (nan, nan)) in
      let inside' :=
        if neq (gt yi (y p)) (gt yj (y p)) &&
           lt (x p) ((xj - xi) * (y p - yi) / (yj - yi) + xi)%float
        then negb inside else inside in
      pointInPolygon_loop p polygon rest i inside'
  end.

Definition pointInPolygon (p : point) (polygon : list position) : bool :=
  pointInPolygon_loop p polygon
    (List.seq 0 (List.length polygon)) (List.length polygon - 1)%nat false.

Definition rectCorners (r : rect) : list point :=
  [ {| x := minX r; y := minY r |}; {| x := maxX r; y := minY r |};
    {| x := maxX r; y := maxY r |}; {| x := minX r; y := maxY r |} ].

Definition polygonIntersectsRectangle (polygon : list position) (b : bounds)
  : bool :=
  let r := rect_of_bounds b in
  if any_segment (fun p1 p2 => lineSegmentIntersectsRectangle p1 p2 r) polygon
  then true
  else List.forallb (fun corner => pointInPolygon corner polygon)
         (rectCorners r).

End Geometry.

(** ** Features, promises and the event trace *)

Module Data.
Import JS Geometry.

(** [geometry: {type, coordinates}] in the nested-coordinate encoding, with
    coordinates nested as the type says and positions of two numbers or
    more.  A geometry of another type, or without coordinates, is
    [OtherGeometry]; a feature without geometry has [None]. *)
Inductive geojson :=
| Point (coordinates : position)
| LineString (coordinates : list position)
| MultiLineString (coordinates : list (list position))
| Polygon (coordinates : list (list position))
| MultiPolygon (coordinates : list (list (list position)))
| OtherGeometry (type : string).

Record feature := {
  geometry : option geojson;
  properties : list (string * string);
  layerName : option string
}.

(** [{...feature, layerName: name}]. *)
Definition with_layerName (name : string) (f : feature) : feature :=
  {| geometry := geometry f; properties := properties f;
     layerName := Some name |}.

Inductive error :=
| NetworkError | TimeoutError | HttpError (status : Z)
| SyntaxError | TypeError.

(** The settled state of a promise; also the completion of a callback that
    may throw. *)
Inductive outcome (A : Type) :=
| Fulfilled (value : A)
| Rejected (reason : error).
Arguments Fulfilled {A} value.
Arguments Rejected {A} reason.

(** [p.then(f)] where [f] itself returns a promise or throws. *)
Definition and_then {A B} (p : outcome A) (f : A -> outcome B) : outcome B :=
  match p with
  | Fulfilled a => f a
  | Rejected e => Rejected e
  end.

(** [l.filter(f)] and [l.some(f)] for a callback that may throw: the first
    exception leaves the iteration. *)
Fixpoint filter_throwing {A} (f : A -> outcome bool) (l : list A)
  : outcome (list A) :=
  match l with
  | [] => Fulfilled []
  | a :: rest =>
      and_then (f a) (fun keep =>
      and_then (filter_throwing f rest) (fun kept =>
      Fulfilled (if keep then a :: kept else kept)))
  end.

Fixpoint some_throwing {A} (f : A -> outcome bool) (l : list A)
  : outcome bool :=
  match l with
  | [] => Fulfilled false
  | a :: rest =>
      and_then (f a) (fun found =>
      if found then Fulfilled true else some_throwing f rest)
  end.

Record layer := { name : string; url : string; visible : bool }.

Record layerStates := {
  bridges : bool; conduits : bool; roads : bool;
  boundaries : bool; lighting : bool
}.

(** A request of [fetch]: the query string either carries [where=1=1] or an
    [esriGeometryEnvelope] with [esriSpatialRelIntersects]; [limit] stands
    for [maxRecordCount] and [limit], which are always equal. *)
Inductive fetch_request :=
| WhereAll (url : string) (limit : Z)
| Envelope (url : string) (limit : Z) (xmin ymin xmax ymax : number).

(** The parsed body [data]: [null], or an object with or without
    [features]. *)
Inductive payload :=
| JsonNull
| JsonObject (features : option (list feature)).

Record response := { ok : bool; status : Z; json : outcome payload }.

(** The arguments [(error, featureCollection)] of the callback of
    [esri.query(...).within(bounds).run]. *)
Inductive esri_reply :=
| EsriError (e : error)
| EsriResult (featureCollection : option (option (list feature))).

(** The remote services.  Every request is answered, by a result or by an
    error. *)
Record network := {
  esri_within : string -> bounds -> Z -> esri_reply;
  fetch : fetch_request -> outcome response
}.

Inductive event :=
| NetEsriQuery (url : string) (b : bounds) (maxFeatures : Z)
| NetFetch (req : fetch_request) (timeout : Z)
| ConsoleError (message : string) (e : error)
| SetSelectedFeatures (features : list feature)
| SetShowFeaturePopup (shown : bool).

(** Computations that append to the trace. *)
Definition M (A : Type) : Type := (A * list event)%type.
Definition ret {A} (a : A) : M A := (a, []).
Definition bind {A B} (m : M A) (f : A -> M B) : M B :=
  let (a, t1) := m in let (b, t2) := f a in (b, (t1 ++ t2)%list).
Definition emit (e : event) : M unit := (tt, [e]).

Notation "'let*' x ':=' m 'in' k" := (bind m (fun x => k))
  (at level 10, x name, m at level 100, k at level 200).
Notation "'do' m 'then' k" := (bind m (fun _ => k))
  (at level 10, m at level 100, k at level 200).

End Data.

(** ** Spatial query orchestrator *)

Module Orchestrator.
Import JS Geometry Data.

(** [lon >= bounds.getWest() && lon <= bounds.getEast() &&
     lat >= bounds.getSouth() && lat <= bounds.getNorth()]. *)
Definition inBounds (b : bounds) (lon lat : number) : bool :=
  ge lon (getWest b) && le lon (getEast b) &&
  ge lat (getSouth b) && le lat (getNorth b).

Definition hasPointInBounds (b : bounds) (l : list position) : bool :=
  List.existsb (fun p => inBounds b (fst p) (snd p)) l.

(** In the first fetch the callback of [polygon.some] and
    [polygonIntersectsRectangle] receive the list of rings where they expect
    one ring: each ring is destructured as a position, so its two
    "coordinates" are positions (or [undefined]) read as numbers. *)
Definition rings_as_ring (polygon : list (list position)) : list position :=
  List.map (fun _ => (array_as_number, array_as_number)) polygon.

(** The callback of [data.features.filter] in the first fetch. *)
Definition clientFilter (b : bounds) (f : feature) : bool :=
  match geometry f with
  | Some (Point (lon, lat)) => inBounds b lon lat
  | Some (LineString coordinates) =>
      List.existsb
        (fun line => hasPointInBounds b line || lineIntersectsRectangle line b)
        [coordinates]
  | Some (MultiLineString coordinates) =>
      List.existsb
        (fun line => hasPointInBounds b line || lineIntersectsRectangle line b)
        coordinates
  | Some (Polygon coordinates) =>
      List.existsb
        (fun polygon =>
           hasPointInBounds b (rings_as_ring polygon) ||
           polygonIntersectsRectangle (rings_as_ring polygon) b)
        [coordinates]
  | Some (MultiPolygon coordinates) =>
      List.existsb
        (fun polygon =>
           hasPointInBounds b (rings_as_ring polygon) ||
           polygonIntersectsRectangle (rings_as_ring polygon) b)
        coordinates
  | Some (OtherGeometry _) => false
  | None => false
  end.

(** [lineBoundingBox] and [boundingBoxOverlaps] of the retry fetch; [null]
    for an empty line, which is falsy. *)
Definition boundingBoxOverlaps (b : bounds) (line : list position) : bool :=
  match line with
  | [] => false
  | _ =>
      let lons := List.map fst line in
      let lats := List.map snd line in
      le (Math_min lons) (getEast b) && ge (Math_max lons) (getWest b) &&
      le (Math_min lats) (getNorth b) && ge (Math_max lats) (getSouth b)
  end.

Definition fallbackLine (b : bounds) (line : list position) : bool :=
  hasPointInBounds b line || lineIntersectsRectangle line b ||
  boundingBoxOverlaps b line.

(** [polygon[0].some(...)] throws a [TypeError] when the polygon has no
    ring. *)
Definition fallbackPolygon (b : bounds) (polygon : list (list position))
  : outcome bool :=
  match polygon with
  | [] => Rejected TypeError
  | ring :: _ =>
      Fulfilled (hasPointInBounds b ring || polygonIntersectsRectangle ring b)
  end.

(** The callback of [data.features.filter] in the retry fetch. *)
Definition fallbackFilter (b : bounds) (f : feature) : outcome bool :=
  match geometry f with
  | Some (Point (lon, lat)) => Fulfilled (inBounds b lon lat)
  | Some (LineString coordinates) =>
      Fulfilled (List.existsb (fallbackLine b) [coordinates])
  | Some (MultiLineString coordinates) =>
      Fulfilled (List.existsb (fallbackLine b) coordinates)
  | Some (Polygon coordinates) =>
      some_throwing (fallbackPolygon b) [coordinates]
  | Some (MultiPolygon coordinates) =>
      some_throwing (fallbackPolygon b) coordinates
  | Some (OtherGeometry _) => Fulfilled false
  | None => Fulfilled false
  end.

(** The request chosen from the zoom level. *)
Definition queryUrl (l : layer) (b : bounds) (zoomLevel : number)
  : fetch_request :=
  if lt zoomLevel 8%float then WhereAll (url l) 1000
  else if lt zoomLevel 10%float then
    let boundsExpansion := 0.1%float in
    Envelope (url l) 500
      (getWest b - boundsExpansion)%float (getSouth b - boundsExpansion)%float
      (getEast b + boundsExpansion)%float (getNorth b + boundsExpansion)%float
  else
    let expansion := 0.001%float in
    Envelope (url l) 500
      (getWest b - expansion)%float (getSouth b - expansion)%float
      (getEast b + expansion)%float (getNorth b + expansion)%float.

Definition fallbackUrl (l : layer) : fetch_request := WhereAll (url l) 500.

(** [.then(response => { if (!response.ok) throw ...; return response.json() })]. *)
Definition checked_json (r : response) : outcome payload :=
  if ok r then json r else Rejected (HttpError (status r)).

(** [.then(data => ...)] of the first fetch; reading [data.error] throws on
    [null]. *)
Definition filtered_features (l : layer) (b : bounds) (data : payload)
  : outcome (list feature) :=
  match data with
  | JsonNull => Rejected TypeError
  | JsonObject (Some features) =>
      if (0 <? List.length features)%nat then
        Fulfilled (List.map (with_layerName (name l))
                     (List.filter (clientFilter b) features))
      else Fulfilled []
  | JsonObject None => Fulfilled []
  end.

(** [.then(data => ...)] of the retry fetch. *)
Definition fallback_features (l : layer) (b : bounds) (data : payload)
  : outcome (list feature) :=
  match data with
  | JsonNull => Rejected TypeError
  | JsonObject (Some features) =>
      if (0 <? List.length features)%nat then
        and_then (filter_throwing (fallbackFilter b) features) (fun kept =>
        Fulfilled (List.map (with_layerName (name l)) kept))
      else Fulfilled []
  | JsonObject None => Fulfilled []
  end.

(** The promise of the first fetch after its two [then]s. *)
Definition first_attempt (net : network) (l : layer) (b : bounds)
    (zoomLevel : number) : outcome (list feature) :=
  and_then (and_then (fetch net (queryUrl l b zoomLevel)) checked_json)
           (filtered_features l b).

(** The promise of the retry fetch after its two [then]s. *)
Definition retry_attempt (net : network) (l : layer) (b : bounds)
  : outcome (list feature) :=
  and_then (and_then (fetch net (fallbackUrl l)) json)
           (fallback_features l b).

Definition fetchQueryEnhanced (net : network) (l : layer) (b : bounds)
    (zoomLevel : number) : M (outcome (list feature)) :=
  do emit (NetFetch (queryUrl l b zoomLevel) 15000) then
  match first_attempt net l b zoomLevel with
  | Fulfilled features => ret (Fulfilled features)
  | Rejected error =>
      do emit (ConsoleError ("Error querying " +:+ name l +:+ " layer:") error) then
      do emit (NetFetch (fallbackUrl l) 10000) then
      match retry_attempt net l b with
      | Fulfilled features => ret (Fulfilled features)
      | Rejected fallbackError =>
          do emit (ConsoleError
                     ("Fallback query also failed for " +:+ name l +:+ ":")
                     fallbackError) then
          ret (Fulfilled [])
      end
  end.

Definition fetchQuery (net : network) (l : layer) (b : bounds)
  : M (outcome (list feature)) :=
  fetchQueryEnhanced net l b 10%float.

Definition visibleLayers (ls : layerStates) : list layer :=
  List.filter visible
    [ {| name := "bridges";
         url := "https://gis.dot.state.oh.us/arcgis/rest/services/TIMS/Assets/MapServer/5";
         visible := bridges ls |};
      {| name := "conduits";
         url := "https://gis.dot.state.oh.us/arcgis/rest/services/TIMS/Assets/MapServer/4";
         visible := conduits ls |};
      {| name := "roads";
         url := "https://gis.dot.state.oh.us/arcgis/rest/services/TIMS/Roadway_Information/MapServer/8";
         visible := roads ls |};
      {| name := "boundaries";
         url := "https://gis.dot.state.oh.us/arcgis/rest/services/TIMS/Boundaries/MapServer/1";
         visible := boundaries ls |} ].

(** One element of [queryPromises]. *)
Definition queryLayer (net : network) (b : bounds) (l : layer)
  : M (outcome (list feature)) :=
  do emit (NetEsriQuery (url l) b 100) then
  match esri_within net (url l) b 100 with
  | EsriError error =>
      do emit (ConsoleError
                 ("ESRI Leaflet query error for " +:+ name l +:+ ":") error) then
      fetchQuery net l b
  | EsriResult (Some (Some features)) =>
      if (0 <? List.length features)%nat then
        ret (Fulfilled (List.map (with_layerName (name l)) features))
      else fetchQuery net l b
  | EsriResult _ => fetchQuery net l b
  end.

(** [Promise.all]: the values in order, or the first rejection. *)
Fixpoint Promise_all {A} (ps : list (outcome A)) : outcome (list A) :=
  match ps with
  | [] => Fulfilled []
  | Fulfilled a :: rest =>
      match Promise_all rest with
      | Fulfilled l => Fulfilled (a :: l)
      | Rejected e => Rejected e
      end
  | Rejected e :: _ => Rejected e
  end.

(** The promises of the layers, run in the order of [visibleLayers]; the
    browser may interleave their events, which changes no result. *)
Fixpoint run_all {A} (ms : list (M A)) : M (list A) :=
  match ms with
  | [] => ret []
  | m :: rest =>
      let* a := m in
      let* l := run_all rest in
      ret (a :: l)
  end.

Definition queryPromises (net : network) (b : bounds) (layers : list layer)
  : M (list (outcome (list feature))) :=
  run_all (List.map (queryLayer net b) layers).

Definition queryFeaturesInBounds (net : network) (b : bounds)
    (ls : layerStates) : M unit :=
  let layers := visibleLayers ls in
  if (List.length layers =? 0)%nat then
    do emit (SetSelectedFeatures []) then
    emit (SetShowFeaturePopup true)
  else
    let* results := queryPromises net b layers in
    match Promise_all results with
    | Fulfilled results =>
        let allFeatures := List.concat results in
        do emit (SetSelectedFeatures allFeatures) then
        emit (SetShowFeaturePopup true)
    | Rejected error =>
        do emit (ConsoleError "Error querying features:" error) then
        do emit (SetSelectedFeatures []) then
        emit (SetShowFeaturePopup true)
    end.

(** What the selection panel shows at the end: the argument of the last
    [setSelectedFeatures]. *)
Definition selectedFeatures (t : list event) : option (list feature) :=
  List.fold_left
    (fun acc e =>
       match e with SetSelectedFeatures fs => Some fs | _ => acc end)
    t None.

(** [ValidationUtils.validateBounds] on a bounds object that has its four
    accessors. *)
Definition validateBounds (b : bounds) : bool :=
  let north := getNorth b in
  let south := getSouth b in
  let east := getEast b in
  let west := getWest b in
  if lt north (-90)%float || gt north 90%float then false
  else if lt south (-90)%float || gt south 90%float then false
  else if lt east (-180)%float || gt east 180%float then false
  else if lt west (-180)%float || gt west 180%float then false
  else true.

End Orchestrator.

(** ** Paged loading with the query cache *)

Module Cache.
Import JS Geometry Data.

Record queryResult := {
  features : list feature; totalCount : Z; hasMore : bool
}.

(** A value of the [queryCache] map. *)
Record cacheEntry := { data : queryResult; timestamp : Z; expiresAt : Z }.

(** The [featureCollection] passed to the callback of [run]; a missing
    field is [None]. *)
Record featureCollection := {
  fc_features : option (list feature);
  fc_totalCount : option Z
}.

Inductive reply :=
| QueryError (e : error)
| QueryResult (fc : featureCollection).

(** A query [layer.query().within(bounds).limit(limit).offset(offset)]. *)
Record query := { q_bounds : bounds; q_limit : Z; q_offset : option Z }.

(** The feature layer: the text its [name] interpolates to, and for each
    query the reply with the value of [Date.now()] when the callback runs. *)
Record featureLayer := {
  layer_name : string;
  run : query -> reply * Z
}.

Inductive event :=
| NetQuery (q : query)
| SetLoadingProgress (progress : Z).

Section WithHost.

(** [JSON.stringify] on bounds and the text of a number in a template. *)
Variable JSON_stringify : bounds -> string.
Variable toString : Z -> string.

Definition cacheKey (l : featureLayer) (b : bounds) (page limit : Z)
  : string :=
  layer_name l +:+ "_" +:+ JSON_stringify b +:+ "_" +:+ toString page
    +:+ "_" +:+ toString limit.

Definition getCachedQuery (queryCache : gmap string cacheEntry)
    (key : string) : option cacheEntry :=
  queryCache !! key.

(** [now] is read twice from [Date.now()]; both readings are taken at the
    same millisecond. *)
Definition setCachedQuery (queryCache : gmap string cacheEntry)
    (now : Z) (key : string) (d : queryResult) : gmap string cacheEntry :=
  <[ key := {| data := d; timestamp := now;
               expiresAt := now + 5 * 60 * 1000 |} ]> queryCache.

Definition isCacheValid (queryCache : gmap string cacheEntry) (now : Z)
    (key : string) : bool :=
  match queryCache !! key with
  | None => false
  | Some cached => now <? expiresAt cached
  end.

(** [queryCache] is the React state the closure was created with; calls
    are taken one after the other, each seeing the cache its predecessor
    set.  The result is the promise, the next cache and the events. *)
Definition loadFeaturesWithProgress (queryCache : gmap string cacheEntry)
    (now : Z) (l : featureLayer) (b : bounds) (page limit : Z)
  : outcome queryResult * gmap string cacheEntry * list event :=
  let key := cacheKey l b page limit in
  if isCacheValid queryCache now key then
    match getCachedQuery queryCache key with
    | Some cached => (Fulfilled (data cached), queryCache, [])
    | None => (Rejected TypeError, queryCache, [])
    end
  else
    let offset := (page - 1) * limit in
    let count := {| q_bounds := b; q_limit := 1; q_offset := None |} in
    match run l count with
    | (QueryError error, _) =>
        (Rejected error, queryCache, [SetLoadingProgress 0; NetQuery count])
    | (QueryResult _, _) =>
        let q := {| q_bounds := b; q_limit := limit;
                    q_offset := Some offset |} in
        match run l q with
        | (QueryError error, _) =>
            (Rejected error, queryCache,
             [SetLoadingProgress 0; NetQuery count;
              SetLoadingProgress 10; NetQuery q])
        | (QueryResult fc, stored) =>
            let total := default 0 (fc_totalCount fc) in
            let result :=
              {| features := default [] (fc_features fc);
                 totalCount := total;
                 hasMore := offset + limit <? total |} in
            (Fulfilled result, setCachedQuery queryCache stored key result,
             [SetLoadingProgress 0; NetQuery count;
              SetLoadingProgress 10; NetQuery q; SetLoadingProgress 100])
        end
    end.

(** The number of requests sent to the remote service. *)
Definition networkCalls (t : list event) : nat :=
  List.length
    (List.filter (fun e => match e with NetQuery _ => true | _ => false end)
       t).

End WithHost.

End Cache.

(** ** Draw-select tool ([useDrawTool]) *)

Module DrawTool.
Import JS Geometry.

Record latlng := { lat : number; lng : number }.
Record pixel := { px : number; py : number }.

(** [L.latLngBounds(a, b)]: the smallest bounds that hold both corners. *)
Definition L_latLngBounds (a b : latlng) : bounds :=
  {| getWest := min2 (lng a) (lng b); getSouth := min2 (lat a) (lat b);
     getEast := max2 (lng a) (lng b); getNorth := max2 (lat a) (lat b) |}.

(** The rectangle overlay: its bounds and whether it has the green style of
    a finished selection. *)
Record rectangle := { rbounds : bounds; selectedStyle : bool }.

Record state := {
  (** React state *)
  isDrawing : bool;
  (** variables of the effect closure *)
  isCurrentlyDrawing : bool;
  wasDraggingEnabled : bool;
  (** refs *)
  startPointRef : option latlng;
  rectangleRef : option rectangle;
  (** the map: is [rectangleRef.current] one of its layers, is dragging
      enabled, the cursor of its container *)
  rectangleOnMap : bool;
  dragging : bool;
  cursor : string
}.

(** What a handler asks of the rest of the application. *)
Inductive request :=
| QueryFeaturesInBounds (b : bounds)
| SetTimeout (ms : Z).

Definition initial (draggingEnabled : bool) : state :=
  {| isDrawing := false; isCurrentlyDrawing := false;
     wasDraggingEnabled := true; startPointRef := None;
     rectangleRef := None; rectangleOnMap := false;
     dragging := draggingEnabled; cursor := "" |}.

(** [if (rectangleRef.current && map.hasLayer(rectangleRef.current))
      map.removeLayer(rectangleRef.current)]. *)
Definition removeRectangle (s : state) : state :=
  match rectangleRef s with
  | Some _ =>
      if rectangleOnMap s then
        {| isDrawing := isDrawing s;
           isCurrentlyDrawing := isCurrentlyDrawing s;
           wasDraggingEnabled := wasDraggingEnabled s;
           startPointRef := startPointRef s;
           rectangleRef := rectangleRef s;
           rectangleOnMap := false;
           dragging := dragging s; cursor := cursor s |}
      else s
  | None => s
  end.

Definition setCursor (c : string) (s : state) : state :=
  {| isDrawing := isDrawing s;
     isCurrentlyDrawing := isCurrentlyDrawing s;
     wasDraggingEnabled := wasDraggingEnabled s;
     startPointRef := startPointRef s;
     rectangleRef := rectangleRef s;
     rectangleOnMap := rectangleOnMap s;
     dragging := dragging s; cursor := c |}.

Definition setDragging (d : bool) (s : state) : state :=
  {| isDrawing := isDrawing s;
     isCurrentlyDrawing := isCurrentlyDrawing s;
     wasDraggingEnabled := wasDraggingEnabled s;
     startPointRef := startPointRef s;
     rectangleRef := rectangleRef s;
     rectangleOnMap := rectangleOnMap s;
     dragging := d; cursor := cursor s |}.

(** [setIsDrawing(v)], applied by React once the handler has returned.  A
    changed value re-runs the effect of [[map, isDrawing]]: its cleanup
    removes the rectangle and resets the cursor, and the new closure starts
    from [isCurrentlyDrawing = false], [wasDraggingEnabled = true]. *)
Definition setIsDrawing (v : bool) (s : state) : state :=
  if Bool.eqb v (isDrawing s) then s
  else
    let s := setCursor "" (removeRectangle s) in
    {| isDrawing := v;
       isCurrentlyDrawing := false;
       wasDraggingEnabled := true;
       startPointRef := startPointRef s;
       rectangleRef := rectangleRef s;
       rectangleOnMap := rectangleOnMap s;
       dragging := dragging s; cursor := cursor s |}.

Definition startDrawing (s : state) : state := setIsDrawing true s.

Definition stopDrawing (s : state) : state :=
  setIsDrawing false (setCursor "" (removeRectangle s)).

Definition onMouseDown (e : latlng) (s : state) : state :=
  if negb (isDrawing s) then s
  else
    {| isDrawing := isDrawing s;
       isCurrentlyDrawing := true;
       wasDraggingEnabled := dragging s;
       startPointRef := Some e;
       rectangleRef :=
         Some {| rbounds := L_latLngBounds e e; selectedStyle := false |};
       rectangleOnMap := true;
       dragging := false;
       cursor := "crosshair" |}.

Definition onMouseMove (e : latlng) (s : state) : state :=
  match isCurrentlyDrawing s, startPointRef s with
  | true, Some start =>
      {| isDrawing := isDrawing s;
         isCurrentlyDrawing := isCurrentlyDrawing s;
         wasDraggingEnabled := wasDraggingEnabled s;
         startPointRef := startPointRef s;
         rectangleRef :=
           option_map
             (fun r => {| rbounds := L_latLngBounds start e;
                          selectedStyle := selectedStyle r |})
             (rectangleRef s);
         rectangleOnMap := rectangleOnMap s;
         dragging := dragging s; cursor := cursor s |}
  | _, _ => s
  end.

Section WithMap.

(** [map.latLngToContainerPoint]. *)
Variable latLngToContainerPoint : latlng -> pixel.

Definition onMouseUp (e : latlng) (s : state) : state * list request :=
  match isCurrentlyDrawing s, startPointRef s with
  | true, Some start =>
      let endPoint := e in
      let b := L_latLngBounds start endPoint in
      let startPixel := latLngToContainerPoint start in
      let endPixel := latLngToContainerPoint endPoint in
      let width := Math_abs (px endPixel - px startPixel)%float in
      let height := Math_abs (py endPixel - py startPixel)%float in
      let s1 :=
        {| isDrawing := isDrawing s;
           isCurrentlyDrawing := false;
           wasDraggingEnabled := wasDraggingEnabled s;
           startPointRef := startPointRef s;
           rectangleRef := rectangleRef s;
           rectangleOnMap := rectangleOnMap s;
           dragging := dragging s; cursor := cursor s |} in
      if lt width 10%float || lt height 10%float then
        let s2 := setCursor "" (removeRectangle s1) in
        let s3 := if wasDraggingEnabled s2 then setDragging true s2
                  else s2 in
        (setIsDrawing false s3, [])
      else
        let s2 :=
          {| isDrawing := isDrawing s1;
             isCurrentlyDrawing := isCurrentlyDrawing s1;
             wasDraggingEnabled := wasDraggingEnabled s1;
             startPointRef := startPointRef s1;
             rectangleRef :=
               option_map
                 (fun r => {| rbounds := rbounds r; selectedStyle := true |})
                 (rectangleRef s1);
             rectangleOnMap := rectangleOnMap s1;
             dragging := dragging s1; cursor := "" |} in
        let s3 := if wasDraggingEnabled s2 then setDragging true s2
                  else s2 in
        (setIsDrawing false s3, [QueryFeaturesInBounds b; SetTimeout 5000])
  | _, _ => (s, [])
  end.

(** The callback of [setTimeout(..., 5000)]. *)
Definition onTimeout (s : state) : state := removeRectangle s.

(** The gestures and commands the tool receives. *)
Inductive input :=
| StartDrawing
| StopDrawing
| MouseDown (e : latlng)
| MouseMove (e : latlng)
| MouseUp (e : latlng)
| Timeout.

Definition step (s : state) (i : input) : state * list request :=
  match i with
  | StartDrawing => (startDrawing s, [])
  | StopDrawing => (stopDrawing s, [])
  | MouseDown e => (onMouseDown e s, [])
  | MouseMove e => (onMouseMove e s, [])
  | MouseUp e => onMouseUp e s
  | Timeout => (onTimeout s, [])
  end.

(** A drag: pointer-down at [start], then the pointer moves. *)
Definition drag (start : latlng) (moves : list latlng) (s : state)
  : state :=
  List.fold_left (fun s e => onMouseMove e s) moves (onMouseDown start s).

Fixpoint run (s : state) (inputs : list input) : state * list request :=
  match inputs with
  | [] => (s, [])
  | i :: rest =>
      let (s1, r1) := step s i in
      let (s2, r2) := run s1 rest in
      (s2, (r1 ++ r2)%list)
  end.

End WithMap.

End DrawTool.

(** ** Measurement tool ([useMeasureTool]) *)

Module Measure.
Import JS.

(** A Leaflet [LatLng] over the numbers [T]. *)
Record LatLng (T : Type) := { lat : T; lng : T }.
Arguments lat {T} _.
Arguments lng {T} _.

Record area (T : Type) := { acres : T; sqMiles : T }.
Arguments acres {T} _.
Arguments sqMiles {T} _.

Section Area.
Context {T : Type} `{Arith T}.

(** The body of [for (let i = 0; i < n; i++)] in [calculateArea]. *)
Definition area_step (points : list (LatLng T)) (n : nat) (area : T)
    (i : nat) : T :=
  let j := ((i + 1) mod n)%nat in
  let origin := {| lat := zero; lng := zero |} in
  let pi := List.nth i points origin in
  let pj := List.nth j points origin in
  let area := add area (mul (lng pi) (lat pj)) in
  sub area (mul (lng pj) (lat pi)).

Definition areaInSqMeters (points : list (LatLng T)) : T :=
  let n := List.length points in
  let area := List.fold_left (area_step points n) (List.seq 0 n) zero in
  let area := div (abs area) (lit 2 0) in
  let earthRadius := lit 6371000 0 in
  mul (mul (mul (mul area (div Math_PI (lit 180 0)))
                (div Math_PI (lit 180 0)))
           earthRadius)
      earthRadius.

Definition calculateArea (points : list (LatLng T)) : area T :=
  if (List.length points <? 3)%nat then {| acres := zero; sqMiles := zero |}
  else
    let m := areaInSqMeters points in
    {| acres := mul m (lit 247105 9); sqMiles := mul m (lit 386102 12) |}.

End Area.

Inductive mode := line_mode | area_mode.

Definition mode_text (m : mode) : string :=
  match m with line_mode => "line" | area_mode => "area" end.

Record state := {
  (** React state *)
  isMeasuring : bool;
  measureMode : mode;
  (** refs *)
  isMeasuringRef : bool;
  isDoubleClickingRef : bool;
  measurePointsRef : list (LatLng number);
  measureLineRef : option (list (LatLng number));
  measurePolygonRef : option (list (LatLng number));
  (** the status line, last argument of [setMessage] *)
  message : string
}.

Definition initial : state :=
  {| isMeasuring := false; measureMode := line_mode; isMeasuringRef := false;
     isDoubleClickingRef := false; measurePointsRef := [];
     measureLineRef := None; measurePolygonRef := None; message := "" |}.

Definition startMeasuring (m : mode) (s : state) : state :=
  {| isMeasuring := true; measureMode := m; isMeasuringRef := true;
     isDoubleClickingRef := false; measurePointsRef := [];
     measureLineRef := measureLineRef s;
     measurePolygonRef := measurePolygonRef s;
     message := "📏 Measure Tool (" +:+ mode_text m
                +:+ "): Click to add vertices, double-click to finish" |}.

Definition stopMeasuring (s : state) : state :=
  {| isMeasuring := false; measureMode := measureMode s;
     isMeasuringRef := false; isDoubleClickingRef := false;
     measurePointsRef := []; measureLineRef := None;
     measurePolygonRef := None; message := "Measure Tool: Stopped" |}.

Definition clearMeasurements (s : state) : state :=
  {| isMeasuring := isMeasuring s; measureMode := measureMode s;
     isMeasuringRef := isMeasuringRef s; isDoubleClickingRef := false;
     measurePointsRef := []; measureLineRef := None;
     measurePolygonRef := None; message := "All measurements cleared" |}.

Definition setMessage (msg : string) (s : state) : state :=
  {| isMeasuring := isMeasuring s; measureMode := measureMode s;
     isMeasuringRef := isMeasuringRef s;
     isDoubleClickingRef := isDoubleClickingRef s;
     measurePointsRef := measurePointsRef s;
     measureLineRef := measureLineRef s;
     measurePolygonRef := measurePolygonRef s; message := msg |}.

Section WithHost.

(** [LatLng.distanceTo], [Number.toFixed], [Number.toLocaleString] and
    the text of a length in a template. *)
Variable distanceTo : LatLng number -> LatLng number -> number.
Variable toFixed : number -> nat -> string.
Variable toLocaleString : number -> string.
Variable showLength : nat -> string.

(** [for (let i = 1; i < points.length; i++)] over [points[i-1]],
    [points[i]]. *)
Fixpoint totalDistance (points : list (LatLng number)) (total : number)
  : number :=
  match points with
  | a :: (b :: _) as rest => totalDistance rest (total + distanceTo a b)%float
  | _ => total
  end.

Definition calculateDistance (points : list (LatLng number))
  : number * number :=
  if (List.length points <? 2)%nat then (0%float, 0%float)
  else
    let total := totalDistance points 0%float in
    ((total * 0.000621371)%float, (total * 3.28084)%float).

Definition lineMessage (prefix suffix : string)
    (points : list (LatLng number)) : string :=
  let (miles, feet) := calculateDistance points in
  prefix +:+ toFixed miles 3 +:+ " miles (" +:+ toLocaleString feet
    +:+ " feet) - " +:+ showLength (List.length points) +:+ " points"
    +:+ suffix.

Definition areaMessage (prefix suffix : string)
    (points : list (LatLng number)) : string :=
  let a := calculateArea points in
  prefix +:+ toFixed (acres a) 2 +:+ " acres (" +:+ toFixed (sqMiles a) 6
    +:+ " sq miles) - " +:+ showLength (List.length points) +:+ " points"
    +:+ suffix.

Definition handleMapClick (e : LatLng number) (s : state) : state :=
  if negb (isMeasuringRef s) || isDoubleClickingRef s then s
  else
    let points := (measurePointsRef s ++ [e])%list in
    let n := List.length points in
    match measureMode s with
    | line_mode =>
        {| isMeasuring := isMeasuring s; measureMode := measureMode s;
           isMeasuringRef := isMeasuringRef s;
           isDoubleClickingRef := isDoubleClickingRef s;
           measurePointsRef := points;
           measureLineRef :=
             if (1 <? n)%nat then Some points else measureLineRef s;
           measurePolygonRef := measurePolygonRef s;
           message :=
             if (1 <? n)%nat then
               lineMessage "📏 Line: " " - Double-click to finish" points
             else if (n =? 1)%nat then
               "📏 Line Measure: Click to add more vertices, double-click to finish"
             else message s |}
    | area_mode =>
        {| isMeasuring := isMeasuring s; measureMode := measureMode s;
           isMeasuringRef := isMeasuringRef s;
           isDoubleClickingRef := isDoubleClickingRef s;
           measurePointsRef := points;
           measureLineRef := measureLineRef s;
           measurePolygonRef :=
             if (2 <? n)%nat then Some points else measurePolygonRef s;
           message :=
             if (2 <? n)%nat then
               areaMessage "📐 Area: " " - Double-click to finish" points
             else if (n =? 1)%nat then
               "📐 Area Measure: Click to add more vertices, double-click to finish"
             else if (n =? 2)%nat then
               "📐 Area Measure: Need at least 3 points for area calculation"
             else message s |}
    end.

Definition handleMapDoubleClick (s : state) : state :=
  if negb (isMeasuringRef s) then s
  else
    let points := measurePointsRef s in
    let msg :=
      match measureMode s with
      | line_mode =>
          if (1 <? List.length points)%nat then
            lineMessage "📏 LINE MEASUREMENT COMPLETE: " "" points
          else "❌ Line measurement requires at least 2 points"
      | area_mode =>
          if (2 <? List.length points)%nat then
            areaMessage "📐 AREA MEASUREMENT COMPLETE: " "" points
          else "❌ Area measurement requires at least 3 points"
      end in
    {| isMeasuring := false; measureMode := measureMode s;
       isMeasuringRef := false;
       isDoubleClickingRef := true;
       measurePointsRef := points;
       measureLineRef := measureLineRef s;
       measurePolygonRef := measurePolygonRef s;
       message := msg |}.

(** The callback of [setTimeout(..., 100)]. *)
Definition onTimeout (s : state) : state :=
  {| isMeasuring := isMeasuring s; measureMode := measureMode s;
     isMeasuringRef := isMeasuringRef s;
     isDoubleClickingRef := false;
     measurePointsRef := measurePointsRef s;
     measureLineRef := measureLineRef s;
     measurePolygonRef := measurePolygonRef s; message := message s |}.

(** The session is collecting when a click appends a vertex. *)
Definition collecting (s : state) : bool :=
  isMeasuringRef s && negb (isDoubleClickingRef s).

End WithHost.

End Measure.

(** ** Vocabulary of the claims *)

Module Formulas.
Import JS Geometry Data Measure.

(** The [i]-th term [lng_i * lat_(i+1) - lng_(i+1) * lat_i] of the shoelace
    formula, indices taken cyclically. *)
Definition shoelace_term (points : list (LatLng Q)) (i : nat) : Q :=
  let n := List.length points in
  let origin := {| lat := 0%Q; lng := 0%Q |} in
  let pi := List.nth i points origin in
  let pj := List.nth ((i + 1) mod n)%nat points origin in
  (lng pi * lat pj - lng pj * lat pi)%Q.

Fixpoint Qsum (l : list Q) : Q :=
  match l with
  | [] => 0%Q
  | q :: rest => (q + Qsum rest)%Q
  end.

(** The planar shoelace sum over raw longitude and latitude degrees. *)
Definition shoelace_sum (points : list (LatLng Q)) : Q :=
  Qsum (List.map (shoelace_term points) (List.seq 0 (List.length points))).

(** The points lie on one line [a * lng + b * lat = c]. *)
Definition collinear (points : list (LatLng Q)) : Prop :=
  exists a b c : Q,
    ~ (a == 0 /\ b == 0)%Q /\
    forall p, List.In p points -> (a * lng p + b * lat p == c)%Q.

(** The exact position of a point given in binary64. *)
Definition exact (p : LatLng number) : LatLng Q :=
  {| lat := Q_of_float (lat p); lng := Q_of_float (lng p) |}.

(** The value of a settled promise, [d] when it is rejected. *)
Definition settled_value {A} (d : A) (p : outcome A) : A :=
  match p with
  | Fulfilled a => a
  | Rejected _ => d
  end.

(** The features one layer contributes to a selection. *)
Definition layerFeatures (net : network) (b : bounds) (l : layer)
  : list feature :=
  settled_value [] (fst (Orchestrator.queryLayer net b l)).


(** What the client-side filter of the first fetch guarantees of a feature
    it lets through; nothing is said of polygons there. *)
Definition first_fetch_accepts (b : bounds) (f : feature) : Prop :=
  match geometry f with
  | Some (Point (lon, lat)) => Orchestrator.inBounds b lon lat = true
  | Some (LineString line) => lineIntersectsRectangle line b = true
  | Some (MultiLineString lines) =>
      exists line,
        List.In line lines /\ lineIntersectsRectangle line b = true
  | Some (Polygon _) => True
  | Some (MultiPolygon _) => True
  | Some (OtherGeometry _) => False
  | None => False
  end.

(** What the client-side filter of the retry fetch guarantees. *)
Definition retry_fetch_accepts (b : bounds) (f : feature) : Prop :=
  match geometry f with
  | Some (Point (lon, lat)) => Orchestrator.inBounds b lon lat = true
  | Some (LineString line) =>
      lineIntersectsRectangle line b = true \/
      Orchestrator.boundingBoxOverlaps b line = true
  | Some (MultiLineString lines) =>
      exists line,
        List.In line lines /\
        (lineIntersectsRectangle line b = true \/
         Orchestrator.boundingBoxOverlaps b line = true)
  | Some (Polygon rings) =>
      exists ring rest,
        rings = ring :: rest /\
        (Orchestrator.hasPointInBounds b ring = true \/
         polygonIntersectsRectangle ring b = true)
  | Some (MultiPolygon polygons) =>
      exists ring rest,
        List.In (ring :: rest) polygons /\
        (Orchestrator.hasPointInBounds b ring = true \/
         polygonIntersectsRectangle ring b = true)
  | Some (OtherGeometry _) => False
  | None => False
  end.

(** A bounding box with a coordinate that is not finite, or inverted. *)
Definition malformed (b : bounds) : bool :=
  negb (PrimFloat.is_finite (getWest b) && PrimFloat.is_finite (getSouth b)
        && PrimFloat.is_finite (getEast b)
        && PrimFloat.is_finite (getNorth b))
  || lt (getEast b) (getWest b) || lt (getNorth b) (getSouth b).

(** The drag from [start] to [e] spans fewer than 10 pixels on an axis. *)
Definition span_below_threshold
    (latLngToContainerPoint : DrawTool.latlng -> DrawTool.pixel)
    (start e : DrawTool.latlng) : bool :=
  let startPixel := latLngToContainerPoint start in
  let endPixel := latLngToContainerPoint e in
  lt (Math_abs (DrawTool.px endPixel - DrawTool.px startPixel)%float)
     10%float
  || lt (Math_abs (DrawTool.py endPixel - DrawTool.py startPixel)%float)
        10%float.

(** The state of the draw tool in the middle of a drag begun at [start]
    while map dragging was [panning]. *)
Definition mid_drag (panning : bool) (start : DrawTool.latlng)
    (s : DrawTool.state) : Prop :=
  DrawTool.isDrawing s = true /\ DrawTool.isCurrentlyDrawing s = true /\
  DrawTool.wasDraggingEnabled s = panning /\
  DrawTool.startPointRef s = Some start /\
  (exists r, DrawTool.rectangleRef s = Some r) /\
  DrawTool.rectangleOnMap s = true /\
  DrawTool.dragging s = false.

End Formulas.

(** ** Concrete inputs *)

(** Three vertices near Columbus, exactly on the line [lat - lng = 123 + 2^-21],
    for which the binary64 loop of [calculateArea] leaves a rounding
    residue. *)
Definition residue_points : list (Measure.LatLng float) :=
  [ {| Measure.lat := 0x1.4000008p+5%float;
       Measure.lng := (-0x1.4bffffep+6)%float |};
    {| Measure.lat := 0x1.400000cp+5%float;
       Measure.lng := (-0x1.4bffffcp+6)%float |};
    {| Measure.lat := 0x1.400001p+5%float;
       Measure.lng := (-0x1.4bffffap+6)%float |} ].


Module Scenario.
Import JS Geometry Data.

(** The selection box of the specification's scenario. *)
Definition columbus : bounds :=
  {| getWest := (-83.0)%float; getSouth := 39.9%float;
     getEast := (-82.9)%float; getNorth := 40.0%float |}.

(** An inverted box: west of it lies east of its east. *)
Definition inverted : bounds :=
  {| getWest := 10%float; getSouth := 10%float;
     getEast := (-10)%float; getNorth := (-10)%float |}.

Definition not_a_number : bounds :=
  {| getWest := nan; getSouth := nan; getEast := nan; getNorth := nan |}.

Definition only_bridges : layerStates :=
  {| bridges := true; conduits := false; roads := false;
     boundaries := false; lighting := false |}.


Definition bridges_layer : layer :=
  {| name := "bridges";
     url := "https://gis.dot.state.oh.us/arcgis/rest/services/TIMS/Assets/MapServer/5";
     visible := true |}.


Definition point_feature (lon lat : number) : feature :=
  {| geometry := Some (Point (lon, lat)); properties := [];
     layerName := None |}.

Definition inside : feature := point_feature (-82.95)%float 39.95%float.
Definition outside : feature := point_feature (-80)%float 41%float.

(** No service answers. *)
Definition net_down : network :=
  {| esri_within := fun _ _ _ => EsriError NetworkError;
     fetch := fun _ => Rejected NetworkError |}.

(** The native query answers with a point that lies outside the box. *)
Definition net_native_outside : network :=
  {| esri_within := fun _ _ _ => EsriResult (Some (Some [outside]));
     fetch := fun _ => Rejected NetworkError |}.

(** The native query finds nothing; the first fetch answers with a point
    inside and a point outside the box. *)
Definition net_fetch_both : network :=
  {| esri_within := fun _ _ _ => EsriResult (Some (Some []));
     fetch := fun _ =>
       Fulfilled {| ok := true; status := 200;
                    json := Fulfilled (JsonObject (Some [inside; outside])) |} |}.

(** The bridges service is down; the conduits service answers natively. *)
Definition net_bridges_down : network :=
  {| esri_within := fun u _ _ =>
       if String.eqb u (url bridges_layer) then EsriError TimeoutError
       else EsriResult (Some (Some [inside]));
     fetch := fun _ => Rejected TimeoutError |}.

(** A box and a line that passes its north-west corner on the outside: no
    vertex in the box, no segment across an edge, overlapping bounding
    boxes. *)
Definition unit_box : bounds :=
  {| getWest := 0%float; getSouth := 0%float;
     getEast := 10%float; getNorth := 10%float |}.




(** A feature layer that answers every query with one feature out of one,
    at time 1000. *)
Definition service : Cache.featureLayer :=
  {| Cache.layer_name := "bridges";
     Cache.run := fun _ =>
       (Cache.QueryResult
          {| Cache.fc_features := Some [inside];
             Cache.fc_totalCount := Some 1 |}, 1000) |}.

Definition stringify (b : bounds) : string := "bounds".
Definition decimal (z : Z) : string := if (z =? 1)%Z then "1" else "n".

Definition first_page : Cache.queryResult :=
  {| Cache.features := [inside]; Cache.totalCount := 1;
     Cache.hasMore := false |}.

(** The cache after the first page of [service] was stored at time 1000. *)
Definition warm_cache : gmap string Cache.cacheEntry :=
  Cache.setCachedQuery ∅ 1000
    (Cache.cacheKey stringify decimal service columbus 1 50) first_page.

(** A map shown at 1000 pixels per degree. *)
Definition projection (p : DrawTool.latlng) : DrawTool.pixel :=
  {| DrawTool.px := (DrawTool.lng p * 1000)%float;
     DrawTool.py := (DrawTool.lat p * 1000)%float |}.

Definition corner_a : DrawTool.latlng :=
  {| DrawTool.lat := 40%float; DrawTool.lng := (-83)%float |}.
(** 5 pixels from [corner_a] on both axes. *)
Definition corner_near : DrawTool.latlng :=
  {| DrawTool.lat := 40.005%float; DrawTool.lng := (-82.995)%float |}.
(** 100 pixels from [corner_a] on both axes. *)
Definition corner_far : DrawTool.latlng :=
  {| DrawTool.lat := 40.1%float; DrawTool.lng := (-82.9)%float |}.

(** Stand-ins for [distanceTo], [toFixed], [toLocaleString] and the text of
    a length. *)
Definition flat_distance (a b : Measure.LatLng number) : number := 0%float.
Definition fixed (x : number) (digits : nat) : string := "0".
Definition localized (x : number) : string := "0".
Definition count_text (n : nat) : string := "n".

Definition vertex : Measure.LatLng number :=
  {| Measure.lat := 40%float; Measure.lng := (-83)%float |}.

(** A square ring around [unit_box] and a polygon feature made of it; a
    triangle ring with one vertex in [unit_box]. *)
Definition big_square : list position :=
  [ ((-5)%float, (-5)%float); (15%float, (-5)%float); (15%float, 15%float);
    ((-5)%float, 15%float); ((-5)%float, (-5)%float) ].

Definition triangle : list position :=
  [ (5%float, 5%float); (20%float, 5%float); (20%float, 20%float);
    (5%float, 5%float) ].

Definition triangle_feature : feature :=
  {| geometry := Some (Polygon [triangle]); properties := [];
     layerName := None |}.

End Scenario.

(** ** Initial page and "load more" *)

Module Paging.
Import JS Geometry Data.

(** The paging state of the [App] component. *)
Record state := {
  isLoadingFeatures : bool;
  loadingProgress : Z;
  featureCount : Z;
  displayedFeatures : list feature;
  selectedFeatures : list feature;
  hasMoreFeatures : bool;
  currentPage : Z;
  isLoadingMore : bool;
  queryCache : gmap string Cache.cacheEntry;
  message : string
}.

Definition FEATURES_PER_PAGE : Z := 50.
Definition INITIAL_FEATURE_LIMIT : Z := 100.
Definition MAX_FEATURES_FOR_DISPLAY : Z := 1000.

Definition initial : state :=
  {| isLoadingFeatures := false; loadingProgress := 0; featureCount := 0;
     displayedFeatures := []; selectedFeatures := [];
     hasMoreFeatures := false; currentPage := 1; isLoadingMore := false;
     queryCache := ∅; message := "" |}.

(** The progress shown once the calls of [setLoadingProgress] in a list of
    events are applied. *)
Definition progress_after (t : list Cache.event) (progress : Z) : Z :=
  List.fold_left
    (fun p e =>
       match e with Cache.SetLoadingProgress v => v | _ => p end)
    t progress.

Section WithHost.

Variable JSON_stringify : bounds -> string.
Variable toString : Z -> string.

(** The result is the next state, the events of the load, and the error
    handed to [Logger.error], if any. *)
Definition loadInitialFeatures (now : Z) (l : Cache.featureLayer)
    (b : bounds) (s : state)
  : state * list Cache.event * option error :=
  match Cache.loadFeaturesWithProgress JSON_stringify toString
          (queryCache s) now l b 1 INITIAL_FEATURE_LIMIT with
  | (Fulfilled result, cache, t) =>
      let n := toString (Z.of_nat (List.length (Cache.features result))) in
      ({| isLoadingFeatures := false; loadingProgress := 0;
          featureCount := Cache.totalCount result;
          displayedFeatures := Cache.features result;
          selectedFeatures := Cache.features result;
          hasMoreFeatures := Cache.hasMore result;
          currentPage := 1;
          isLoadingMore := isLoadingMore s;
          queryCache := cache;
          message :=
            if MAX_FEATURES_FOR_DISPLAY <? Cache.totalCount result then
              "Loaded " +:+ n +:+ " of "
                +:+ toString (Cache.totalCount result)
                +:+ " features. Use filters to narrow results."
            else "Loaded " +:+ n +:+ " features" |},
       t, None)
  | (Rejected error, cache, t) =>
      ({| isLoadingFeatures := false; loadingProgress := 0;
          featureCount := featureCount s;
          displayedFeatures := displayedFeatures s;
          selectedFeatures := selectedFeatures s;
          hasMoreFeatures := hasMoreFeatures s;
          currentPage := currentPage s;
          isLoadingMore := isLoadingMore s;
          queryCache := cache;
          message := message s |},
       t, Some error)
  end.

(** [l] is the first layer of [layerRefs], [b] the bounds of the map; each
    may be missing. *)
Definition loadMoreFeatures (now : Z) (l : option Cache.featureLayer)
    (b : option bounds) (s : state)
  : state * list Cache.event * option error :=
  if negb (hasMoreFeatures s) || isLoadingMore s then (s, [], None)
  else
    let nextPage := currentPage s + 1 in
    match l, b with
    | Some l, Some b =>
        match Cache.loadFeaturesWithProgress JSON_stringify toString
                (queryCache s) now l b nextPage FEATURES_PER_PAGE with
        | (Fulfilled result, cache, t) =>
            let n := List.length (Cache.features result) in
            ({| isLoadingFeatures := isLoadingFeatures s;
                loadingProgress := progress_after t (loadingProgress s);
                featureCount := featureCount s;
                displayedFeatures :=
                  (displayedFeatures s ++ Cache.features result)%list;
                selectedFeatures :=
                  (selectedFeatures s ++ Cache.features result)%list;
                hasMoreFeatures := Cache.hasMore result;
                currentPage := nextPage;
                isLoadingMore := false;
                queryCache := cache;
                message :=
                  "Loaded " +:+ toString (Z.of_nat n)
                    +:+ " more features ("
                    +:+ toString
                          (Z.of_nat (List.length (displayedFeatures s))
                           + Z.of_nat n)
                    +:+ " total)" |},
             t, None)
        | (Rejected error, cache, t) =>
            ({| isLoadingFeatures := isLoadingFeatures s;
                loadingProgress := progress_after t (loadingProgress s);
                featureCount := featureCount s;
                displayedFeatures := displayedFeatures s;
                selectedFeatures := selectedFeatures s;
                hasMoreFeatures := hasMoreFeatures s;
                currentPage := currentPage s;
                isLoadingMore := false;
                queryCache := cache;
                message := message s |},
             t, Some error)
        end
    | _, _ =>
        ({| isLoadingFeatures := isLoadingFeatures s;
            loadingProgress := loadingProgress s;
            featureCount := featureCount s;
            displayedFeatures := displayedFeatures s;
            selectedFeatures := selectedFeatures s;
            hasMoreFeatures := hasMoreFeatures s;
            currentPage := currentPage s;
            isLoadingMore := false;
            queryCache := queryCache s;
            message := "No layer or map bounds available" |},
         [], None)
    end.

End WithHost.

End Paging.

(** ** Terms of the further properties *)

Module Terms.
Import JS Geometry Data.






(** Two selections of the same box, one after the other. *)
Definition select_twice (net : network) (b : bounds) (ls : layerStates)
  : M unit :=
  do Orchestrator.queryFeaturesInBounds net b ls then
  Orchestrator.queryFeaturesInBounds net b ls.

(** The native queries and the fetches in a trace of the orchestrator. *)
Definition nativeQueries (t : list event) : nat :=
  List.length
    (List.filter
       (fun e => match e with NetEsriQuery _ _ _ => true | _ => false end)
       t).

Definition fetches (t : list event) : nat :=
  List.length
    (List.filter
       (fun e => match e with NetFetch _ _ => true | _ => false end) t).

(** The selections asked by the draw tool and the activations it got. *)
Definition selections (rs : list DrawTool.request) : nat :=
  List.length
    (List.filter
       (fun r =>
          match r with DrawTool.QueryFeaturesInBounds _ => true | _ => false end)
       rs).

Definition activations (inputs : list DrawTool.input) : nat :=
  List.length
    (List.filter
       (fun i => match i with DrawTool.StartDrawing => true | _ => false end)
       inputs).

(** A drag is in progress only while the tool is active. *)
Definition drag_implies_armed (s : DrawTool.state) : Prop :=
  DrawTool.isCurrentlyDrawing s = true -> DrawTool.isDrawing s = true.

Definition armed (s : DrawTool.state) : nat :=
  if DrawTool.isDrawing s then 1%nat else 0%nat.

Definition activation (i : DrawTool.input) : nat :=
  match i with DrawTool.StartDrawing => 1%nat | _ => 0%nat end.

(** The tool at rest: not active, no drag, no rectangle on the map, the
    cursor as the map has it. *)
Definition at_rest (s : DrawTool.state) : Prop :=
  DrawTool.isDrawing s = false /\ DrawTool.isCurrentlyDrawing s = false /\
  DrawTool.rectangleOnMap s = false /\ DrawTool.cursor s = "".

(** The clicks of a measurement, one after the other. *)
Definition clicks
    (distanceTo : Measure.LatLng number -> Measure.LatLng number -> number)
    (toFixed : number -> nat -> string) (toLocaleString : number -> string)
    (showLength : nat -> string)
    (es : list (Measure.LatLng number)) (s : Measure.state)
  : Measure.state :=
  List.fold_left
    (fun s e =>
       Measure.handleMapClick distanceTo toFixed toLocaleString showLength
         e s)
    es s.

(** The point moved by [dlat] degrees of latitude and [dlng] degrees of
    longitude. *)
Definition shift (dlat dlng : Q) (p : Measure.LatLng Q) : Measure.LatLng Q :=
  {| Measure.lat := (Measure.lat p + dlat)%Q;
     Measure.lng := (Measure.lng p + dlng)%Q |}.

(** One of the four bounds is NaN. *)
Definition has_nan_bound (b : bounds) : bool :=
  PrimFloat.is_nan (getWest b) || PrimFloat.is_nan (getSouth b)
  || PrimFloat.is_nan (getEast b) || PrimFloat.is_nan (getNorth b).

(** Both corners have finite coordinates. *)
Definition finite_corners (a b : DrawTool.latlng) : bool :=
  PrimFloat.is_finite (DrawTool.lat a) && PrimFloat.is_finite (DrawTool.lng a)
  && PrimFloat.is_finite (DrawTool.lat b)
  && PrimFloat.is_finite (DrawTool.lng b).

End Terms.

(** ** More concrete inputs *)

Module Cases.
Import JS Geometry Data.

Definition ringless : feature :=
  {| geometry := Some (Polygon []); properties := []; layerName := None |}.

(** The native query and the first fetch fail; the retry fetch answers with
    a point in the box and a polygon without ring. *)
Definition net_retry_ringless : network :=
  {| esri_within := fun _ _ _ => EsriError NetworkError;
     fetch := fun req =>
       match req with
       | Envelope _ _ _ _ _ _ => Rejected NetworkError
       | WhereAll _ _ =>
           Fulfilled
             {| ok := true; status := 200;
                json :=
                  Fulfilled
                    (JsonObject (Some [Scenario.inside; ringless])) |}
       end |}.



(** A feature layer that holds the features [all] and answers a query with
    the features from its offset on, as many as its limit, and their total
    number, at time 1000. *)
Definition paged_service (all : list feature) : Cache.featureLayer :=
  {| Cache.layer_name := "bridges";
     Cache.run := fun q =>
       (Cache.QueryResult
          {| Cache.fc_features :=
               Some (List.firstn (Z.to_nat (Cache.q_limit q))
                       (List.skipn (Z.to_nat (default 0 (Cache.q_offset q)))
                          all));
             Cache.fc_totalCount := Some (Z.of_nat (List.length all)) |},
        1000) |}.

(** 120 points on the parallel of 40 degrees, at longitudes 0, 1, ... *)
Definition many : list feature :=
  List.map
    (fun i =>
       Scenario.point_feature
         (PrimFloat.of_uint63 (Uint63.of_Z (Z.of_nat i))) 40%float)
    (List.seq 0 120).

(** The binary64 number [z / 2^30], exact for [0 <= z < 2^53]. *)
Definition dyadic (z : Z) : number :=
  (PrimFloat.of_uint63 (Uint63.of_Z z)
   / PrimFloat.of_uint63 (Uint63.of_Z (2 ^ 30)))%float.

(** A triangle about 0.008 degree wide near 83 degrees west, its southern
    edge [lat0] degrees north.  All coordinates are multiples of [2^-30], so
    the triangles of two values of [lat0] are exact translations of each
    other. *)
Definition triangle_at (lat0 : Z) : list (Measure.LatLng number) :=
  [ {| Measure.lat := dyadic (lat0 * 2 ^ 30 + 1234567);
       Measure.lng := PrimFloat.opp (dyadic (83 * 2 ^ 30 - 7654321)) |};
    {| Measure.lat := dyadic (lat0 * 2 ^ 30 + 9876543);
       Measure.lng := PrimFloat.opp (dyadic (83 * 2 ^ 30 - 7000003)) |};
    {| Measure.lat := dyadic (lat0 * 2 ^ 30 + 5555555);
       Measure.lng := PrimFloat.opp (dyadic (83 * 2 ^ 30 - 1111111)) |} ].


(** A feature layer whose service is down. *)
Definition service_down : Cache.featureLayer :=
  {| Cache.layer_name := "bridges";
     Cache.run := fun _ => (Cache.QueryError NetworkError, 1000) |}.

End Cases.
(** * Properties *)

Import JS Geometry Data.

(** ** Numbers *)

(** The decimal literals of [calculateArea], read as JavaScript reads them. *)
Lemma lit_float_literals :
  (lit 2 0 : float) = 2%float /\
  (lit 180 0 : float) = 180%float /\
  (lit 6371000 0 : float) = 6371000%float /\
  (lit 247105 9 : float) = 0.000247105%float /\
  (lit 386102 12 : float) = 3.86102e-7%float.
Proof. repeat split; vm_compute; reflexivity. Qed.

Lemma Math_PI_exact : (Q_of_float (Math_PI : float) == (Math_PI : Q))%Q.
Proof. vm_compute. reflexivity. Qed.

(** ** Geometry predicates on concrete inputs *)

Lemma pointInRectangle_inclusive :
  let r := rect_of_bounds Scenario.unit_box in
  pointInRectangle {| x := 0%float; y := 10%float |} r = true /\
  pointInRectangle {| x := 5%float; y := 5%float |} r = true /\
  pointInRectangle {| x := 10.5%float; y := 5%float |} r = false /\
  pointInRectangle {| x := nan; y := 5%float |} r = false.
Proof. vm_compute. repeat split; reflexivity. Qed.

Lemma lineSegmentsIntersect_examples :
  lineSegmentsIntersect
    {| x := 0%float; y := 0%float |} {| x := 4%float; y := 4%float |}
    {| x := 0%float; y := 4%float |} {| x := 4%float; y := 0%float |} = true /\
  lineSegmentsIntersect
    {| x := 0%float; y := 0%float |} {| x := 1%float; y := 1%float |}
    {| x := 0%float; y := 4%float |} {| x := 4%float; y := 0%float |} = false /\
  lineSegmentsIntersect
    {| x := 0%float; y := 0%float |} {| x := 2%float; y := 0%float |}
    {| x := 1%float; y := 0%float |} {| x := 3%float; y := 0%float |} = false.
Proof. vm_compute. repeat split; reflexivity. Qed.

Lemma polygon_examples :
  pointInPolygon {| x := 5%float; y := 5%float |} Scenario.big_square = true /\
  pointInPolygon {| x := 20%float; y := 5%float |} Scenario.big_square = false /\
  polygonIntersectsRectangle Scenario.big_square Scenario.unit_box = true /\
  polygonIntersectsRectangle Scenario.triangle Scenario.unit_box = true /\
  polygonIntersectsRectangle [] Scenario.unit_box = false /\
  lineIntersectsRectangle [] Scenario.unit_box = false.
Proof. vm_compute. repeat split; reflexivity. Qed.

(** A polygon with a vertex in the box: the retry fetch keeps it, the first
    fetch, which reads the list of rings as one ring, does not. *)
Lemma polygon_filters_example :
  Orchestrator.fallbackFilter Scenario.unit_box Scenario.triangle_feature =
  Fulfilled true /\
  Orchestrator.clientFilter Scenario.unit_box Scenario.triangle_feature = false.
Proof. vm_compute. split; reflexivity. Qed.

(** ** Area: exact arithmetic *)

Section AreaExact.
Import Measure Formulas.
Local Open Scope Q_scope.

(** The loop of [calculateArea] adds the shoelace terms to its
    accumulator. *)
Lemma fold_area_step (points : list (LatLng Q)) (l : list nat) (a : Q) :
  List.fold_left (area_step points (List.length points)) l a ==
  a + Qsum (List.map (shoelace_term points) l).
Proof.
  revert a. induction l as [|i l IH]; intro a; simpl.
  - ring.
  - rewrite IH. unfold area_step, shoelace_term; simpl. ring.
Qed.

Lemma areaInSqMeters_shoelace (points : list (LatLng Q)) :
  areaInSqMeters points ==
  Qabs (shoelace_sum points) / 2 *
    ((Math_PI / 180) * (Math_PI / 180) * (6371000 * 6371000)).
Proof.
  unfold areaInSqMeters, shoelace_sum.
  assert (E : List.fold_left (area_step points (List.length points))
                (List.seq 0 (List.length points)) zero ==
              Qsum (List.map (shoelace_term points)
                      (List.seq 0 (List.length points)))).
  { rewrite fold_area_step. simpl. ring. }
  simpl. rewrite E.
  change (2 # Z.to_pos (10 ^ Z.of_nat 0)) with (2 # 1).
  change (180 # Z.to_pos (10 ^ Z.of_nat 0)) with (180 # 1).
  change (6371000 # Z.to_pos (10 ^ Z.of_nat 0)) with (6371000 # 1).
  field.
Qed.

(** The shoelace sum of three points is their cross product. *)
Lemma shoelace_three (p q r : LatLng Q) :
  shoelace_sum [p; q; r] ==
  (lng q - lng p) * (lat r - lat p) - (lng r - lng p) * (lat q - lat p).
Proof. unfold shoelace_sum, shoelace_term; simpl. ring. Qed.

Lemma collinear_shoelace (p q r : LatLng Q) :
  collinear [p; q; r] -> shoelace_sum [p; q; r] == 0.
Proof.
  intros (a & b & c & Hab & Hline).
  assert (Hp := Hline p (or_introl eq_refl)).
  assert (Hq := Hline q (or_intror (or_introl eq_refl))).
  assert (Hr := Hline r (or_intror (or_intror (or_introl eq_refl)))).
  rewrite shoelace_three.
  set (D := (lng q - lng p) * (lat r - lat p)
            - (lng r - lng p) * (lat q - lat p)).
  assert (Ha : a * D == 0).
  { transitivity
      (((a * lng q + b * lat q) - (a * lng p + b * lat p)) * (lat r - lat p)
       - ((a * lng r + b * lat r) - (a * lng p + b * lat p))
         * (lat q - lat p)).
    - unfold D. ring.
    - rewrite Hp, Hq, Hr. ring. }
  assert (Hb : b * D == 0).
  { transitivity
      ((lng q - lng p) * ((a * lng r + b * lat r) - (a * lng p + b * lat p))
       - (lng r - lng p)
         * ((a * lng q + b * lat q) - (a * lng p + b * lat p))).
    - unfold D. ring.
    - rewrite Hp, Hq, Hr. ring. }
  destruct (Qeq_dec D 0) as [HD | HD]; [exact HD | exfalso].
  apply Hab. split.
  - destruct (Qmult_integral _ _ Ha) as [E | E]; [exact E | contradiction].
  - destruct (Qmult_integral _ _ Hb) as [E | E]; [exact E | contradiction].
Qed.

End AreaExact.

(** C6 (amended).  With fewer than 3 vertices [calculateArea] returns 0 acres
    and 0 square miles, in any arithmetic.  With at least 3 vertices and exact
    arithmetic the area is the absolute value of the shoelace sum over raw
    longitude and latitude degrees, divided by 2 and multiplied by
    (PI/180)^2 * 6371000^2; acres are the square meters times 0.000247105 and
    square miles the square meters times 3.86102e-7.  In exact arithmetic the
    area of 3 collinear vertices is 0. *)
Theorem calculateArea_exact :
  (forall (T : Type) (A : Arith T) (points : list (Measure.LatLng T)),
      (List.length points < 3)%nat ->
      Measure.calculateArea points =
      {| Measure.acres := zero; Measure.sqMiles := zero |}) /\
  (forall points : list (Measure.LatLng Q),
      (3 <= List.length points)%nat ->
      let squareMeters :=
        (Qabs (Formulas.shoelace_sum points) / 2 *
         ((Math_PI / 180) * (Math_PI / 180) * (6371000 * 6371000)))%Q in
      (Measure.acres (Measure.calculateArea points) ==
       squareMeters * (247105 # 1000000000))%Q /\
      (Measure.sqMiles (Measure.calculateArea points) ==
       squareMeters * (386102 # 1000000000000))%Q) /\
  (forall p q r : Measure.LatLng Q,
      Formulas.collinear [p; q; r] ->
      (Measure.acres (Measure.calculateArea [p; q; r]) == 0)%Q /\
      (Measure.sqMiles (Measure.calculateArea [p; q; r]) == 0)%Q).
Proof.
  split; [|split].
  - intros T A points Hn. unfold Measure.calculateArea.
    destruct (Nat.ltb_spec (List.length points) 3) as [_ | Hge];
      [reflexivity | lia].
  - intros points Hn squareMeters. unfold Measure.calculateArea.
    destruct (Nat.ltb_spec (List.length points) 3) as [Hlt | _]; [lia |].
    cbn [Measure.acres Measure.sqMiles].
    change (@mul Q Arith_Q) with Qmult.
    change (@lit Q Arith_Q 247105 9) with (247105 # 1000000000)%Q.
    change (@lit Q Arith_Q 386102 12) with (386102 # 1000000000000)%Q.
    rewrite areaInSqMeters_shoelace. split; reflexivity.
  - intros p q r Hline. unfold Measure.calculateArea.
    cbn [List.length Nat.ltb Nat.leb Measure.acres Measure.sqMiles].
    change (@mul Q Arith_Q) with Qmult.
    rewrite areaInSqMeters_shoelace, (collinear_shoelace p q r Hline).
    split; reflexivity.
Qed.

Lemma calculateArea_exact_witness :
  Measure.calculateArea
    [ {| Measure.lat := 40%float; Measure.lng := (-83)%float |} ] =
  {| Measure.acres := 0%float; Measure.sqMiles := 0%float |} /\
  (Measure.acres
     (Measure.calculateArea
        [ {| Measure.lat := 40; Measure.lng := -83 |};
          {| Measure.lat := 41; Measure.lng := -82 |};
          {| Measure.lat := 42; Measure.lng := -81 |} ]%Q) == 0)%Q.
Proof.
  split.
  - apply (proj1 calculateArea_exact). simpl. lia.
  - apply (proj2 (proj2 calculateArea_exact)).
    exists 1%Q, (-1)%Q, (-123)%Q. split.
    + intros [H _]. discriminate H.
    + intros p [<- | [<- | [<- | []]]]; reflexivity.
Defined.

Lemma calculateArea_collinear_residue :
  Formulas.collinear (List.map Formulas.exact residue_points) /\
  Measure.acres (Measure.calculateArea residue_points) <> 0%float /\
  PrimFloat.ltb 0 (Measure.acres (Measure.calculateArea residue_points)) = true.
Proof.
  split; [|split].
  - exists (-1)%Q, 1%Q, (257949697 # 2097152)%Q. split.
    + intros [H _]. discriminate H.
    + intros p [<- | [<- | [<- | []]]]; vm_compute; reflexivity.
  - intro H.
    assert (E : PrimFloat.ltb 0
                  (Measure.acres (Measure.calculateArea residue_points)) = true)
      by (vm_compute; reflexivity).
    rewrite H in E. vm_compute in E. discriminate E.
  - vm_compute. reflexivity.
Qed.

(** ** Orchestrator: structure of the trace *)

Section OrchestratorFacts.
Import Orchestrator Formulas.

Lemma fetchQueryEnhanced_fulfilled net l b zoomLevel :
  exists fs, fst (fetchQueryEnhanced net l b zoomLevel) = Fulfilled fs.
Proof.
  unfold fetchQueryEnhanced, bind, emit, ret.
  destruct (first_attempt net l b zoomLevel) as [fs | e]; simpl.
  - now exists fs.
  - destruct (retry_attempt net l b) as [fs | e']; simpl.
    + now exists fs.
    + now exists [].
Qed.

Lemma queryLayer_fulfilled net b l :
  exists fs, fst (queryLayer net b l) = Fulfilled fs.
Proof.
  unfold queryLayer, fetchQuery, bind, emit, ret.
  destruct (fetchQueryEnhanced_fulfilled net l b 10%float) as [fs Hfs].
  destruct (fetchQueryEnhanced net l b 10%float) as [p t]; simpl in Hfs.
  subst p.
  destruct (esri_within net (url l) b 100) as [e | [[features|]|]]; simpl;
    try (now exists fs).
  destruct (0 <? List.length features)%nat; simpl; eauto.
Qed.

Lemma queryLayer_value net b l :
  fst (queryLayer net b l) = Fulfilled (layerFeatures net b l).
Proof.
  unfold layerFeatures.
  destruct (queryLayer_fulfilled net b l) as [fs ->]. reflexivity.
Qed.

Lemma run_all_fst {A} (ms : list (M A)) :
  fst (run_all ms) = List.map fst ms.
Proof.
  induction ms as [|[a t] ms IH]; simpl; [reflexivity |].
  unfold bind, ret. destruct (run_all ms) as [l t']; simpl in *.
  now rewrite IH.
Qed.

Lemma run_all_snd {A} (ms : list (M A)) :
  snd (run_all ms) = List.concat (List.map snd ms).
Proof.
  induction ms as [|[a t] ms IH]; simpl; [reflexivity |].
  unfold bind, ret. destruct (run_all ms) as [l t']; simpl in *.
  now rewrite IH, app_nil_r.
Qed.

Lemma Promise_all_fulfilled {A} (l : list (list A)) :
  Promise_all (List.map Fulfilled l) = Fulfilled l.
Proof.
  induction l as [|a l IH]; simpl; [reflexivity |]. now rewrite IH.
Qed.

(** The events of a selection: those of each visible layer, then the two
    setters with every layer's features in the order of the layers. *)
Lemma queryFeaturesInBounds_trace net b ls :
  snd (queryFeaturesInBounds net b ls) =
  (List.concat
     (List.map (fun l => snd (queryLayer net b l)) (visibleLayers ls))
   ++ [ SetSelectedFeatures
          (List.concat
             (List.map (layerFeatures net b) (visibleLayers ls)));
        SetShowFeaturePopup true ])%list.
Proof.
  unfold queryFeaturesInBounds.
  destruct (visibleLayers ls) as [|l0 layers] eqn:E; [reflexivity |].
  cbn [List.length Nat.eqb].
  unfold bind at 1.
  unfold queryPromises.
  destruct (run_all (List.map (queryLayer net b) (l0 :: layers)))
    as [results t] eqn:R.
  assert (Hres : results =
                 List.map Fulfilled
                   (List.map (layerFeatures net b) (l0 :: layers))).
  { change results with (fst (results, t)). rewrite <- R, run_all_fst.
    rewrite !List.map_map. apply List.map_ext. intro l.
    apply queryLayer_value. }
  assert (Ht : t = List.concat
                     (List.map (fun l => snd (queryLayer net b l))
                        (l0 :: layers))).
  { change t with (snd (results, t)). rewrite <- R, run_all_snd.
    now rewrite List.map_map. }
  rewrite Hres, Promise_all_fulfilled, Ht.
  unfold bind, emit. simpl. reflexivity.
Qed.


Lemma selectedFeatures_last t fs :
  selectedFeatures (t ++ [SetSelectedFeatures fs; SetShowFeaturePopup true])
  = Some fs.
Proof.
  unfold selectedFeatures. rewrite List.fold_left_app. reflexivity.
Qed.

Lemma queryFeaturesInBounds_selected net b ls :
  selectedFeatures (snd (queryFeaturesInBounds net b ls)) =
  Some (List.concat (List.map (layerFeatures net b) (visibleLayers ls))).
Proof. rewrite queryFeaturesInBounds_trace. apply selectedFeatures_last. Qed.

End OrchestratorFacts.

(** ** Partial failure *)

Section PartialFailure.
Import Orchestrator Formulas.


Lemma in_layer_trace net b ls l ev :
  List.In l (visibleLayers ls) ->
  List.In ev (snd (queryLayer net b l)) ->
  List.In ev (snd (queryFeaturesInBounds net b ls)).
Proof.
  intros Hl Hev. rewrite queryFeaturesInBounds_trace.
  apply List.in_or_app. left. apply List.in_concat.
  exists (snd (queryLayer net b l)). split; [|exact Hev].
  apply List.in_map_iff. now exists l.
Qed.

End PartialFailure.

(** ** Client-side filtering *)

Section ClientFilter.
Import Orchestrator Formulas.

Lemma hasPointInBounds_intersects b line :
  hasPointInBounds b line = true -> lineIntersectsRectangle line b = true.
Proof.
  unfold hasPointInBounds, lineIntersectsRectangle. intro H.
  change (List.existsb
            (fun p => pointInRectangle (point_of p) (rect_of_bounds b)) line)
    with (List.existsb (fun p => inBounds b (fst p) (snd p)) line).
  now rewrite H.
Qed.

Lemma line_test_intersects b line :
  hasPointInBounds b line || lineIntersectsRectangle line b = true ->
  lineIntersectsRectangle line b = true.
Proof.
  intro H. apply orb_true_iff in H as [H | H]; [|exact H].
  now apply hasPointInBounds_intersects.
Qed.

Lemma clientFilter_accepts b raw :
  clientFilter b raw = true -> first_fetch_accepts b raw.
Proof.
  unfold clientFilter, first_fetch_accepts.
  destruct (geometry raw) as [[[lon lat] | line | lines | rings | polygons | ty]|];
    try discriminate; try tauto.
  - simpl. rewrite orb_false_r. apply line_test_intersects.
  - intro H. apply List.existsb_exists in H as (line & Hin & Hline).
    exists line. split; [exact Hin |]. now apply line_test_intersects.
Qed.

Lemma fallbackLine_accepts b line :
  fallbackLine b line = true ->
  lineIntersectsRectangle line b = true \/ boundingBoxOverlaps b line = true.
Proof.
  unfold fallbackLine. intro H.
  apply orb_true_iff in H as [H | H]; [left | now right].
  now apply line_test_intersects.
Qed.

Lemma some_throwing_true {A} (f : A -> outcome bool) l :
  some_throwing f l = Fulfilled true ->
  exists a, List.In a l /\ f a = Fulfilled true.
Proof.
  induction l as [|a l IH]; simpl; [discriminate |].
  destruct (f a) as [[|]|e] eqn:E; simpl; try discriminate.
  - intros _. exists a. auto.
  - intro H. destruct (IH H) as (a' & Hin & Ha'). exists a'. auto.
Qed.

Lemma fallbackPolygon_accepts b polygon :
  fallbackPolygon b polygon = Fulfilled true ->
  exists ring rest,
    polygon = ring :: rest /\
    (hasPointInBounds b ring = true \/
     polygonIntersectsRectangle ring b = true).
Proof.
  destruct polygon as [|ring rest]; simpl; [discriminate |].
  intro H. injection H as H. exists ring, rest. split; [reflexivity |].
  now apply orb_true_iff.
Qed.

Lemma fallbackFilter_accepts b raw :
  fallbackFilter b raw = Fulfilled true -> retry_fetch_accepts b raw.
Proof.
  unfold fallbackFilter, retry_fetch_accepts.
  destruct (geometry raw) as [[[lon lat] | line | lines | rings | polygons | ty]|];
    try discriminate.
  - intro H. now injection H.
  - simpl. rewrite orb_false_r. intro H. injection H as H.
    now apply fallbackLine_accepts.
  - intro H. injection H as H.
    apply List.existsb_exists in H as (line & Hin & Hline).
    exists line. split; [exact Hin |]. now apply fallbackLine_accepts.
  - intro H. apply some_throwing_true in H as (p & [<- | []] & Hp).
    destruct (fallbackPolygon_accepts b rings Hp) as (ring & rest & E & Hr).
    now exists ring, rest.
  - intro H. apply some_throwing_true in H as (p & Hin & Hp).
    destruct (fallbackPolygon_accepts b p Hp) as (ring & rest & -> & Hr).
    now exists ring, rest.
Qed.

Lemma filter_throwing_kept {A} (f : A -> outcome bool) l kept :
  filter_throwing f l = Fulfilled kept ->
  forall a, List.In a kept -> List.In a l /\ f a = Fulfilled true.
Proof.
  revert kept. induction l as [|x l IH]; simpl; intros kept H a Ha.
  - injection H as <-. destruct Ha.
  - destruct (f x) as [keep|e] eqn:E; simpl in H; [|discriminate].
    destruct (filter_throwing f l) as [kept'|e] eqn:E'; simpl in H;
      [|discriminate].
    injection H as <-. destruct keep.
    + destruct Ha as [<- | Ha]; [auto |].
      destruct (IH kept' eq_refl a Ha). auto.
    + destruct (IH kept' eq_refl a Ha). auto.
Qed.

Lemma first_attempt_filtered net l b zoomLevel fs f :
  first_attempt net l b zoomLevel = Fulfilled fs -> List.In f fs ->
  exists raw, f = with_layerName (name l) raw /\ first_fetch_accepts b raw.
Proof.
  unfold first_attempt.
  destruct (and_then (fetch net (queryUrl l b zoomLevel)) checked_json)
    as [[|[features|]]|e]; simpl; try discriminate.
  - destruct (0 <? List.length features)%nat; intros H Hf;
      injection H as <-; [|destruct Hf].
    apply List.in_map_iff in Hf as (raw & <- & Hraw).
    apply List.filter_In in Hraw as [_ Hraw].
    exists raw. split; [reflexivity |]. now apply clientFilter_accepts.
  - intros H Hf. injection H as <-. destruct Hf.
Qed.

Lemma retry_attempt_filtered net l b fs f :
  retry_attempt net l b = Fulfilled fs -> List.In f fs ->
  exists raw, f = with_layerName (name l) raw /\ retry_fetch_accepts b raw.
Proof.
  unfold retry_attempt.
  destruct (and_then (fetch net (fallbackUrl l)) json)
    as [[|[features|]]|e]; simpl; try discriminate.
  - destruct (0 <? List.length features)%nat.
    + destruct (filter_throwing (fallbackFilter b) features) as [kept|e]
        eqn:E; simpl; [|discriminate].
      intros H Hf. injection H as <-.
      apply List.in_map_iff in Hf as (raw & <- & Hraw).
      destruct (filter_throwing_kept _ _ _ E raw Hraw) as [_ Hacc].
      exists raw. split; [reflexivity |]. now apply fallbackFilter_accepts.
    + intros H Hf. injection H as <-. destruct Hf.
  - intros H Hf. injection H as <-. destruct Hf.
Qed.

Lemma fetchQuery_filtered net l b f :
  List.In f (settled_value [] (fst (fetchQuery net l b))) ->
  exists raw,
    f = with_layerName (name l) raw /\
    match first_attempt net l b 10%float with
    | Fulfilled _ => first_fetch_accepts b raw
    | Rejected _ => retry_fetch_accepts b raw
    end.
Proof.
  unfold fetchQuery, fetchQueryEnhanced, bind, emit, ret.
  destruct (first_attempt net l b 10%float) as [fs|e] eqn:E1; simpl.
  - intro Hf. now apply (first_attempt_filtered net l b 10%float fs).
  - destruct (retry_attempt net l b) as [fs|e'] eqn:E2; simpl.
    + intro Hf. now apply (retry_attempt_filtered net l b fs).
    + intros [].
Qed.

(** Where the features of a layer come from. *)
Lemma layerFeatures_source net b l f :
  List.In f (layerFeatures net b l) ->
  exists raw,
    f = with_layerName (name l) raw /\
    match esri_within net (url l) b 100 with
    | EsriResult (Some (Some (r :: rs))) => List.In raw (r :: rs)
    | _ =>
        match first_attempt net l b 10%float with
        | Fulfilled _ => first_fetch_accepts b raw
        | Rejected _ => retry_fetch_accepts b raw
        end
    end.
Proof.
  unfold layerFeatures, queryLayer.
  pose proof (fetchQuery_filtered net l b f) as Hfetch.
  destruct (fetchQuery net l b) as [p t]. simpl in Hfetch.
  unfold bind, emit, ret.
  destruct (esri_within net (url l) b 100) as [e | [[[|r rs]|]|]]; simpl;
    try exact Hfetch.
  intros [<- | Hf].
  - exists r. auto.
  - apply List.in_map_iff in Hf as (raw & <- & Hraw). exists raw. auto.
Qed.

End ClientFilter.

(** C1 (amended).  Every feature of a selection comes from a visible layer
    and carries its name.  When the native spatial query of the layer returns
    features, they are returned as they are, without client-side filtering.
    Otherwise the feature passed the client-side filter of the fetch that
    delivered it: a Point lies in the drawn box (inclusive); a LineString or
    MultiLineString has a line that satisfies [lineIntersectsRectangle] or,
    in the retry fetch only, whose bounding box overlaps the box; in the retry
    fetch a Polygon or MultiPolygon has a polygon whose outer ring has a
    vertex in the box or satisfies [polygonIntersectsRectangle]. *)
Theorem selected_features_filtered :
  forall (net : network) (b : bounds) (ls : layerStates) (fs : list feature),
    Orchestrator.selectedFeatures
      (snd (Orchestrator.queryFeaturesInBounds net b ls)) = Some fs ->
    forall f, List.In f fs ->
    exists l raw,
      List.In l (Orchestrator.visibleLayers ls) /\
      f = with_layerName (name l) raw /\
      match esri_within net (url l) b 100 with
      | EsriResult (Some (Some (r :: rs))) => List.In raw (r :: rs)
      | _ =>
          match Orchestrator.first_attempt net l b 10%float with
          | Fulfilled _ => Formulas.first_fetch_accepts b raw
          | Rejected _ => Formulas.retry_fetch_accepts b raw
          end
      end.
Proof.
  intros net b ls fs Hsel f Hf.
  rewrite queryFeaturesInBounds_selected in Hsel. injection Hsel as <-.
  apply List.in_concat in Hf as (lf & Hlf & Hf).
  apply List.in_map_iff in Hlf as (l & <- & Hl).
  destruct (layerFeatures_source net b l f Hf) as (raw & E & Hsrc).
  now exists l, raw.
Qed.

Lemma selected_features_filtered_witness :
  exists l raw,
    List.In l (Orchestrator.visibleLayers Scenario.only_bridges) /\
    with_layerName "bridges" Scenario.inside = with_layerName (name l) raw /\
    Formulas.first_fetch_accepts Scenario.columbus raw.
Proof.
  destruct (selected_features_filtered Scenario.net_fetch_both
              Scenario.columbus Scenario.only_bridges
              [with_layerName "bridges" Scenario.inside] eq_refl
              (with_layerName "bridges" Scenario.inside)
              (or_introl eq_refl))
    as (l & raw & Hl & E & Hsrc).
  exists l, raw. repeat split; [exact Hl | exact E | exact Hsrc].
Defined.

(** The native query of the bridges layer answers with a point outside the
    drawn box: the selection holds that point. *)
Lemma native_features_not_filtered :
  Orchestrator.selectedFeatures
    (snd (Orchestrator.queryFeaturesInBounds Scenario.net_native_outside
            Scenario.columbus Scenario.only_bridges)) =
  Some [with_layerName "bridges" Scenario.outside] /\
  geometry (with_layerName "bridges" Scenario.outside) =
  Some (Point ((-80)%float, 41%float)) /\
  Orchestrator.inBounds Scenario.columbus (-80)%float 41%float = false /\
  Orchestrator.clientFilter Scenario.columbus
    (with_layerName "bridges" Scenario.outside) = false.
Proof. vm_compute. repeat split; reflexivity. Qed.

(** ** Bounding boxes are not validated *)

Lemma queryLayer_sends_native net b l :
  exists t, snd (Orchestrator.queryLayer net b l) =
            NetEsriQuery (url l) b 100 :: t.
Proof.
  unfold Orchestrator.queryLayer, bind, emit.
  destruct (esri_within net (url l) b 100) as [e | [[features|]|]];
    try destruct (0 <? List.length features)%nat;
    try destruct (Orchestrator.fetchQuery net l b);
    simpl; eexists; reflexivity.
Qed.

(** C4 (amended).  The orchestrator does not validate the bounding box.  For
    every bounding box, malformed or not, it sends the native query of each
    visible layer with that box and resolves with a feature list.
    [ValidationUtils.validateBounds] is not part of this path, and it accepts
    an inverted box and a box whose coordinates are NaN. *)
Theorem selection_not_validated :
  (forall (net : network) (b : bounds) (ls : layerStates) (l : layer),
      List.In l (Orchestrator.visibleLayers ls) ->
      List.In (NetEsriQuery (url l) b 100)
        (snd (Orchestrator.queryFeaturesInBounds net b ls)) /\
      exists fs,
        Orchestrator.selectedFeatures
          (snd (Orchestrator.queryFeaturesInBounds net b ls)) = Some fs) /\
  Orchestrator.validateBounds Scenario.inverted = true /\
  Orchestrator.validateBounds Scenario.not_a_number = true.
Proof.
  split; [|split; vm_compute; reflexivity].
  intros net b ls l Hl. split.
  - apply (in_layer_trace net b ls l _ Hl).
    destruct (queryLayer_sends_native net b l) as [t ->]. now left.
  - eexists. apply queryFeaturesInBounds_selected.
Qed.

Lemma selection_not_validated_witness :
  List.In
    (NetEsriQuery (url Scenario.bridges_layer) Scenario.not_a_number 100)
    (snd (Orchestrator.queryFeaturesInBounds Scenario.net_down
            Scenario.not_a_number Scenario.only_bridges)).
Proof.
  apply (proj1 selection_not_validated Scenario.net_down
           Scenario.not_a_number Scenario.only_bridges Scenario.bridges_layer).
  simpl. left. reflexivity.
Defined.

(** An inverted box is sent to the bridges service as it is. *)
Lemma malformed_bounds_are_queried :
  Formulas.malformed Scenario.inverted = true /\
  List.hd_error
    (snd (Orchestrator.queryFeaturesInBounds Scenario.net_down
            Scenario.inverted Scenario.only_bridges)) =
  Some (NetEsriQuery (url Scenario.bridges_layer) Scenario.inverted 100) /\
  Orchestrator.selectedFeatures
    (snd (Orchestrator.queryFeaturesInBounds Scenario.net_down
            Scenario.inverted Scenario.only_bridges)) = Some [].
Proof. vm_compute. repeat split; reflexivity. Qed.

(** ** Query strategy *)

Lemma queryUrl_cases (l : layer) (b : bounds) (zoomLevel : number) :
  (JS.lt zoomLevel 8%float = true ->
   Orchestrator.queryUrl l b zoomLevel = WhereAll (url l) 1000) /\
  (JS.lt zoomLevel 8%float = false -> JS.lt zoomLevel 10%float = true ->
   Orchestrator.queryUrl l b zoomLevel =
   Envelope (url l) 500
     (getWest b - 0.1)%float (getSouth b - 0.1)%float
     (getEast b + 0.1)%float (getNorth b + 0.1)%float) /\
  (JS.lt zoomLevel 8%float = false -> JS.lt zoomLevel 10%float = false ->
   Orchestrator.queryUrl l b zoomLevel =
   Envelope (url l) 500
     (getWest b - 0.001)%float (getSouth b - 0.001)%float
     (getEast b + 0.001)%float (getNorth b + 0.001)%float).
Proof.
  unfold Orchestrator.queryUrl.
  repeat split; intros; repeat match goal with H : _ = _ |- _ => rewrite H end;
    reflexivity.
Qed.

(** The orchestrator reaches [fetchQueryEnhanced] through [fetchQuery] only,
    with zoom level 10: the request is always the one of the normal
    strategy. *)
Lemma fetchQuery_normal_strategy (net : network) (l : layer) (b : bounds) :
  List.hd_error (snd (Orchestrator.fetchQuery net l b)) =
  Some (NetFetch
          (Envelope (url l) 500
             (getWest b - 0.001)%float (getSouth b - 0.001)%float
             (getEast b + 0.001)%float (getNorth b + 0.001)%float) 15000).
Proof.
  unfold Orchestrator.fetchQuery, Orchestrator.fetchQueryEnhanced, bind, emit.
  destruct (Orchestrator.first_attempt net l b 10%float);
    [reflexivity |].
  destruct (Orchestrator.retry_attempt net l b); reflexivity.
Qed.

(** ** Lines in the two fetches *)






(** ** The query cache *)

Section QueryCache.
Import Cache.
Variable JSON_stringify : bounds -> string.
Variable toString : Z -> string.

Lemma load_hit (queryCache : gmap string cacheEntry) now l b page limit
    cached :
  queryCache !! cacheKey JSON_stringify toString l b page limit
  = Some cached ->
  now < expiresAt cached ->
  loadFeaturesWithProgress JSON_stringify toString queryCache now l b page
    limit =
  (Fulfilled (data cached), queryCache, []).
Proof.
  intros Hget Hlive.
  unfold loadFeaturesWithProgress, isCacheValid, getCachedQuery.
  rewrite Hget.
  destruct (Z.ltb_spec now (expiresAt cached)) as [_ | Hge];
    [reflexivity | lia].
Qed.

Lemma load_miss (queryCache : gmap string cacheEntry) now l b page limit :
  isCacheValid queryCache now
    (cacheKey JSON_stringify toString l b page limit) = false ->
  exists t,
    snd (loadFeaturesWithProgress JSON_stringify toString queryCache now l b
           page limit) =
    SetLoadingProgress 0
      :: NetQuery {| q_bounds := b; q_limit := 1; q_offset := None |} :: t.
Proof.
  intro Hmiss. unfold loadFeaturesWithProgress. rewrite Hmiss.
  destruct (run l _) as [[e | fc] t1]; [eexists; reflexivity |].
  destruct (run l _) as [[e | fc'] t2]; eexists; reflexivity.
Qed.

Lemma load_stale (queryCache : gmap string cacheEntry) now l b page limit :
  queryCache !! cacheKey JSON_stringify toString l b page limit = None \/
  (exists cached,
      queryCache !! cacheKey JSON_stringify toString l b page limit
      = Some cached /\
      expiresAt cached <= now) ->
  (1 <= networkCalls
          (snd (loadFeaturesWithProgress JSON_stringify toString queryCache
                  now l b page limit)))%nat.
Proof.
  intro H.
  assert (Hmiss : isCacheValid queryCache now
                    (cacheKey JSON_stringify toString l b page limit)
                  = false).
  { unfold isCacheValid. destruct H as [-> | (cached & -> & Hexp)];
      [reflexivity |].
    destruct (Z.ltb_spec now (expiresAt cached)); [lia | reflexivity]. }
  destruct (load_miss queryCache now l b page limit Hmiss) as [t ->].
  unfold networkCalls. simpl. lia.
Qed.


End QueryCache.

(** ** Draw-select tool *)

Section DrawToolFacts.
Import DrawTool Formulas.
Variable latLngToContainerPoint : latlng -> pixel.

Lemma onMouseDown_mid_drag start s :
  isDrawing s = true -> mid_drag (dragging s) start (onMouseDown start s).
Proof.
  intro H. unfold onMouseDown. rewrite H. simpl.
  repeat split; eauto.
Qed.

Lemma onMouseMove_mid_drag panning start e s :
  mid_drag panning start s -> mid_drag panning start (onMouseMove e s).
Proof.
  intros (H1 & H2 & H3 & H4 & [r H5] & H6 & H7).
  unfold onMouseMove. rewrite H2, H4. simpl. rewrite H5. simpl.
  repeat split; eauto.
Qed.

Lemma drag_mid_drag start moves s :
  isDrawing s = true -> mid_drag (dragging s) start (drag start moves s).
Proof.
  intro H. unfold drag.
  pose proof (onMouseDown_mid_drag start s H) as Hs.
  generalize dependent (onMouseDown start s). generalize (dragging s).
  induction moves as [|e moves IH]; intros panning s' Hs; simpl;
    [exact Hs |].
  apply IH. now apply onMouseMove_mid_drag.
Qed.

(** The end of a drag that is too small. *)
Lemma onMouseUp_small panning start e s :
  mid_drag panning start s ->
  span_below_threshold latLngToContainerPoint start e = true ->
  let (s', requests) := onMouseUp latLngToContainerPoint e s in
  requests = [] /\ rectangleOnMap s' = false /\ isDrawing s' = false /\
  isCurrentlyDrawing s' = false /\ dragging s' = panning.
Proof.
  intros (H1 & H2 & H3 & H4 & [r H5] & H6 & H7) Hsmall.
  unfold span_below_threshold in Hsmall.
  unfold onMouseUp. rewrite H2, H4, Hsmall.
  destruct s as [d cd wd sp rr rom dr cu]; simpl in *. subst.
  destruct panning; simpl; repeat split; reflexivity.
Qed.

(** The end of a drag that is large enough. *)
Lemma onMouseUp_large panning start e s :
  mid_drag panning start s ->
  span_below_threshold latLngToContainerPoint start e = false ->
  let (s', requests) := onMouseUp latLngToContainerPoint e s in
  requests = [QueryFeaturesInBounds (L_latLngBounds start e);
              SetTimeout 5000] /\
  isDrawing s' = false /\ dragging s' = panning.
Proof.
  intros (H1 & H2 & H3 & H4 & [r H5] & H6 & H7) Hlarge.
  unfold span_below_threshold in Hlarge.
  unfold onMouseUp. rewrite H2, H4, Hlarge.
  destruct s as [d cd wd sp rr rom dr cu]; simpl in *. subst.
  destruct panning; simpl; repeat split; reflexivity.
Qed.

(** A forced stop in the middle of a drag. *)
Lemma stopDrawing_mid_drag panning start s :
  mid_drag panning start s ->
  isDrawing (stopDrawing s) = false /\
  rectangleOnMap (stopDrawing s) = false /\
  dragging (stopDrawing s) = false.
Proof.
  intros (H1 & H2 & H3 & H4 & [r H5] & H6 & H7).
  destruct s as [d cd wd sp rr rom dr cu]; simpl in *. subst.
  repeat split; reflexivity.
Qed.

Lemma onMouseDown_disarmed e s :
  isDrawing s = false -> onMouseDown e s = s.
Proof. intro H. unfold onMouseDown. now rewrite H. Qed.

End DrawToolFacts.

(** C8 (amended).  When a Draw-Select drag ends with a span of fewer than 10
    pixels on an axis, the rectangle is removed from the map, no query is
    issued, map dragging is back to what it was before the pointer-down, and
    the tool is deactivated as after a selection: [isDrawing] is false and a
    further pointer-down is ignored until the tool is started again. *)
Theorem short_drag_discarded :
  forall (latLngToContainerPoint : DrawTool.latlng -> DrawTool.pixel)
         (s0 : DrawTool.state) (start : DrawTool.latlng)
         (moves : list DrawTool.latlng) (e : DrawTool.latlng),
    DrawTool.isDrawing s0 = true ->
    Formulas.span_below_threshold latLngToContainerPoint start e = true ->
    let (s', requests) :=
      DrawTool.onMouseUp latLngToContainerPoint e
        (DrawTool.drag start moves s0) in
    requests = [] /\
    DrawTool.rectangleOnMap s' = false /\
    DrawTool.dragging s' = DrawTool.dragging s0 /\
    DrawTool.isDrawing s' = false /\
    (forall e', DrawTool.onMouseDown e' s' = s').
Proof.
  intros proj s0 start moves e Harmed Hsmall.
  pose proof (onMouseUp_small proj (DrawTool.dragging s0) start e
                (DrawTool.drag start moves s0)
                (drag_mid_drag start moves s0 Harmed) Hsmall) as H.
  destruct (DrawTool.onMouseUp proj e (DrawTool.drag start moves s0))
    as [s' requests].
  destruct H as (Hr & Hm & Hd & Hc & Hp).
  repeat split; try assumption.
  intro e'. now apply onMouseDown_disarmed.
Qed.

Lemma short_drag_discarded_witness :
  let (s', requests) :=
    DrawTool.onMouseUp Scenario.projection Scenario.corner_near
      (DrawTool.drag Scenario.corner_a []
         (DrawTool.startDrawing (DrawTool.initial true))) in
  requests = [] /\
  DrawTool.rectangleOnMap s' = false /\
  DrawTool.dragging s' = true /\
  DrawTool.isDrawing s' = false /\
  (forall e', DrawTool.onMouseDown e' s' = s').
Proof.
  apply (short_drag_discarded Scenario.projection
           (DrawTool.startDrawing (DrawTool.initial true))
           Scenario.corner_a [] Scenario.corner_near).
  - reflexivity.
  - vm_compute. reflexivity.
Defined.

(** The tool is started, the pointer goes down and comes up 5 pixels away:
    the tool is no longer armed, the next pointer-down draws nothing. *)
Lemma short_drag_disarms :
  let (s', requests) :=
    DrawTool.run Scenario.projection (DrawTool.initial true)
      [ DrawTool.StartDrawing; DrawTool.MouseDown Scenario.corner_a;
        DrawTool.MouseUp Scenario.corner_near ] in
  Formulas.span_below_threshold Scenario.projection Scenario.corner_a
    Scenario.corner_near = true /\
  requests = [] /\
  DrawTool.isDrawing s' = false /\
  DrawTool.onMouseDown Scenario.corner_a s' = s' /\
  DrawTool.rectangleOnMap (DrawTool.onMouseDown Scenario.corner_a s') = false.
Proof. vm_compute. repeat split; reflexivity. Qed.

(** C9.  The two ends of a drag in [onMouseUp] give map dragging back: after
    a selection and after a drag that is too small, dragging is what it was
    before the pointer-down.  [stopDrawing] in the middle of a drag does not:
    dragging was enabled before the pointer-down and stays disabled after the
    stop, and also after a later complete selection. *)
Theorem forced_stop_leaves_panning_disabled :
  (forall (latLngToContainerPoint : DrawTool.latlng -> DrawTool.pixel)
          (s0 : DrawTool.state) (start : DrawTool.latlng)
          (moves : list DrawTool.latlng) (e : DrawTool.latlng),
      DrawTool.isDrawing s0 = true ->
      DrawTool.dragging
        (fst (DrawTool.onMouseUp latLngToContainerPoint e
                (DrawTool.drag start moves s0))) = DrawTool.dragging s0) /\
  (forall (s0 : DrawTool.state) (start : DrawTool.latlng)
          (moves : list DrawTool.latlng),
      DrawTool.isDrawing s0 = true ->
      DrawTool.dragging (DrawTool.stopDrawing (DrawTool.drag start moves s0))
      = false) /\
  DrawTool.dragging
    (fst (DrawTool.run Scenario.projection (DrawTool.initial true)
            [ DrawTool.StartDrawing; DrawTool.MouseDown Scenario.corner_a;
              DrawTool.StopDrawing ])) = false /\
  DrawTool.dragging
    (fst (DrawTool.run Scenario.projection (DrawTool.initial true)
            [ DrawTool.StartDrawing; DrawTool.MouseDown Scenario.corner_a;
              DrawTool.StopDrawing; DrawTool.StartDrawing;
              DrawTool.MouseDown Scenario.corner_a;
              DrawTool.MouseUp Scenario.corner_far ])) = false.
Proof.
  split; [|split; [|split; vm_compute; reflexivity]].
  - intros proj s0 start moves e Harmed.
    pose proof (drag_mid_drag start moves s0 Harmed) as Hmid.
    destruct (Formulas.span_below_threshold proj start e) eqn:Hspan.
    + pose proof (onMouseUp_small proj _ start e _ Hmid Hspan) as H.
      destruct (DrawTool.onMouseUp proj e (DrawTool.drag start moves s0)).
      simpl. tauto.
    + pose proof (onMouseUp_large proj _ start e _ Hmid Hspan) as H.
      destruct (DrawTool.onMouseUp proj e (DrawTool.drag start moves s0)).
      simpl. tauto.
  - intros s0 start moves Harmed.
    now destruct (stopDrawing_mid_drag _ start _
                    (drag_mid_drag start moves s0 Harmed)) as (_ & _ & H).
Qed.

Lemma forced_stop_leaves_panning_disabled_witness :
  DrawTool.dragging
    (DrawTool.stopDrawing
       (DrawTool.drag Scenario.corner_a []
          (DrawTool.startDrawing (DrawTool.initial true)))) = false.
Proof.
  apply (proj1 (proj2 forced_stop_leaves_panning_disabled)). reflexivity.
Defined.

(** ** Measurement tool *)

Section MeasureFacts.
Import Measure.
Variable distanceTo : LatLng number -> LatLng number -> number.
Variable toFixed : number -> nat -> string.
Variable toLocaleString : number -> string.
Variable showLength : nat -> string.

Lemma handleMapClick_ignored e s :
  isMeasuringRef s = false ->
  handleMapClick distanceTo toFixed toLocaleString showLength e s = s.
Proof. intro H. unfold handleMapClick. now rewrite H. Qed.

Lemma handleMapDoubleClick_ends s :
  isMeasuringRef s = true ->
  let s' := handleMapDoubleClick distanceTo toFixed toLocaleString
              showLength s in
  isMeasuring s' = false /\ isMeasuringRef s' = false /\
  isDoubleClickingRef s' = true /\
  measurePointsRef s' = measurePointsRef s.
Proof.
  intro H. unfold handleMapDoubleClick. rewrite H. simpl. tauto.
Qed.

End MeasureFacts.

(** C7 (amended).  When a measurement is finalized by a double-click with
    too few vertices (fewer than 2 for a line, fewer than 3 for an area), the
    message is "Line measurement requires at least 2 points" or "Area
    measurement requires at least 3 points", and the session ends as after
    any finalization: [isMeasuring] is false, the vertices are kept, and
    clicks add no vertex, also once the double-click guard is cleared. *)
Theorem finalize_too_few_points :
  forall (distanceTo : Measure.LatLng number -> Measure.LatLng number -> number)
         (toFixed : number -> nat -> string)
         (toLocaleString : number -> string) (showLength : nat -> string)
         (s : Measure.state),
    Measure.isMeasuringRef s = true ->
    (List.length (Measure.measurePointsRef s) <
     match Measure.measureMode s with
     | Measure.line_mode => 2
     | Measure.area_mode => 3
     end)%nat ->
    let click := Measure.handleMapClick distanceTo toFixed toLocaleString
                   showLength in
    let s' := Measure.handleMapDoubleClick distanceTo toFixed toLocaleString
                showLength s in
    Measure.message s' =
    match Measure.measureMode s with
    | Measure.line_mode => "❌ Line measurement requires at least 2 points"
    | Measure.area_mode => "❌ Area measurement requires at least 3 points"
    end /\
    Measure.isMeasuring s' = false /\
    Measure.collecting s' = false /\
    Measure.measurePointsRef s' = Measure.measurePointsRef s /\
    (forall e, click e s' = s') /\
    (forall e, click e (Measure.onTimeout s') = Measure.onTimeout s').
Proof.
  intros distanceTo toFixed toLocaleString showLength s Hactive Hfew click s'.
  destruct (handleMapDoubleClick_ends distanceTo toFixed toLocaleString
              showLength s Hactive) as (H1 & H2 & H3 & H4).
  fold s' in H1, H2, H3, H4.
  split; [|repeat split].
  - subst s'. unfold Measure.handleMapDoubleClick. rewrite Hactive. simpl.
    destruct (Measure.measureMode s).
    + destruct (Nat.ltb_spec 1 (List.length (Measure.measurePointsRef s)));
        [lia | reflexivity].
    + destruct (Nat.ltb_spec 2 (List.length (Measure.measurePointsRef s)));
        [lia | reflexivity].
  - exact H1.
  - unfold Measure.collecting. now rewrite H2.
  - exact H4.
  - intro e. now apply handleMapClick_ignored.
  - intro e. now apply handleMapClick_ignored.
Qed.

Lemma finalize_too_few_points_witness :
  Measure.message
    (Measure.handleMapDoubleClick Scenario.flat_distance Scenario.fixed
       Scenario.localized Scenario.count_text
       (Measure.handleMapClick Scenario.flat_distance Scenario.fixed
          Scenario.localized Scenario.count_text Scenario.vertex
          (Measure.startMeasuring Measure.area_mode Measure.initial))) =
  "❌ Area measurement requires at least 3 points".
Proof.
  apply (finalize_too_few_points Scenario.flat_distance Scenario.fixed
           Scenario.localized Scenario.count_text
           (Measure.handleMapClick Scenario.flat_distance Scenario.fixed
              Scenario.localized Scenario.count_text Scenario.vertex
              (Measure.startMeasuring Measure.area_mode Measure.initial))).
  - reflexivity.
  - simpl. lia.
Defined.

(** A line measurement with one vertex is finalized: the session is no
    longer collecting and the next click, after the guard is cleared, adds no
    vertex. *)
Lemma finalize_short_line_ends_session :
  let click := Measure.handleMapClick Scenario.flat_distance Scenario.fixed
                 Scenario.localized Scenario.count_text in
  let s := click Scenario.vertex
             (Measure.startMeasuring Measure.line_mode Measure.initial) in
  let s' := Measure.handleMapDoubleClick Scenario.flat_distance Scenario.fixed
              Scenario.localized Scenario.count_text s in
  Measure.collecting s = true /\
  Measure.message s' = "❌ Line measurement requires at least 2 points" /\
  Measure.collecting s' = false /\
  Measure.collecting (Measure.onTimeout s') = false /\
  Measure.measurePointsRef (click Scenario.vertex (Measure.onTimeout s')) =
  [Scenario.vertex].
Proof. vm_compute. repeat split; reflexivity. Qed.

(** * Further properties *)

(** ** Binary64 comparisons and NaN *)

Section FloatFacts.

Lemma leb_nan_r (a : float) : PrimFloat.leb a nan = false.
Proof.
  rewrite FloatAxioms.leb_spec. change (Prim2SF nan) with SpecFloat.S754_nan.
  unfold SpecFloat.SFleb.
  destruct (Prim2SF a) as [s|s| |s m e]; try destruct s; reflexivity.
Qed.

Lemma leb_nan_l (a : float) : PrimFloat.leb nan a = false.
Proof.
  rewrite FloatAxioms.leb_spec. change (Prim2SF nan) with SpecFloat.S754_nan.
  reflexivity.
Qed.

Lemma ltb_nan_r (a : float) : PrimFloat.ltb a nan = false.
Proof.
  rewrite FloatAxioms.ltb_spec. change (Prim2SF nan) with SpecFloat.S754_nan.
  unfold SpecFloat.SFltb.
  destruct (Prim2SF a) as [s|s| |s m e]; try destruct s; reflexivity.
Qed.

Lemma ltb_nan_l (a : float) : PrimFloat.ltb nan a = false.
Proof.
  rewrite FloatAxioms.ltb_spec. change (Prim2SF nan) with SpecFloat.S754_nan.
  reflexivity.
Qed.

Lemma sub_nan_r (a : float) : (a - nan)%float = nan.
Proof.
  apply FloatAxioms.Prim2SF_inj. rewrite FloatAxioms.sub_spec.
  change (Prim2SF nan) with SpecFloat.S754_nan.
  unfold SF64sub, SpecFloat.SFsub.
  destruct (Prim2SF a) as [s|s| |s m e]; reflexivity.
Qed.

Lemma mul_nan_l (a : float) : (nan * a)%float = nan.
Proof.
  apply FloatAxioms.Prim2SF_inj. rewrite FloatAxioms.mul_spec.
  change (Prim2SF nan) with SpecFloat.S754_nan. reflexivity.
Qed.

Lemma SFcompare_refl (x : SpecFloat.spec_float) :
  SpecFloat.SFcompare x x = None \/ SpecFloat.SFcompare x x = Some Eq.
Proof.
  destruct x as [s|s| |s m e]; simpl; auto.
  - right. destruct s; reflexivity.
  - right. destruct s; rewrite Z.compare_refl, Pos.compare_cont_refl;
      reflexivity.
Qed.

Lemma ltb_irrefl (a : float) : PrimFloat.ltb a a = false.
Proof.
  rewrite FloatAxioms.ltb_spec. unfold SpecFloat.SFltb.
  destruct (SFcompare_refl (Prim2SF a)) as [-> | ->]; reflexivity.
Qed.

Lemma is_nan_spec (a : float) :
  PrimFloat.is_nan a = true -> a = nan.
Proof.
  unfold PrimFloat.is_nan. rewrite FloatAxioms.eqb_spec.
  unfold SpecFloat.SFeqb. intro H. apply FloatAxioms.Prim2SF_inj.
  change (Prim2SF nan) with SpecFloat.S754_nan.
  destruct (SFcompare_refl (Prim2SF a)) as [E | E]; rewrite E in H;
    [|discriminate].
  destruct (Prim2SF a) as [s|s| |s m e]; try reflexivity;
    simpl in E; destruct s; discriminate.
Qed.

End FloatFacts.

(** ** Geometry predicates *)

Section GeometryFacts.

Lemma any_segment_endpoint (f : point -> point -> bool)
    (l : list position) (p : position) :
  (2 <= List.length l)%nat -> List.In p l ->
  (forall q, f (point_of p) q = true) ->
  (forall q, f q (point_of p) = true) ->
  any_segment f l = true.
Proof.
  intros Hlen Hin Hl Hr. induction l as [|a l IH]; [destruct Hin |].
  destruct l as [|b rest]; [simpl in Hlen; lia |].
  change (any_segment f (a :: b :: rest))
    with (f (point_of a) (point_of b) || any_segment f (b :: rest)).
  destruct Hin as [<- | Hin].
  - now rewrite Hl.
  - destruct rest as [|c rest].
    + destruct Hin as [<- | []]. now rewrite Hr.
    + rewrite IH; [apply orb_true_r | simpl; lia | exact Hin].
Qed.

Lemma segment_endpoint_inside (p q : point) (r : rect) :
  pointInRectangle p r = true ->
  lineSegmentIntersectsRectangle p q r = true /\
  lineSegmentIntersectsRectangle q p r = true.
Proof.
  intro H. unfold lineSegmentIntersectsRectangle. rewrite H.
  now rewrite orb_true_r.
Qed.

Lemma polygon_vertex_inside (polygon : list position) (b : bounds)
    (p : position) :
  (2 <= List.length polygon)%nat ->
  List.In p polygon ->
  pointInRectangle (point_of p) (rect_of_bounds b) = true ->
  polygonIntersectsRectangle polygon b = true.
Proof.
  intros Hlen Hin Hp. unfold polygonIntersectsRectangle.
  rewrite (any_segment_endpoint _ polygon p Hlen Hin); [reflexivity | |];
    intro q;
    destruct (segment_endpoint_inside (point_of p) q (rect_of_bounds b) Hp);
    assumption.
Qed.

End GeometryFacts.

(** X1.  A vertex in the rectangle is enough for both tests: a line with
    such a vertex intersects the rectangle, whatever its other vertices and
    however many it has, and so does a polygon ring of two vertices or
    more. *)
Theorem vertex_inside_intersects :
  forall (vertices : list position) (b : bounds) (p : position),
    List.In p vertices ->
    pointInRectangle (point_of p) (rect_of_bounds b) = true ->
    lineIntersectsRectangle vertices b = true /\
    ((2 <= List.length vertices)%nat ->
     polygonIntersectsRectangle vertices b = true).
Proof.
  intros vertices b p Hin Hp. split.
  - unfold lineIntersectsRectangle.
    assert (E : List.existsb
                  (fun q => pointInRectangle (point_of q) (rect_of_bounds b))
                  vertices = true).
    { apply List.existsb_exists. now exists p. }
    now rewrite E.
  - intro Hlen. now apply (polygon_vertex_inside vertices b p).
Qed.

Lemma vertex_inside_intersects_witness :
  lineIntersectsRectangle Scenario.triangle Scenario.unit_box = true /\
  polygonIntersectsRectangle Scenario.triangle Scenario.unit_box = true.
Proof.
  destruct (vertex_inside_intersects Scenario.triangle Scenario.unit_box
              (5%float, 5%float)) as [Hline Hpoly].
  - simpl. left. reflexivity.
  - vm_compute. reflexivity.
  - split; [exact Hline | apply Hpoly; simpl; lia].
Defined.

(** X2.  Geometry with too few vertices: an empty line and an empty ring
    intersect no rectangle; a ring of a single vertex intersects no rectangle
    either, even when the vertex lies in it, while a line of a single vertex
    intersects exactly the rectangles that hold the vertex. *)
Theorem short_geometry :
  forall (b : bounds) (p : position),
    lineIntersectsRectangle [] b = false /\
    polygonIntersectsRectangle [] b = false /\
    polygonIntersectsRectangle [p] b = false /\
    lineIntersectsRectangle [p] b =
    pointInRectangle (point_of p) (rect_of_bounds b).
Proof.
  intros b p. repeat split.
  - unfold polygonIntersectsRectangle, pointInPolygon. cbn.
    unfold JS.neq. now rewrite xorb_nilpotent.
  - unfold lineIntersectsRectangle. cbn. rewrite orb_false_r.
    now destruct (pointInRectangle (point_of p) (rect_of_bounds b)).
Qed.

(** X3.  On a ring of two vertices or more the polygon test accepts every
    rectangle the line test accepts. *)
Theorem line_test_implies_polygon_test :
  forall (ring : list position) (b : bounds),
    (2 <= List.length ring)%nat ->
    lineIntersectsRectangle ring b = true ->
    polygonIntersectsRectangle ring b = true.
Proof.
  intros ring b Hlen. unfold lineIntersectsRectangle.
  destruct (List.existsb _ ring) eqn:E.
  - intros _. apply List.existsb_exists in E as (p & Hin & Hp).
    now apply (polygon_vertex_inside ring b p).
  - intro H. unfold polygonIntersectsRectangle. now rewrite H.
Qed.

Lemma line_test_implies_polygon_test_witness :
  polygonIntersectsRectangle Scenario.triangle Scenario.unit_box = true.
Proof.
  apply line_test_implies_polygon_test.
  - simpl. lia.
  - vm_compute. reflexivity.
Defined.

(** ** NaN coordinates *)

Section NaNFacts.
Import Orchestrator.

Lemma inBounds_nan_point b lon lat :
  PrimFloat.is_nan lon || PrimFloat.is_nan lat = true ->
  inBounds b lon lat = false.
Proof.
  intro H. unfold inBounds, JS.ge, JS.le.
  apply orb_true_iff in H as [H | H]; apply is_nan_spec in H; subst.
  - now rewrite leb_nan_r.
  - rewrite leb_nan_r. now rewrite andb_false_r.
Qed.

Lemma inBounds_nan_bound b lon lat :
  Terms.has_nan_bound b = true -> inBounds b lon lat = false.
Proof.
  unfold Terms.has_nan_bound, inBounds, JS.ge, JS.le. intro H.
  repeat (apply orb_true_iff in H as [H | H]);
    apply is_nan_spec in H; rewrite H;
    rewrite ?leb_nan_l, ?leb_nan_r, ?andb_false_r; reflexivity.
Qed.

Lemma nth_rings_as_ring polygon i :
  List.nth i (rings_as_ring polygon) (nan, nan) = (nan, nan).
Proof.
  revert i. induction polygon as [|r polygon IH]; intros [|i]; simpl; auto.
Qed.

Lemma pointInPolygon_rings_as_ring corner polygon indices j inside :
  pointInPolygon_loop corner (rings_as_ring polygon) indices j inside
  = inside.
Proof.
  revert j inside. induction indices as [|i indices IH]; intros j inside;
    [reflexivity |].
  cbn [pointInPolygon_loop]. rewrite !nth_rings_as_ring. cbn [fst snd].
  unfold JS.gt at 1 2. rewrite ltb_nan_r. cbn. apply IH.
Qed.

Lemma nan_segment_misses r :
  lineSegmentIntersectsRectangle (point_of (nan, nan)) (point_of (nan, nan))
    r = false.
Proof.
  unfold lineSegmentIntersectsRectangle, pointInRectangle, point_of, JS.ge.
  cbn [x y fst snd]. rewrite leb_nan_r. cbn.
  unfold lineSegmentsIntersect, JS.neq. now rewrite !xorb_nilpotent.
Qed.

Lemma any_segment_rings_as_ring r polygon :
  any_segment (fun p1 p2 => lineSegmentIntersectsRectangle p1 p2 r)
    (rings_as_ring polygon) = false.
Proof.
  induction polygon as [|a polygon IH]; [reflexivity |].
  destruct polygon as [|b polygon]; [reflexivity |].
  change (rings_as_ring (a :: b :: polygon))
    with ((nan, nan) :: rings_as_ring (b :: polygon)).
  change (rings_as_ring (b :: polygon))
    with ((nan, nan) :: rings_as_ring polygon) at 1.
  change (rings_as_ring (b :: polygon))
    with ((nan, nan) :: rings_as_ring polygon) in IH.
  cbn [any_segment] in *. now rewrite nan_segment_misses, IH.
Qed.

Lemma first_fetch_polygon_test b polygon :
  hasPointInBounds b (rings_as_ring polygon)
  || polygonIntersectsRectangle (rings_as_ring polygon) b = false.
Proof.
  apply orb_false_iff. split.
  - unfold hasPointInBounds. induction polygon as [|r polygon IH];
      [reflexivity |].
    cbn. rewrite inBounds_nan_point; [exact IH | reflexivity].
  - unfold polygonIntersectsRectangle.
    rewrite any_segment_rings_as_ring. unfold pointInPolygon.
    cbn [rectCorners List.forallb].
    now rewrite pointInPolygon_rings_as_ring.
Qed.

End NaNFacts.

(** X4.  A Point feature whose longitude or latitude is NaN, or any Point
    feature when a bound of the box is NaN, passes neither the filter of the
    first fetch nor the filter of the retry fetch. *)
Theorem nan_points_are_filtered_out :
  forall (b : bounds) (f : feature) (lon lat : number),
    geometry f = Some (Point (lon, lat)) ->
    PrimFloat.is_nan lon || PrimFloat.is_nan lat || Terms.has_nan_bound b
    = true ->
    Orchestrator.clientFilter b f = false /\
    Orchestrator.fallbackFilter b f = Fulfilled false.
Proof.
  intros b f lon lat Hg H.
  assert (E : Orchestrator.inBounds b lon lat = false).
  { apply orb_true_iff in H as [H | H].
    - now apply inBounds_nan_point.
    - now apply inBounds_nan_bound. }
  unfold Orchestrator.clientFilter, Orchestrator.fallbackFilter.
  rewrite Hg, E. split; reflexivity.
Qed.

Lemma nan_points_are_filtered_out_witness :
  Orchestrator.clientFilter Scenario.not_a_number Scenario.inside = false /\
  Orchestrator.fallbackFilter Scenario.not_a_number Scenario.inside
  = Fulfilled false.
Proof.
  apply (nan_points_are_filtered_out Scenario.not_a_number Scenario.inside
           (-82.95)%float 39.95%float).
  - reflexivity.
  - vm_compute. reflexivity.
Defined.

(** X5.  The filter of the first fetch keeps no Polygon and no MultiPolygon
    feature, whatever its rings and whatever the box: it hands the list of
    rings to the tests that expect one ring. *)
Theorem first_fetch_keeps_no_polygon :
  forall (b : bounds) (f : feature),
    (exists rings, geometry f = Some (Polygon rings)) \/
    (exists polygons, geometry f = Some (MultiPolygon polygons)) ->
    Orchestrator.clientFilter b f = false.
Proof.
  intros b f [[rings Hg] | [polygons Hg]]; unfold Orchestrator.clientFilter;
    rewrite Hg.
  - cbn [List.existsb]. now rewrite first_fetch_polygon_test.
  - clear Hg. induction polygons as [|p polygons IH]; [reflexivity |].
    cbn [List.existsb]. now rewrite first_fetch_polygon_test.
Qed.

Lemma first_fetch_keeps_no_polygon_witness :
  Orchestrator.clientFilter Scenario.unit_box Scenario.triangle_feature
  = false.
Proof.
  apply first_fetch_keeps_no_polygon. left.
  exists [Scenario.triangle]. reflexivity.
Defined.

(** ** The box of a drag *)

Section DragBox.
Import DrawTool.

Lemma max2_min2_not_below (a b : number) :
  JS.lt (JS.max2 a b) (JS.min2 a b) = false.
Proof.
  unfold JS.lt, JS.max2, JS.min2.
  destruct (PrimFloat.is_nan a || PrimFloat.is_nan b);
    [apply ltb_nan_r |].
  destruct (PrimFloat.ltb b a) eqn:Hba, (PrimFloat.ltb a b) eqn:Hab;
    try apply ltb_irrefl; assumption.
Qed.

Lemma is_finite_not_nan (a : number) :
  PrimFloat.is_finite a = true -> PrimFloat.is_nan a = false.
Proof.
  unfold PrimFloat.is_finite. intro H. apply negb_true_iff in H.
  now apply orb_false_iff in H as [H _].
Qed.

Lemma min2_finite (a b : number) :
  PrimFloat.is_finite a = true -> PrimFloat.is_finite b = true ->
  PrimFloat.is_finite (JS.min2 a b) = true.
Proof.
  intros Ha Hb. unfold JS.min2.
  rewrite (is_finite_not_nan a Ha), (is_finite_not_nan b Hb). cbn.
  now destruct (PrimFloat.ltb b a).
Qed.

Lemma max2_finite (a b : number) :
  PrimFloat.is_finite a = true -> PrimFloat.is_finite b = true ->
  PrimFloat.is_finite (JS.max2 a b) = true.
Proof.
  intros Ha Hb. unfold JS.max2.
  rewrite (is_finite_not_nan a Ha), (is_finite_not_nan b Hb). cbn.
  now destruct (PrimFloat.ltb a b).
Qed.

(** The smallest bounds that hold two corners are not inverted. *)
Lemma latLngBounds_not_inverted (a b : latlng) :
  JS.lt (getEast (L_latLngBounds a b)) (getWest (L_latLngBounds a b))
  = false /\
  JS.lt (getNorth (L_latLngBounds a b)) (getSouth (L_latLngBounds a b))
  = false.
Proof. split; apply max2_min2_not_below. Qed.

Lemma latLngBounds_finite (a b : latlng) :
  Terms.finite_corners a b = true ->
  Formulas.malformed (L_latLngBounds a b) = false.
Proof.
  unfold Terms.finite_corners, Formulas.malformed. intro H.
  apply andb_true_iff in H as [H Hlngb].
  apply andb_true_iff in H as [H Hlatb].
  apply andb_true_iff in H as [Hlata Hlnga].
  cbn [L_latLngBounds getEast getWest getNorth getSouth].
  rewrite !max2_min2_not_below.
  rewrite (min2_finite _ _ Hlnga Hlngb), (min2_finite _ _ Hlata Hlatb),
    (max2_finite _ _ Hlnga Hlngb), (max2_finite _ _ Hlata Hlatb).
  reflexivity.
Qed.

Variable latLngToContainerPoint : latlng -> pixel.

(** The only box the pointer-up handler asks for is the one spanned by the
    anchor of the drag and the pointer-up position. *)
Lemma onMouseUp_box e s b :
  List.In (QueryFeaturesInBounds b)
    (snd (onMouseUp latLngToContainerPoint e s)) ->
  exists start, startPointRef s = Some start /\ b = L_latLngBounds start e.
Proof.
  unfold onMouseUp.
  destruct (isCurrentlyDrawing s); [| intros []].
  destruct (startPointRef s) as [start|]; [| intros []].
  cbv zeta. destruct (lt _ _ || lt _ _); cbn [snd List.In];
    [intros [] |].
  intros [H | [H | []]]; [| discriminate H].
  injection H as <-. now exists start.
Qed.

Lemma step_box s i b :
  List.In (QueryFeaturesInBounds b)
    (snd (step latLngToContainerPoint s i)) ->
  exists start e, b = L_latLngBounds start e.
Proof.
  destruct i as [| | e | e | e |]; cbn [step snd]; try (intros []).
  intro H. destruct (onMouseUp_box e s b H) as (start & _ & ->).
  now exists start, e.
Qed.

Lemma run_box inputs :
  forall s b,
    List.In (QueryFeaturesInBounds b)
      (snd (run latLngToContainerPoint s inputs)) ->
    exists start e, b = L_latLngBounds start e.
Proof.
  induction inputs as [|i inputs IH]; intros s b; [intros [] |].
  cbn [run]. pose proof (step_box s i b) as Hstep.
  destruct (step latLngToContainerPoint s i) as [s1 r1].
  specialize (IH s1 b).
  destruct (run latLngToContainerPoint s1 inputs) as [s2 r2].
  cbn [snd] in *. intro H. apply List.in_app_or in H as [H | H]; auto.
Qed.

End DragBox.

(** X6.  The draw tool never asks for an inverted box: over any sequence of
    commands and pointer events from any state, every box handed to the
    selection query has its east not below its west and its north not below
    its south, in whatever direction the pointer was dragged.  The box is
    the one spanned by the anchor of the drag and the pointer-up position,
    and with finite coordinates of both it is not malformed. *)
Theorem drag_box_not_inverted :
  forall (latLngToContainerPoint : DrawTool.latlng -> DrawTool.pixel),
    (forall (inputs : list DrawTool.input) (s : DrawTool.state) (b : bounds),
        List.In (DrawTool.QueryFeaturesInBounds b)
          (snd (DrawTool.run latLngToContainerPoint s inputs)) ->
        JS.lt (getEast b) (getWest b) = false /\
        JS.lt (getNorth b) (getSouth b) = false) /\
    (forall (e : DrawTool.latlng) (s : DrawTool.state) (b : bounds),
        List.In (DrawTool.QueryFeaturesInBounds b)
          (snd (DrawTool.onMouseUp latLngToContainerPoint e s)) ->
        exists start,
          DrawTool.startPointRef s = Some start /\
          b = DrawTool.L_latLngBounds start e /\
          (Terms.finite_corners start e = true ->
           Formulas.malformed b = false)).
Proof.
  intro proj. split.
  - intros inputs s b H.
    destruct (run_box proj inputs s b H) as (start & e & ->).
    apply latLngBounds_not_inverted.
  - intros e s b H.
    destruct (onMouseUp_box proj e s b H) as (start & Hs & ->).
    exists start. split; [exact Hs |]. split; [reflexivity |].
    apply latLngBounds_finite.
Qed.

Lemma drag_box_not_inverted_witness :
  JS.lt (getEast (DrawTool.L_latLngBounds Scenario.corner_far
                    Scenario.corner_a))
        (getWest (DrawTool.L_latLngBounds Scenario.corner_far
                    Scenario.corner_a)) = false.
Proof.
  apply (proj1 (drag_box_not_inverted Scenario.projection)
           [ DrawTool.StartDrawing; DrawTool.MouseDown Scenario.corner_far;
             DrawTool.MouseUp Scenario.corner_a ]
           (DrawTool.initial true)).
  vm_compute. left. reflexivity.
Defined.

(** ** Requests of a selection *)

Section Requests.
Import Orchestrator Terms.

Lemma nativeQueries_app t1 t2 :
  nativeQueries (t1 ++ t2) = (nativeQueries t1 + nativeQueries t2)%nat.
Proof.
  unfold nativeQueries. now rewrite List.filter_app, List.length_app.
Qed.

Lemma fetches_app t1 t2 :
  fetches (t1 ++ t2) = (fetches t1 + fetches t2)%nat.
Proof. unfold fetches. now rewrite List.filter_app, List.length_app. Qed.

Lemma fetchQueryEnhanced_requests net l b zoomLevel :
  let t := snd (fetchQueryEnhanced net l b zoomLevel) in
  nativeQueries t = 0%nat /\ (1 <= fetches t <= 2)%nat.
Proof.
  unfold fetchQueryEnhanced, bind, emit, ret.
  destruct (first_attempt net l b zoomLevel); cbn; [lia |].
  destruct (retry_attempt net l b); cbn; lia.
Qed.

Lemma queryLayer_requests net b l :
  let t := snd (queryLayer net b l) in
  nativeQueries t = 1%nat /\ (fetches t <= 2)%nat.
Proof.
  pose proof (fetchQueryEnhanced_requests net l b 10%float) as H.
  unfold queryLayer, fetchQuery, bind, emit, ret.
  destruct (fetchQueryEnhanced net l b 10%float) as [p t]. cbn in H.
  destruct (esri_within net (url l) b 100) as [e | [[features|]|]];
    try destruct (0 <? List.length features)%nat; cbn; lia.
Qed.

Lemma layers_requests net b layers :
  let t := List.concat (List.map (fun l => snd (queryLayer net b l)) layers)
  in
  nativeQueries t = List.length layers /\
  (fetches t <= 2 * List.length layers)%nat.
Proof.
  induction layers as [|l layers IH]; [cbn; lia |].
  cbn [List.map List.concat List.length]. cbn zeta in *.
  rewrite nativeQueries_app, fetches_app.
  pose proof (queryLayer_requests net b l) as H. cbn zeta in H. lia.
Qed.

Lemma visibleLayers_at_most_four ls :
  (List.length (visibleLayers ls) <= 4)%nat.
Proof.
  unfold visibleLayers. destruct ls as [[] [] [] [] ?]; cbn; lia.
Qed.

End Requests.

(** X7.  A selection sends one native query for each visible layer among
    bridges, conduits, roads and boundaries, and at most two fetches for each
    of them: never more than 4 native queries and 8 fetches.  With none of
    these layers visible it sends nothing and shows an empty selection. *)
Theorem selection_request_budget :
  forall (net : network) (b : bounds) (ls : layerStates),
    let t := snd (Orchestrator.queryFeaturesInBounds net b ls) in
    let n := List.length (Orchestrator.visibleLayers ls) in
    Terms.nativeQueries t = n /\
    (Terms.fetches t <= 2 * n)%nat /\
    (n <= 4)%nat /\
    (n = 0%nat -> t = [SetSelectedFeatures []; SetShowFeaturePopup true]).
Proof.
  intros net b ls t n. subst t n.
  rewrite queryFeaturesInBounds_trace.
  rewrite nativeQueries_app, fetches_app.
  pose proof (layers_requests net b (Orchestrator.visibleLayers ls)) as H.
  cbn zeta in H. cbn [Terms.nativeQueries Terms.fetches List.filter
    List.length].
  repeat split; try lia.
  - apply visibleLayers_at_most_four.
  - intro H0. destruct (Orchestrator.visibleLayers ls); [reflexivity |].
    discriminate H0.
Qed.

Lemma selection_request_budget_witness :
  snd (Orchestrator.queryFeaturesInBounds Scenario.net_down Scenario.columbus
         {| bridges := false; conduits := false; roads := false;
            boundaries := false; lighting := true |}) =
  [SetSelectedFeatures []; SetShowFeaturePopup true].
Proof.
  apply (selection_request_budget Scenario.net_down Scenario.columbus).
  reflexivity.
Defined.

(** ** The retry fetch *)

Section Retry.
Import Orchestrator.

Lemma some_throwing_TypeError b l e :
  some_throwing (fallbackPolygon b) l = Rejected e -> e = TypeError.
Proof.
  induction l as [|p l IH]; simpl; [discriminate |].
  destruct p as [|ring rest]; simpl.
  - intro H. now injection H.
  - destruct (hasPointInBounds b ring || polygonIntersectsRectangle ring b);
      [discriminate | exact IH].
Qed.

Lemma fallbackFilter_TypeError b f e :
  fallbackFilter b f = Rejected e -> e = TypeError.
Proof.
  unfold fallbackFilter.
  destruct (geometry f) as [[[lon lat]| | | | |]|]; try discriminate;
    apply some_throwing_TypeError.
Qed.

Lemma filter_throwing_rejects {A} (f : A -> outcome bool) l a e0 :
  (forall x e, f x = Rejected e -> e = TypeError) ->
  List.In a l -> f a = Rejected e0 ->
  filter_throwing f l = Rejected TypeError.
Proof.
  intros Hty Hin Ha. induction l as [|x l IH]; [destruct Hin |].
  simpl. destruct (f x) as [keep|e] eqn:E; simpl.
  - destruct Hin as [-> | Hin]; [congruence |].
    now rewrite (IH Hin).
  - now rewrite (Hty x e E).
Qed.

End Retry.

(** X8.  The retry fetch is tried exactly when the promise of the first
    fetch is rejected, which happens when the request fails, when the status
    is not ok, or when the body cannot be parsed or is [null].  A first fetch
    that succeeds, also with no feature at all, ends the query of the layer
    after that single request. *)
Theorem retry_only_after_failure :
  forall (net : network) (l : layer) (b : bounds) (zoomLevel : number),
    let first := Orchestrator.queryUrl l b zoomLevel in
    (forall fs,
        Orchestrator.first_attempt net l b zoomLevel = Fulfilled fs ->
        Orchestrator.fetchQueryEnhanced net l b zoomLevel =
        (Fulfilled fs, [NetFetch first 15000])) /\
    (forall e,
        Orchestrator.first_attempt net l b zoomLevel = Rejected e ->
        exists t,
          snd (Orchestrator.fetchQueryEnhanced net l b zoomLevel) =
          NetFetch first 15000
            :: ConsoleError ("Error querying " +:+ name l +:+ " layer:") e
            :: NetFetch (Orchestrator.fallbackUrl l) 10000 :: t) /\
    ((exists e, Orchestrator.first_attempt net l b zoomLevel = Rejected e) <->
     match fetch net first with
     | Rejected _ => True
     | Fulfilled r =>
         ok r = false \/ (exists e, json r = Rejected e) \/
         json r = Fulfilled JsonNull
     end).
Proof.
  intros net l b zoomLevel first. subst first. split; [|split].
  - intros fs H. unfold Orchestrator.fetchQueryEnhanced, bind, emit, ret.
    now rewrite H.
  - intros e H. unfold Orchestrator.fetchQueryEnhanced, bind, emit, ret.
    rewrite H. destruct (Orchestrator.retry_attempt net l b);
      eexists; reflexivity.
  - unfold Orchestrator.first_attempt, Orchestrator.checked_json.
    destruct (fetch net (Orchestrator.queryUrl l b zoomLevel)) as [r|e0];
      simpl; [|split; eauto].
    destruct (ok r); simpl.
    + destruct (json r) as [[|[features|]]|e1]; simpl.
      * split; eauto.
      * destruct (0 <? List.length features)%nat; split;
          try (intros [e H]; discriminate H);
          intros [H | [[e H] | H]]; discriminate H.
      * split; try (intros [e H]; discriminate H).
        intros [H | [[e H] | H]]; discriminate H.
      * split; eauto.
    + split; eauto.
Qed.

Lemma retry_only_after_failure_witness :
  Orchestrator.fetchQueryEnhanced Scenario.net_fetch_both
    Scenario.bridges_layer Scenario.columbus 10%float =
  (Fulfilled [with_layerName "bridges" Scenario.inside],
   [NetFetch (Orchestrator.queryUrl Scenario.bridges_layer Scenario.columbus
                10%float) 15000]).
Proof.
  apply (proj1 (retry_only_after_failure Scenario.net_fetch_both
                  Scenario.bridges_layer Scenario.columbus 10%float)).
  reflexivity.
Defined.

(** X9.  In the retry fetch one Polygon feature without any ring makes the
    layer return no feature at all: the exception of its test leaves the
    filter, the other features of the answer are lost, and the console gets
    "Fallback query also failed" with a [TypeError]. *)
Theorem ringless_polygon_empties_retry :
  forall (net : network) (l : layer) (b : bounds) (zoomLevel : number)
         (e : error) (r : response) (features : list feature) (f : feature),
    Orchestrator.first_attempt net l b zoomLevel = Rejected e ->
    fetch net (Orchestrator.fallbackUrl l) = Fulfilled r ->
    json r = Fulfilled (JsonObject (Some features)) ->
    List.In f features ->
    geometry f = Some (Polygon []) ->
    fst (Orchestrator.fetchQueryEnhanced net l b zoomLevel) = Fulfilled [] /\
    List.In
      (ConsoleError ("Fallback query also failed for " +:+ name l +:+ ":")
         TypeError)
      (snd (Orchestrator.fetchQueryEnhanced net l b zoomLevel)).
Proof.
  intros net l b zoomLevel e r features f Hfirst Hfetch Hjson Hin Hg.
  assert (Hf : Orchestrator.fallbackFilter b f = Rejected TypeError).
  { unfold Orchestrator.fallbackFilter. now rewrite Hg. }
  assert (Hretry : Orchestrator.retry_attempt net l b = Rejected TypeError).
  { unfold Orchestrator.retry_attempt. rewrite Hfetch. simpl. rewrite Hjson.
    simpl. destruct features as [|x features]; [destruct Hin |].
    cbn [List.length Nat.ltb Nat.leb].
    now rewrite (filter_throwing_rejects _ _ f TypeError
                   (fallbackFilter_TypeError b) Hin Hf). }
  unfold Orchestrator.fetchQueryEnhanced, bind, emit, ret.
  rewrite Hfirst, Hretry. simpl. split; [reflexivity | tauto].
Qed.

Lemma ringless_polygon_empties_retry_witness :
  fst (Orchestrator.fetchQueryEnhanced Cases.net_retry_ringless
         Scenario.bridges_layer Scenario.columbus 10%float) = Fulfilled [].
Proof.
  apply (ringless_polygon_empties_retry Cases.net_retry_ringless
           Scenario.bridges_layer Scenario.columbus 10%float NetworkError
           {| ok := true; status := 200;
              json := Fulfilled
                        (JsonObject (Some [Scenario.inside; Cases.ringless])) |}
           [Scenario.inside; Cases.ringless] Cases.ringless);
    try reflexivity.
  simpl. right. left. reflexivity.
Defined.

(** ** The cache and the pages *)

Section CacheFacts.
Import Cache.
Variable JSON_stringify : bounds -> string.
Variable toString : Z -> string.

(** The shapes of a load: a hit, a failed count query, a failed page
    query, a stored page. *)
Lemma load_cases (queryCache : gmap string cacheEntry) now l b page limit :
  let key := cacheKey JSON_stringify toString l b page limit in
  let count := {| q_bounds := b; q_limit := 1; q_offset := None |} in
  let q := {| q_bounds := b; q_limit := limit;
              q_offset := Some ((page - 1) * limit) |} in
  let result := loadFeaturesWithProgress JSON_stringify toString queryCache
                  now l b page limit in
  (exists cached,
      queryCache !! key = Some cached /\ now < expiresAt cached /\
      result = (Fulfilled (data cached), queryCache, [])) \/
  (exists e,
      result = (Rejected e, queryCache, [SetLoadingProgress 0; NetQuery count])
      /\ fst (run l count) = QueryError e) \/
  (exists e,
      result = (Rejected e, queryCache,
                [SetLoadingProgress 0; NetQuery count;
                 SetLoadingProgress 10; NetQuery q])
      /\ fst (run l q) = QueryError e) \/
  (exists fc stored,
      run l q = (QueryResult fc, stored) /\
      let r := {| features := default [] (fc_features fc);
                  totalCount := default 0 (fc_totalCount fc);
                  hasMore := page * limit <? default 0 (fc_totalCount fc) |}
      in
      result = (Fulfilled r, setCachedQuery queryCache stored key r,
                [SetLoadingProgress 0; NetQuery count;
                 SetLoadingProgress 10; NetQuery q;
                 SetLoadingProgress 100])).
Proof.
  intros key count q result. subst result.
  unfold loadFeaturesWithProgress, isCacheValid, getCachedQuery.
  fold key. destruct (queryCache !! key) as [cached|] eqn:Hget.
  - destruct (Z.ltb_spec now (expiresAt cached)) as [Hlive | Hexp].
    + left. now exists cached.
    + right. fold count. destruct (run l count) as [[e | c] t1].
      * left. now exists e.
      * right. fold q. destruct (run l q) as [[e | fc] stored].
        -- left. now exists e.
        -- right. exists fc, stored. split; [reflexivity |].
           cbn zeta. now replace ((page - 1) * limit + limit)
             with (page * limit) by lia.
  - right. fold count. destruct (run l count) as [[e | c] t1].
    + left. now exists e.
    + right. fold q. destruct (run l q) as [[e | fc] stored].
      * left. now exists e.
      * right. exists fc, stored. split; [reflexivity |].
        cbn zeta. now replace ((page - 1) * limit + limit)
          with (page * limit) by lia.
Qed.

End CacheFacts.

(** X10.  A load touches the cache at its own key only: entries under other
    keys are neither removed nor changed.  A load that fails, at the count
    query or at the page query, leaves the whole cache as it was after one or
    two requests, and so does a load served from the cache. *)
Theorem load_keeps_other_entries :
  forall (JSON_stringify : bounds -> string) (toString : Z -> string)
         (queryCache : gmap string Cache.cacheEntry) (now : Z)
         (l : Cache.featureLayer) (b : bounds) (page limit : Z)
         (p : outcome Cache.queryResult)
         (cache' : gmap string Cache.cacheEntry) (t : list Cache.event),
    Cache.loadFeaturesWithProgress JSON_stringify toString queryCache now l b
      page limit = (p, cache', t) ->
    (forall k,
        k <> Cache.cacheKey JSON_stringify toString l b page limit ->
        cache' !! k = queryCache !! k) /\
    ((exists e, p = Rejected e) ->
     cache' = queryCache /\ (1 <= Cache.networkCalls t <= 2)%nat) /\
    (t = [] -> cache' = queryCache).
Proof.
  intros JSON_stringify toString queryCache now l b page limit p cache' t H.
  destruct (load_cases JSON_stringify toString queryCache now l b page limit)
    as [(cached & _ & _ & E) | [(e & E & _) | [(e & E & _) |
        (fc & stored & _ & E)]]];
    cbn zeta in E; rewrite E in H; injection H as <- <- <-.
  - split; [auto | split; [intros [e He]; discriminate He | auto]].
  - split; [auto | split; [intros _; split; [reflexivity | cbn; lia] |]].
    discriminate.
  - split; [auto | split; [intros _; split; [reflexivity | cbn; lia] |]].
    discriminate.
  - split; [|split].
    + intros k Hk. unfold Cache.setCachedQuery.
      now rewrite lookup_insert_ne.
    + intros [e He]. discriminate He.
    + discriminate.
Qed.

Lemma load_keeps_other_entries_witness :
  snd (fst (Cache.loadFeaturesWithProgress Scenario.stringify Scenario.decimal
              Scenario.warm_cache 400000 Cases.service_down Scenario.columbus
              1 50)) = Scenario.warm_cache.
Proof.
  destruct (Cache.loadFeaturesWithProgress Scenario.stringify Scenario.decimal
              Scenario.warm_cache 400000 Cases.service_down Scenario.columbus
              1 50)
    as [[p cache'] t] eqn:E.
  pose proof (load_keeps_other_entries _ _ _ _ _ _ _ _ _ _ _ E)
    as (_ & Hfail & _).
  apply Hfail. exists NetworkError.
  vm_compute in E. now injection E as <- _ _.
Defined.

(** X11.  A page that comes from the service has the features of the reply,
    none when the reply has no [features], and the total of the reply, 0 when
    the reply has no [totalCount].  [hasMore] holds exactly when page times
    limit is below that total: without a reported total there is never
    more, however many features came. *)
Theorem page_result_fields :
  forall (JSON_stringify : bounds -> string) (toString : Z -> string)
         (queryCache : gmap string Cache.cacheEntry) (now : Z)
         (l : Cache.featureLayer) (b : bounds) (page limit : Z)
         (r : Cache.queryResult)
         (cache' : gmap string Cache.cacheEntry) (t : list Cache.event),
    Cache.loadFeaturesWithProgress JSON_stringify toString queryCache now l b
      page limit = (Fulfilled r, cache', t) ->
    t <> [] ->
    Cache.hasMore r = (page * limit <? Cache.totalCount r) /\
    exists fc,
      fst (Cache.run l {| Cache.q_bounds := b; Cache.q_limit := limit;
                          Cache.q_offset := Some ((page - 1) * limit) |})
      = Cache.QueryResult fc /\
      Cache.features r = default [] (Cache.fc_features fc) /\
      Cache.totalCount r = default 0 (Cache.fc_totalCount fc) /\
      (Cache.fc_totalCount fc = None -> 0 <= page * limit ->
       Cache.hasMore r = false).
Proof.
  intros JSON_stringify toString queryCache now l b page limit r cache' t H Ht.
  destruct (load_cases JSON_stringify toString queryCache now l b page limit)
    as [(cached & _ & _ & E) | [(e & E & _) | [(e & E & _) |
        (fc & stored & Hrun & E)]]];
    cbn zeta in E; rewrite E in H; try discriminate H.
  - injection H as _ _ <-. now destruct Ht.
  - injection H as <- _ _. split; [reflexivity |].
    exists fc. rewrite Hrun. repeat split.
    intros Hnone Hpos. cbn. rewrite Hnone. cbn. lia.
Qed.

Lemma page_result_fields_witness :
  Cache.hasMore Scenario.first_page
  = (1 * 50 <? Cache.totalCount Scenario.first_page).
Proof.
  assert (E : Cache.loadFeaturesWithProgress Scenario.stringify
                Scenario.decimal ∅ 0 Scenario.service Scenario.columbus 1 50
              = (Fulfilled Scenario.first_page, Scenario.warm_cache,
                 [ Cache.SetLoadingProgress 0;
                   Cache.NetQuery {| Cache.q_bounds := Scenario.columbus;
                                     Cache.q_limit := 1;
                                     Cache.q_offset := None |};
                   Cache.SetLoadingProgress 10;
                   Cache.NetQuery {| Cache.q_bounds := Scenario.columbus;
                                     Cache.q_limit := 50;
                                     Cache.q_offset := Some 0 |};
                   Cache.SetLoadingProgress 100 ]))
    by (vm_compute; reflexivity).
  apply (proj1 (page_result_fields _ _ _ _ _ _ _ _ _ _ _ E
                  ltac:(discriminate))).
Defined.




(** ** Draw tool: sessions *)

Section DrawSessions.
Import DrawTool Formulas Terms.
Variable latLngToContainerPoint : latlng -> pixel.

Lemma selections_app (a b : list request) :
  Terms.selections (a ++ b)
  = (Terms.selections a + Terms.selections b)%nat.
Proof.
  unfold Terms.selections. now rewrite List.filter_app, List.length_app.
Qed.

Lemma activations_cons i inputs :
  Terms.activations (i :: inputs)
  = (activation i + Terms.activations inputs)%nat.
Proof. unfold Terms.activations. now destruct i. Qed.

Lemma removeRectangle_flags s :
  isDrawing (removeRectangle s) = isDrawing s /\
  isCurrentlyDrawing (removeRectangle s) = isCurrentlyDrawing s.
Proof.
  unfold removeRectangle.
  destruct (rectangleRef s); [destruct (rectangleOnMap s) |]; now split.
Qed.

(** A changed [isDrawing] starts a new closure of the effect. *)
Lemma setIsDrawing_changed v s :
  isDrawing s = negb v ->
  isDrawing (setIsDrawing v s) = v /\
  isCurrentlyDrawing (setIsDrawing v s) = false.
Proof.
  intro H. unfold setIsDrawing. rewrite H. now destruct v.
Qed.

Lemma setIsDrawing_same v s :
  isDrawing s = v -> setIsDrawing v s = s.
Proof. intro H. unfold setIsDrawing. rewrite H. now destruct v. Qed.

(** A pointer-up that ends a drag deactivates the tool and asks for at most
    one selection. *)
Lemma onMouseUp_ends start e s :
  isCurrentlyDrawing s = true -> startPointRef s = Some start ->
  isDrawing s = true ->
  isDrawing (fst (onMouseUp latLngToContainerPoint e s)) = false /\
  isCurrentlyDrawing (fst (onMouseUp latLngToContainerPoint e s)) = false /\
  (Terms.selections (snd (onMouseUp latLngToContainerPoint e s)) <= 1)%nat.
Proof.
  intros Hcd Hsp Hd. unfold onMouseUp. rewrite Hcd, Hsp. cbv zeta.
  destruct (lt _ _ || lt _ _); cbn [fst snd];
    (split; [| split; [| cbn; lia]]);
    match goal with
    | |- _ (setIsDrawing false ?a) = _ =>
        apply (setIsDrawing_changed false a)
    end;
    match goal with
    | |- isDrawing (if ?c then _ else _) = _ => destruct c
    end;
    cbn [isDrawing setDragging setCursor negb];
    try (rewrite (proj1 (removeRectangle_flags _)));
    exact Hd.
Qed.

(** A selection uses up the activation of the tool. *)
Lemma step_budget s i :
  drag_implies_armed s ->
  drag_implies_armed (fst (step latLngToContainerPoint s i)) /\
  (Terms.selections (snd (step latLngToContainerPoint s i))
   + armed (fst (step latLngToContainerPoint s i))
   <= armed s + activation i)%nat.
Proof.
  unfold drag_implies_armed, armed. intro Hinv.
  destruct i as [| | e | e | e |]; cbn [step fst snd activation].
  - unfold startDrawing.
    destruct (isDrawing s) eqn:Hd.
    + rewrite (setIsDrawing_same true s Hd), Hd. split; [auto | cbn; lia].
    + destruct (setIsDrawing_changed true s Hd) as [E1 E2].
      rewrite E1, E2. split; [auto | cbn; lia].
  - unfold stopDrawing.
    set (s1 := setCursor "" (removeRectangle s)).
    assert (H1 : isDrawing s1 = isDrawing s)
      by apply (proj1 (removeRectangle_flags s)).
    assert (H2 : isCurrentlyDrawing s1 = isCurrentlyDrawing s)
      by apply (proj2 (removeRectangle_flags s)).
    destruct (isDrawing s) eqn:Hd.
    + destruct (setIsDrawing_changed false s1 H1) as [E1 E2].
      rewrite E1, E2. split; [discriminate | cbn; lia].
    + rewrite (setIsDrawing_same false s1 H1), H1, H2.
      split; [exact Hinv | cbn; lia].
  - unfold onMouseDown. destruct (isDrawing s) eqn:Hd; cbn.
    + split; [auto | lia].
    + rewrite Hd. split; [exact Hinv | lia].
  - unfold onMouseMove.
    destruct (isCurrentlyDrawing s) eqn:Hcd;
      [destruct (startPointRef s) as [start|] |]; cbn;
      rewrite ?Hcd; (split; [exact Hinv || discriminate | lia]).
  - destruct (isCurrentlyDrawing s) eqn:Hcd;
      [destruct (startPointRef s) as [start|] eqn:Hsp |].
    + destruct (onMouseUp_ends start e s Hcd Hsp (Hinv eq_refl))
        as (E1 & E2 & E3).
      rewrite E1, E2, (Hinv eq_refl). split; [discriminate | lia].
    + unfold onMouseUp. rewrite Hcd, Hsp. cbn [fst snd]. rewrite Hcd.
      split; [exact Hinv | cbn; lia].
    + unfold onMouseUp. rewrite Hcd. cbn [fst snd]. rewrite Hcd.
      split; [exact Hinv | cbn; lia].
  - unfold onTimeout.
    destruct (removeRectangle_flags s) as [E1 E2]. rewrite E1, E2.
    split; [exact Hinv | cbn; lia].
Qed.

Lemma run_budget inputs :
  forall s,
    drag_implies_armed s ->
    (Terms.selections (snd (run latLngToContainerPoint s inputs))
     <= armed s + Terms.activations inputs)%nat.
Proof.
  induction inputs as [|i inputs IH]; intros s Hinv.
  - cbn. lia.
  - rewrite activations_cons. cbn [run].
    destruct (step_budget s i Hinv) as [Hinv' Hstep].
    destruct (step latLngToContainerPoint s i) as [s1 r1].
    cbn [fst snd] in Hinv', Hstep.
    specialize (IH s1 Hinv').
    destruct (run latLngToContainerPoint s1 inputs) as [s2 r2].
    cbn [snd] in *. rewrite selections_app. lia.
Qed.

Lemma step_at_rest s i :
  at_rest s -> activation i = 0%nat ->
  step latLngToContainerPoint s i = (s, []).
Proof.
  destruct s as [d cd wd sp rr rom dr cu].
  intros (Hd & Hcd & Hrom & Hcu) Hi. cbn in Hd, Hcd, Hrom, Hcu. subst.
  destruct i as [| | e | e | e |]; try discriminate Hi; cbn [step].
  - unfold stopDrawing, setIsDrawing, setCursor, removeRectangle.
    now destruct rr.
  - reflexivity.
  - reflexivity.
  - reflexivity.
  - unfold onTimeout, removeRectangle. now destruct rr.
Qed.

Lemma run_at_rest inputs s :
  at_rest s -> Terms.activations inputs = 0%nat ->
  run latLngToContainerPoint s inputs = (s, []).
Proof.
  intros Hs. induction inputs as [|i inputs IH]; [reflexivity |].
  rewrite activations_cons. intro H.
  cbn [run]. rewrite (step_at_rest s i Hs) by lia.
  rewrite IH by lia. reflexivity.
Qed.

(** The end of a drag that is large enough, with the effect of the state
    update on the rectangle. *)
Lemma onMouseUp_selects panning start e s :
  mid_drag panning start s ->
  span_below_threshold latLngToContainerPoint start e = false ->
  let (s', requests) := onMouseUp latLngToContainerPoint e s in
  requests = [QueryFeaturesInBounds (L_latLngBounds start e);
              SetTimeout 5000] /\
  isDrawing s' = false /\ isCurrentlyDrawing s' = false /\
  dragging s' = panning /\ cursor s' = "" /\
  rectangleOnMap s' = false /\ onTimeout s' = s'.
Proof.
  intros (H1 & H2 & H3 & H4 & [r H5] & H6 & H7) Hlarge.
  unfold span_below_threshold in Hlarge.
  unfold onMouseUp. rewrite H2, H4, Hlarge.
  destruct s as [d cd wd sp rr rom dr cu]; simpl in *. subst.
  destruct panning; simpl; repeat split; reflexivity.
Qed.

End DrawSessions.

(** X14.  Every selection query of the draw tool uses up one activation:
    over any sequence of commands, pointer events and timer callbacks from
    the initial state, the number of queries is at most the number of
    [startDrawing] calls.  Without an activation the tool does nothing at
    all: the state is unchanged and nothing is asked. *)
Theorem one_selection_per_activation :
  forall (latLngToContainerPoint : DrawTool.latlng -> DrawTool.pixel)
         (draggingEnabled : bool) (inputs : list DrawTool.input),
    (Terms.selections
       (snd (DrawTool.run latLngToContainerPoint
               (DrawTool.initial draggingEnabled) inputs))
     <= Terms.activations inputs)%nat /\
    (Terms.activations inputs = 0%nat ->
     DrawTool.run latLngToContainerPoint (DrawTool.initial draggingEnabled)
       inputs
     = (DrawTool.initial draggingEnabled, [])).
Proof.
  intros proj d inputs. split.
  - apply (run_budget proj inputs (DrawTool.initial d)). discriminate.
  - apply run_at_rest. repeat split; reflexivity.
Qed.

Lemma one_selection_per_activation_witness :
  DrawTool.run Scenario.projection (DrawTool.initial true)
    [ DrawTool.MouseDown Scenario.corner_a;
      DrawTool.MouseMove Scenario.corner_far;
      DrawTool.MouseUp Scenario.corner_far; DrawTool.StopDrawing ]
  = (DrawTool.initial true, []).
Proof.
  apply (proj2 (one_selection_per_activation Scenario.projection true _)).
  reflexivity.
Defined.

(** X15.  A drag of the active tool that ends with a span of at least 10
    pixels on both axes asks for exactly one selection, whose box is spanned
    by the pointer-down and the pointer-up positions, whatever the moves in
    between, and sets the 5 s timer.  Map dragging is back to what it was
    and the tool is deactivated.  The rectangle is off the map as soon as
    the deactivation is applied, because the effect's cleanup removes it; the
    timer's callback then finds nothing to remove. *)
Theorem completed_drag_selects_once :
  forall (latLngToContainerPoint : DrawTool.latlng -> DrawTool.pixel)
         (s0 : DrawTool.state) (start : DrawTool.latlng)
         (moves : list DrawTool.latlng) (e : DrawTool.latlng),
    DrawTool.isDrawing s0 = true ->
    Formulas.span_below_threshold latLngToContainerPoint start e = false ->
    let (s', requests) :=
      DrawTool.onMouseUp latLngToContainerPoint e
        (DrawTool.drag start moves s0) in
    requests = [ DrawTool.QueryFeaturesInBounds
                   (DrawTool.L_latLngBounds start e);
                 DrawTool.SetTimeout 5000 ] /\
    DrawTool.isDrawing s' = false /\
    DrawTool.dragging s' = DrawTool.dragging s0 /\
    DrawTool.cursor s' = "" /\
    DrawTool.rectangleOnMap s' = false /\
    DrawTool.onTimeout s' = s'.
Proof.
  intros proj s0 start moves e Harmed Hlarge.
  pose proof (onMouseUp_selects proj (DrawTool.dragging s0) start e
                (DrawTool.drag start moves s0)
                (drag_mid_drag start moves s0 Harmed) Hlarge) as H.
  destruct (DrawTool.onMouseUp proj e (DrawTool.drag start moves s0))
    as [s' requests].
  tauto.
Qed.

Lemma completed_drag_selects_once_witness :
  DrawTool.rectangleOnMap
    (fst (DrawTool.onMouseUp Scenario.projection Scenario.corner_far
            (DrawTool.drag Scenario.corner_a [Scenario.corner_near]
               (DrawTool.startDrawing (DrawTool.initial true))))) = false.
Proof.
  pose proof (completed_drag_selects_once Scenario.projection
                (DrawTool.startDrawing (DrawTool.initial true))
                Scenario.corner_a [Scenario.corner_near] Scenario.corner_far
                eq_refl) as H.
  destruct (DrawTool.onMouseUp Scenario.projection Scenario.corner_far
              (DrawTool.drag Scenario.corner_a [Scenario.corner_near]
                 (DrawTool.startDrawing (DrawTool.initial true))))
    as [s' requests].
  apply H. vm_compute. reflexivity.
Defined.

(** ** Measurement tool: sessions *)

Section MeasureSessions.
Import Measure.
Variable distanceTo : LatLng number -> LatLng number -> number.
Variable toFixed : number -> nat -> string.
Variable toLocaleString : number -> string.
Variable showLength : nat -> string.

Lemma clicks_snoc es e s : Terms.clicks distanceTo toFixed toLocaleString showLength (es ++ [e]) s
  = handleMapClick distanceTo toFixed toLocaleString showLength e
      (Terms.clicks distanceTo toFixed toLocaleString showLength es s).
Proof. unfold Terms.clicks. now rewrite List.fold_left_app. Qed.

Lemma clicks_ignored es s :
  isMeasuringRef s = false ->
  Terms.clicks distanceTo toFixed toLocaleString showLength es s = s.
Proof.
  intro H. induction es as [|e es IH]; [reflexivity |].
  unfold Terms.clicks in *. cbn [List.fold_left].
  unfold handleMapClick at 2. rewrite H. exact IH.
Qed.

(** The state after the clicks [es] of a session begun in [s0] with an
    empty vertex list. *)
Lemma clicks_recorded s0 es :
  isMeasuringRef s0 = true -> isDoubleClickingRef s0 = false ->
  measurePointsRef s0 = [] ->
  let s' :=
    Terms.clicks distanceTo toFixed toLocaleString showLength es s0 in
  measurePointsRef s' = es /\ isMeasuringRef s' = true /\
  isDoubleClickingRef s' = false /\ measureMode s' = measureMode s0 /\
  isMeasuring s' = isMeasuring s0 /\
  match measureMode s0 with
  | line_mode =>
      measurePolygonRef s' = measurePolygonRef s0 /\
      if (1 <? List.length es)%nat then
        measureLineRef s' = Some es /\
        message s' =
        lineMessage distanceTo toFixed toLocaleString showLength
          "📏 Line: " " - Double-click to finish" es
      else measureLineRef s' = measureLineRef s0
  | area_mode =>
      measureLineRef s' = measureLineRef s0 /\
      if (2 <? List.length es)%nat then
        measurePolygonRef s' = Some es /\
        message s' =
        areaMessage toFixed showLength
          "📐 Area: " " - Double-click to finish" es
      else measurePolygonRef s' = measurePolygonRef s0
  end.
Proof.
  intros Hm Hd Hp. cbn zeta.
  induction es as [|e es IH] using List.rev_ind.
  - cbn. rewrite Hp. destruct (measureMode s0); auto 10.
  - rewrite clicks_snoc.
    destruct IH as (Ip & Im & Id & Imode & Iact & Iref).
    unfold handleMapClick. rewrite Im, Id, Ip, Imode. cbn [negb orb].
    rewrite List.length_app. cbn [List.length].
    destruct (measureMode s0);
      cbn [measurePointsRef isMeasuringRef isDoubleClickingRef measureMode
           isMeasuring measureLineRef measurePolygonRef message].
    + destruct Iref as [Ipoly Iline].
      repeat (split; [assumption || reflexivity |]).
      destruct (1 <? List.length es + 1)%nat eqn:E; [split; reflexivity |].
      apply Nat.ltb_ge in E.
      rewrite (proj2 (Nat.ltb_ge 1 (List.length es))) in Iline by lia.
      exact Iline.
    + destruct Iref as [Iline Ipoly].
      repeat (split; [assumption || reflexivity |]).
      destruct (2 <? List.length es + 1)%nat eqn:E; [split; reflexivity |].
      apply Nat.ltb_ge in E.
      rewrite (proj2 (Nat.ltb_ge 2 (List.length es))) in Ipoly by lia.
      exact Ipoly.
Qed.

(** Appending a vertex adds one leg to the running total. *)
Lemma totalDistance_snoc points last e total :
  totalDistance distanceTo (points ++ [last; e]) total
  = (totalDistance distanceTo (points ++ [last]) total
     + distanceTo last e)%float.
Proof.
  revert total. induction points as [|a points IH]; intro total.
  - reflexivity.
  - destruct points as [|b rest].
    + reflexivity.
    + change (totalDistance distanceTo ((a :: b :: rest) ++ [last; e]) total)
        with (totalDistance distanceTo ((b :: rest) ++ [last; e])
                (total + distanceTo a b)%float).
      change (totalDistance distanceTo ((a :: b :: rest) ++ [last]) total)
        with (totalDistance distanceTo ((b :: rest) ++ [last])
                (total + distanceTo a b)%float).
      apply IH.
Qed.

End MeasureSessions.

(** X16.  After [startMeasuring], every click is recorded: the vertex list
    is exactly the clicked positions in order and the session keeps
    collecting.  From the second click of a line (the third of an area) the
    drawn shape and the readout are those of all the clicks so far; before
    that, the shape of the previous measurement is still the one on the
    map. *)
Theorem clicks_are_recorded_in_order :
  forall (distanceTo : Measure.LatLng number -> Measure.LatLng number -> number)
         (toFixed : number -> nat -> string)
         (toLocaleString : number -> string) (showLength : nat -> string)
         (m : Measure.mode) (s : Measure.state)
         (es : list (Measure.LatLng number)),
    let s' :=
      Terms.clicks distanceTo toFixed toLocaleString showLength es
        (Measure.startMeasuring m s) in
    Measure.measurePointsRef s' = es /\
    Measure.collecting s' = true /\
    Measure.isMeasuring s' = true /\
    match m with
    | Measure.line_mode =>
        Measure.measurePolygonRef s' = Measure.measurePolygonRef s /\
        if (1 <? List.length es)%nat then
          Measure.measureLineRef s' = Some es /\
          Measure.message s' =
          Measure.lineMessage distanceTo toFixed toLocaleString showLength
            "📏 Line: " " - Double-click to finish" es
        else Measure.measureLineRef s' = Measure.measureLineRef s
    | Measure.area_mode =>
        Measure.measureLineRef s' = Measure.measureLineRef s /\
        if (2 <? List.length es)%nat then
          Measure.measurePolygonRef s' = Some es /\
          Measure.message s' =
          Measure.areaMessage toFixed showLength
            "📐 Area: " " - Double-click to finish" es
        else Measure.measurePolygonRef s' = Measure.measurePolygonRef s
    end.
Proof.
  intros distanceTo toFixed toLocaleString showLength m s es.
  pose proof (clicks_recorded distanceTo toFixed toLocaleString showLength
                (Measure.startMeasuring m s) es eq_refl eq_refl eq_refl) as H.
  cbn zeta in *. destruct H as (Hp & Hm & Hd & _ & Hact & Href).
  unfold Measure.collecting. rewrite Hm, Hd.
  repeat (split; [assumption || reflexivity |]).
  cbn [Measure.startMeasuring Measure.measureMode Measure.measureLineRef
       Measure.measurePolygonRef] in Href.
  exact Href.
Qed.

(** X17.  [stopMeasuring] ends the session: later clicks and double-clicks
    change nothing.  [clearMeasurements] does not: in a running session it
    empties the vertex list and the clicks that follow are recorded from an
    empty list, also when the double-click guard was set; in a finished
    session the clicks stay ignored. *)
Theorem stop_ends_clear_does_not :
  forall (distanceTo : Measure.LatLng number -> Measure.LatLng number -> number)
         (toFixed : number -> nat -> string)
         (toLocaleString : number -> string) (showLength : nat -> string)
         (s : Measure.state) (es : list (Measure.LatLng number)),
    Terms.clicks distanceTo toFixed toLocaleString showLength es
      (Measure.stopMeasuring s) = Measure.stopMeasuring s /\
    Measure.handleMapDoubleClick distanceTo toFixed toLocaleString showLength
      (Measure.stopMeasuring s) = Measure.stopMeasuring s /\
    (Measure.isMeasuringRef s = true ->
     Measure.measurePointsRef
       (Terms.clicks distanceTo toFixed toLocaleString showLength es
          (Measure.clearMeasurements s)) = es) /\
    (Measure.isMeasuringRef s = false ->
     Terms.clicks distanceTo toFixed toLocaleString showLength es
       (Measure.clearMeasurements s) = Measure.clearMeasurements s).
Proof.
  intros distanceTo toFixed toLocaleString showLength s es.
  split; [now apply clicks_ignored |]. split; [reflexivity |]. split.
  - intro H.
    now destruct (clicks_recorded distanceTo toFixed toLocaleString showLength
                    (Measure.clearMeasurements s) es H eq_refl eq_refl)
      as [Hp _].
  - intro H. now apply clicks_ignored.
Qed.

Lemma stop_ends_clear_does_not_witness :
  Measure.measurePointsRef
    (Terms.clicks Scenario.flat_distance Scenario.fixed Scenario.localized
       Scenario.count_text [Scenario.vertex; Scenario.vertex]
       (Measure.clearMeasurements
          (Measure.startMeasuring Measure.area_mode Measure.initial)))
  = [Scenario.vertex; Scenario.vertex].
Proof.
  apply (stop_ends_clear_does_not Scenario.flat_distance Scenario.fixed
           Scenario.localized Scenario.count_text
           (Measure.startMeasuring Measure.area_mode Measure.initial)).
  reflexivity.
Defined.

(** X18.  The length of a line is accumulated leg by leg between consecutive
    vertices, in the order of the vertices: with one more vertex the total is
    the total so far plus the distance from the previous last vertex, in the
    arithmetic of the code, and miles and feet are that total times
    0.000621371 and 3.28084. *)
Theorem calculateDistance_adds_last_leg :
  forall (distanceTo : Measure.LatLng number -> Measure.LatLng number -> number)
         (points : list (Measure.LatLng number))
         (last e : Measure.LatLng number),
    Measure.calculateDistance distanceTo (points ++ [last; e])
    = let total :=
        (Measure.totalDistance distanceTo (points ++ [last]) 0
         + distanceTo last e)%float in
      ((total * 0.000621371)%float, (total * 3.28084)%float).
Proof.
  intros distanceTo points last e.
  unfold Measure.calculateDistance.
  rewrite List.length_app. cbn [List.length].
  replace (List.length points + 2 <? 2)%nat with false
    by (symmetry; apply Nat.ltb_ge; lia).
  now rewrite totalDistance_snoc.
Qed.

(** ** Area: the shoelace sum does not see where the polygon is *)

Section AreaShift.
Import Measure Formulas.
Local Open Scope Q_scope.

Lemma Qsum_app (l1 l2 : list Q) : Qsum (l1 ++ l2) == Qsum l1 + Qsum l2.
Proof.
  induction l1 as [|q l1 IH]; simpl; [ring | rewrite IH; ring].
Qed.

Lemma Qsum_map_ext (f g : nat -> Q) (l : list nat) :
  (forall i, List.In i l -> f i == g i) ->
  Qsum (List.map f l) == Qsum (List.map g l).
Proof.
  induction l as [|i l IH]; intro H; simpl; [reflexivity |].
  rewrite (H i (or_introl eq_refl)), IH; [reflexivity |].
  intros k Hk. apply H. now right.
Qed.

Lemma Qsum_map_plus (f g : nat -> Q) (l : list nat) :
  Qsum (List.map (fun i => f i + g i) l)
  == Qsum (List.map f l) + Qsum (List.map g l).
Proof. induction l as [|i l IH]; simpl; [ring | rewrite IH; ring]. Qed.

(** A sum over the next index, taken cyclically, is the sum itself. *)
Lemma Qsum_cyclic (g : nat -> Q) (n : nat) :
  Qsum (List.map (fun i => g ((i + 1) mod n)%nat) (List.seq 0 n))
  == Qsum (List.map g (List.seq 0 n)).
Proof.
  destruct n as [|m]; [reflexivity |].
  rewrite List.seq_S at 1. rewrite List.map_app, Qsum_app.
  cbn [List.map Qsum Nat.add].
  replace ((m + 1) mod S m)%nat with 0%nat
    by (replace (m + 1)%nat with (S m) by lia;
        now rewrite Nat.Div0.mod_same).
  change (List.seq 0 (S m)) with (0%nat :: List.seq 1 m).
  cbn [List.map Qsum].
  rewrite <- List.seq_shift, List.map_map.
  rewrite (Qsum_map_ext (fun i => g ((i + 1) mod S m)%nat)
             (fun i => g (S i))).
  - ring.
  - intros i Hi. apply List.in_seq in Hi.
    rewrite Nat.mod_small by lia.
    replace (i + 1)%nat with (S i) by lia. reflexivity.
Qed.

Lemma nth_shift dlat dlng (points : list (LatLng Q)) i d d' :
  (i < List.length points)%nat ->
  List.nth i (List.map (Terms.shift dlat dlng) points) d
  = Terms.shift dlat dlng (List.nth i points d').
Proof.
  intro Hi.
  rewrite (List.nth_indep _ d (Terms.shift dlat dlng d'))
    by now rewrite List.length_map.
  apply List.map_nth.
Qed.

Lemma shoelace_sum_shift dlat dlng (points : list (LatLng Q)) :
  shoelace_sum (List.map (Terms.shift dlat dlng) points)
  == shoelace_sum points.
Proof.
  unfold shoelace_sum. rewrite List.length_map.
  set (n := List.length points).
  set (origin := {| lat := 0; lng := 0 |}).
  set (g := fun i => dlat * lng (List.nth i points origin)
                     - dlng * lat (List.nth i points origin)).
  rewrite (Qsum_map_ext _
             (fun i => (shoelace_term points i + g i)
                       + - g ((i + 1) mod n)%nat)).
  - rewrite Qsum_map_plus, Qsum_map_plus.
    assert (E : Qsum (List.map (fun i => - g ((i + 1) mod n)%nat)
                        (List.seq 0 n))
                == - Qsum (List.map g (List.seq 0 n))).
    { rewrite <- (Qsum_cyclic g n).
      generalize (List.seq 0 n). intro l.
      induction l as [|i l IH]; simpl; [ring | rewrite IH; ring]. }
    rewrite E. ring.
  - intros i Hi. apply List.in_seq in Hi.
    assert (Hn : (0 < n)%nat) by lia.
    assert (Hj : ((i + 1) mod n < n)%nat) by (apply Nat.mod_upper_bound; lia).
    unfold shoelace_term. rewrite List.length_map. fold n. fold origin.
    rewrite (nth_shift dlat dlng points i origin origin) by (fold n; lia).
    rewrite (nth_shift dlat dlng points _ origin origin) by (fold n; lia).
    unfold g, Terms.shift; simpl. ring.
Qed.

Lemma areaInSqMeters_shift dlat dlng (points : list (LatLng Q)) :
  areaInSqMeters (List.map (Terms.shift dlat dlng) points)
  == areaInSqMeters points.
Proof.
  rewrite !areaInSqMeters_shoelace. now rewrite shoelace_sum_shift.
Qed.

End AreaShift.

(** X19.  With exact arithmetic the area does not depend on where the
    polygon lies: moving every vertex by the same number of degrees of
    latitude and longitude leaves acres and square miles unchanged, so a
    shape of given extent in degrees has the same area at every latitude.
    In the binary64 arithmetic of the code this holds up to rounding only:
    a triangle and its exact translation by 40 degrees of latitude have the
    same exact area and different computed acres. *)
Theorem calculateArea_position_independent :
  (forall (dlat dlng : Q) (points : list (Measure.LatLng Q)),
      (Measure.acres
         (Measure.calculateArea (List.map (Terms.shift dlat dlng) points))
       == Measure.acres (Measure.calculateArea points))%Q /\
      (Measure.sqMiles
         (Measure.calculateArea (List.map (Terms.shift dlat dlng) points))
       == Measure.sqMiles (Measure.calculateArea points))%Q) /\
  (let south := Cases.triangle_at 0 in
   let north := Cases.triangle_at 40 in
   List.Forall2
     (fun p q =>
        (Measure.lat q == Measure.lat p + 40)%Q /\
        (Measure.lng q == Measure.lng p)%Q)
     (List.map Formulas.exact south) (List.map Formulas.exact north) /\
   (Measure.acres (Measure.calculateArea (List.map Formulas.exact north))
    == Measure.acres (Measure.calculateArea (List.map Formulas.exact south)))%Q
   /\
   PrimFloat.eqb (Measure.acres (Measure.calculateArea north))
     (Measure.acres (Measure.calculateArea south)) = false /\
   PrimFloat.ltb (Measure.acres (Measure.calculateArea north))
     (Measure.acres (Measure.calculateArea south)) = true).
Proof.
  assert (Hexact : forall (dlat dlng : Q) (points : list (Measure.LatLng Q)),
             (Measure.acres
                (Measure.calculateArea
                   (List.map (Terms.shift dlat dlng) points))
              == Measure.acres (Measure.calculateArea points))%Q /\
             (Measure.sqMiles
                (Measure.calculateArea
                   (List.map (Terms.shift dlat dlng) points))
              == Measure.sqMiles (Measure.calculateArea points))%Q).
  { intros dlat dlng points. unfold Measure.calculateArea.
    rewrite List.length_map.
    destruct (List.length points <? 3)%nat; simpl; [split; reflexivity |].
    pose proof (areaInSqMeters_shift dlat dlng points) as E.
    split; apply Qmult_comp; (exact E || reflexivity). }
  split; [exact Hexact |]. cbv zeta.
  split; [|split; [|split; vm_compute; reflexivity]].
  - vm_compute. repeat constructor.
  - apply Qeq_bool_eq. vm_compute. reflexivity.
Qed.

(** * The selection as a whole *)

(** ** Requests of a selection and the zoom level *)

Section SelectionRequests.
Import Orchestrator.

(** The two requests [fetchQuery] can send for a layer. *)
Lemma fetchQuery_fetches net l b req timeout :
  List.In (NetFetch req timeout) (snd (fetchQuery net l b)) ->
  (req = Envelope (url l) 500
           (getWest b - 0.001)%float (getSouth b - 0.001)%float
           (getEast b + 0.001)%float (getNorth b + 0.001)%float /\
   timeout = 15000) \/
  (req = WhereAll (url l) 500 /\ timeout = 10000).
Proof.
  unfold fetchQuery, fetchQueryEnhanced, bind, emit, ret.
  destruct (first_attempt net l b 10%float); cbn [snd app List.In].
  - intros [H | []]. injection H as <- <-. now left.
  - destruct (retry_attempt net l b); cbn [snd app List.In];
      intros H;
      repeat match goal with
        | H : _ \/ _ |- _ => destruct H as [H | H]
        | H : False |- _ => destruct H
        | H : ConsoleError _ _ = NetFetch _ _ |- _ => discriminate H
        end;
      injection H as <- <-; (now left) || (now right).
Qed.

Lemma queryLayer_fetches net b l req timeout :
  List.In (NetFetch req timeout) (snd (queryLayer net b l)) ->
  List.In (NetFetch req timeout) (snd (fetchQuery net l b)).
Proof.
  unfold queryLayer, bind, emit, ret.
  destruct (fetchQuery net l b) as [p t]. cbn [snd].
  destruct (esri_within net (url l) b 100) as [e | [[features|]|]];
    try destruct (0 <? List.length features)%nat;
    cbn [snd app List.In]; intros H;
    repeat match goal with
      | H : _ \/ _ |- _ => destruct H as [H | H]
      | H : False |- _ => destruct H
      | H : NetEsriQuery _ _ _ = NetFetch _ _ |- _ => discriminate H
      | H : ConsoleError _ _ = NetFetch _ _ |- _ => discriminate H
      end;
    try rewrite app_nil_r in H; exact H.
Qed.

Lemma selection_fetches net b ls req timeout :
  List.In (NetFetch req timeout) (snd (queryFeaturesInBounds net b ls)) ->
  exists l,
    List.In l (visibleLayers ls) /\
    List.In (NetFetch req timeout) (snd (fetchQuery net l b)).
Proof.
  rewrite queryFeaturesInBounds_trace. intro H.
  apply List.in_app_or in H as [H | H].
  - apply List.in_concat in H as (t & Ht & H).
    apply List.in_map_iff in Ht as (l & <- & Hl).
    exists l. split; [exact Hl |]. now apply queryLayer_fetches.
  - destruct H as [H | [H | []]]; discriminate H.
Qed.

End SelectionRequests.

(** C5 (amended).  The strategy of a selection does not depend on any zoom
    level: [fetchQuery], through which alone the orchestrator reaches
    [fetchQueryEnhanced], passes the constant 10.  Every first fetch of a
    selection is the spatial query of the normal strategy, the drawn box
    widened by 0.001 degree with at most 500 records, and the only other
    fetch is the retry with [where=1=1] and 500 records: the broad fetch of
    1000 records of the very-low-zoom branch is never sent. *)
Theorem selection_strategy_ignores_zoom :
  forall (net : network) (b : bounds) (ls : layerStates),
    let trace := snd (Orchestrator.queryFeaturesInBounds net b ls) in
    (forall l,
        Orchestrator.fetchQuery net l b =
        Orchestrator.fetchQueryEnhanced net l b 10%float /\
        Orchestrator.queryUrl l b 10%float =
        Envelope (url l) 500
          (getWest b - 0.001)%float (getSouth b - 0.001)%float
          (getEast b + 0.001)%float (getNorth b + 0.001)%float) /\
    (forall req timeout,
        List.In (NetFetch req timeout) trace ->
        exists l,
          List.In l (Orchestrator.visibleLayers ls) /\
          ((req = Envelope (url l) 500
                    (getWest b - 0.001)%float (getSouth b - 0.001)%float
                    (getEast b + 0.001)%float (getNorth b + 0.001)%float /\
            timeout = 15000) \/
           (req = WhereAll (url l) 500 /\ timeout = 10000))) /\
    (forall u timeout, ~ List.In (NetFetch (WhereAll u 1000) timeout) trace).
Proof.
  intros net b ls trace. split; [intro l; split; reflexivity |].
  assert (Hreq : forall req timeout,
             List.In (NetFetch req timeout) trace ->
             exists l,
               List.In l (Orchestrator.visibleLayers ls) /\
               ((req = Envelope (url l) 500
                         (getWest b - 0.001)%float (getSouth b - 0.001)%float
                         (getEast b + 0.001)%float (getNorth b + 0.001)%float
                 /\ timeout = 15000) \/
                (req = WhereAll (url l) 500 /\ timeout = 10000))).
  { intros req timeout H.
    destruct (selection_fetches net b ls req timeout H) as (l & Hl & Hin).
    exists l. split; [exact Hl |]. now apply (fetchQuery_fetches net l b). }
  split; [exact Hreq |].
  intros u timeout H.
  destruct (Hreq _ _ H) as (l & _ & [[E _] | [E _]]); discriminate E.
Qed.

Lemma selection_strategy_ignores_zoom_witness :
  exists l,
    List.In l (Orchestrator.visibleLayers Scenario.only_bridges) /\
    ((Orchestrator.queryUrl Scenario.bridges_layer Scenario.columbus 10%float
      = Envelope (url l) 500
          (getWest Scenario.columbus - 0.001)%float
          (getSouth Scenario.columbus - 0.001)%float
          (getEast Scenario.columbus + 0.001)%float
          (getNorth Scenario.columbus + 0.001)%float /\
      15000 = 15000) \/
     (Orchestrator.queryUrl Scenario.bridges_layer Scenario.columbus 10%float
      = WhereAll (url l) 500 /\ 15000 = 10000)).
Proof.
  apply (proj1 (proj2 (selection_strategy_ignores_zoom Scenario.net_fetch_both
                         Scenario.columbus Scenario.only_bridges))).
  vm_compute. right. left. reflexivity.
Defined.

(** A selection while the map is zoomed far out: the request is not the one
    the very-low-zoom strategy (zoom 5) or the low-zoom strategy (zoom 9)
    would send, but the one of the normal strategy. *)
Lemma selection_never_uses_low_zoom_strategies :
  let trace :=
    snd (Orchestrator.queryFeaturesInBounds Scenario.net_fetch_both
           Scenario.columbus Scenario.only_bridges) in
  let sent :=
    List.filter (fun e => match e with NetFetch _ _ => true | _ => false end)
      trace in
  sent =
  [ NetFetch
      (Orchestrator.queryUrl Scenario.bridges_layer Scenario.columbus
         10%float) 15000 ] /\
  Orchestrator.queryUrl Scenario.bridges_layer Scenario.columbus 10%float
  <> Orchestrator.queryUrl Scenario.bridges_layer Scenario.columbus 5%float /\
  Orchestrator.queryUrl Scenario.bridges_layer Scenario.columbus 10%float
  <> Orchestrator.queryUrl Scenario.bridges_layer Scenario.columbus 9%float.
Proof.
  cbv zeta. split; [vm_compute; reflexivity |].
  split; [vm_compute; discriminate |].
  intro H.
  apply (f_equal
           (fun req =>
              match req with
              | Envelope _ _ xmin _ _ _ => PrimFloat.ltb xmin (-83.05)%float
              | WhereAll _ _ => false
              end)) in H.
  vm_compute in H. discriminate H.
Qed.

(** ** What a layer delivers reaches the selection *)

Section Delivered.
Import Orchestrator Formulas Terms.









End Delivered.




(** ** The query cache *)

Section CacheUse.
Import Cache.
Variable JSON_stringify : bounds -> string.
Variable toString : Z -> string.

(** A load that finds no live entry and whose two queries are answered
    stores the page under its key, stamped with the time of the answer. *)
Lemma load_fresh (queryCache : gmap string cacheEntry) now l b page limit
    fc0 t0 fc stored :
  isCacheValid queryCache now
    (cacheKey JSON_stringify toString l b page limit) = false ->
  run l {| q_bounds := b; q_limit := 1; q_offset := None |}
  = (QueryResult fc0, t0) ->
  run l {| q_bounds := b; q_limit := limit;
           q_offset := Some ((page - 1) * limit) |}
  = (QueryResult fc, stored) ->
  loadFeaturesWithProgress JSON_stringify toString queryCache now l b page
    limit =
  (Fulfilled
     {| features := default [] (fc_features fc);
        totalCount := default 0 (fc_totalCount fc);
        hasMore := (page - 1) * limit + limit
                   <? default 0 (fc_totalCount fc) |},
   <[ cacheKey JSON_stringify toString l b page limit :=
        {| data :=
             {| features := default [] (fc_features fc);
                totalCount := default 0 (fc_totalCount fc);
                hasMore := (page - 1) * limit + limit
                           <? default 0 (fc_totalCount fc) |};
           timestamp := stored;
           expiresAt := stored + 300000 |} ]> queryCache,
   [ SetLoadingProgress 0;
     NetQuery {| q_bounds := b; q_limit := 1; q_offset := None |};
     SetLoadingProgress 10;
     NetQuery {| q_bounds := b; q_limit := limit;
                 q_offset := Some ((page - 1) * limit) |};
     SetLoadingProgress 100 ]).
Proof.
  intros Hmiss Hcount Hpage.
  unfold loadFeaturesWithProgress. rewrite Hmiss. cbv zeta.
  rewrite Hcount, Hpage. reflexivity.
Qed.

Lemma isCacheValid_other (queryCache : gmap string cacheEntry) now key key'
    entry :
  key' <> key ->
  isCacheValid (<[ key := entry ]> queryCache) now key'
  = isCacheValid queryCache now key'.
Proof.
  intro Hne. unfold isCacheValid. now rewrite lookup_insert_ne.
Qed.

End CacheUse.

(** C3 (amended).  The selection orchestrator consults no cache: a second
    selection of the same box sends every native query and every fetch of the
    first one again.  The cache belongs to the paged loader
    [loadFeaturesWithProgress] alone, under the key made of the layer name,
    the bounds, the page and the limit.  There an entry that has not expired
    is returned with no request; a load without such an entry whose two
    queries are answered stores the page, stamped with the time of the
    answer, to expire 5 minutes later: until then the same load is served
    with no request, from then on it sends requests again, and a load under
    another key is not served by that entry.  From the initial paging state
    [loadMoreFeatures] never reaches the loader. *)
Theorem cache_consulted_before_network :
  forall (JSON_stringify : bounds -> string) (toString : Z -> string),
    let key := Cache.cacheKey JSON_stringify toString in
    let load := Cache.loadFeaturesWithProgress JSON_stringify toString in
    (forall (net : network) (b : bounds) (ls : layerStates),
        let once := snd (Orchestrator.queryFeaturesInBounds net b ls) in
        snd (Terms.select_twice net b ls) = (once ++ once)%list /\
        Terms.nativeQueries (snd (Terms.select_twice net b ls))
        = (2 * List.length (Orchestrator.visibleLayers ls))%nat) /\
    (forall l b page limit,
        key l b page limit =
        Cache.layer_name l +:+ "_" +:+ JSON_stringify b +:+ "_"
          +:+ toString page +:+ "_" +:+ toString limit) /\
    (forall (queryCache : gmap string Cache.cacheEntry) now l b page limit
            cached,
        queryCache !! key l b page limit = Some cached ->
        now < Cache.expiresAt cached ->
        load queryCache now l b page limit =
        (Fulfilled (Cache.data cached), queryCache, [])) /\
    (forall (queryCache : gmap string Cache.cacheEntry) now l b page limit,
        queryCache !! key l b page limit = None \/
        (exists cached,
            queryCache !! key l b page limit = Some cached /\
            Cache.expiresAt cached <= now) ->
        (1 <= Cache.networkCalls (snd (load queryCache now l b page limit)))%nat)
    /\
    (forall (queryCache : gmap string Cache.cacheEntry) now l b page limit
            fc0 t0 fc stored,
        Cache.isCacheValid queryCache now (key l b page limit) = false ->
        Cache.run l {| Cache.q_bounds := b; Cache.q_limit := 1;
                       Cache.q_offset := None |}
        = (Cache.QueryResult fc0, t0) ->
        Cache.run l {| Cache.q_bounds := b; Cache.q_limit := limit;
                       Cache.q_offset := Some ((page - 1) * limit) |}
        = (Cache.QueryResult fc, stored) ->
        exists result cache',
          load queryCache now l b page limit =
          (Fulfilled result, cache',
           [ Cache.SetLoadingProgress 0;
             Cache.NetQuery {| Cache.q_bounds := b; Cache.q_limit := 1;
                               Cache.q_offset := None |};
             Cache.SetLoadingProgress 10;
             Cache.NetQuery {| Cache.q_bounds := b; Cache.q_limit := limit;
                               Cache.q_offset := Some ((page - 1) * limit) |};
             Cache.SetLoadingProgress 100 ]) /\
          Cache.features result = default [] (Cache.fc_features fc) /\
          cache' !! key l b page limit =
          Some {| Cache.data := result; Cache.timestamp := stored;
                  Cache.expiresAt := stored + 5 * 60 * 1000 |} /\
          (forall later,
              later < stored + 5 * 60 * 1000 ->
              load cache' later l b page limit
              = (Fulfilled result, cache', [])) /\
          (forall later,
              stored + 5 * 60 * 1000 <= later ->
              (1 <= Cache.networkCalls
                      (snd (load cache' later l b page limit)))%nat) /\
          (forall later l' b' page' limit',
              key l' b' page' limit' <> key l b page limit ->
              Cache.isCacheValid queryCache later (key l' b' page' limit')
              = false ->
              (1 <= Cache.networkCalls
                      (snd (load cache' later l' b' page' limit')))%nat)) /\
    (forall now l b,
        Paging.loadMoreFeatures JSON_stringify toString now l b Paging.initial
        = (Paging.initial, [], None)).
Proof.
  intros JSON_stringify toString key load. subst key load.
  split; [|split; [|split; [|split; [|split]]]].
  - intros net b ls once. split.
    + unfold Terms.select_twice, bind. subst once.
      destruct (Orchestrator.queryFeaturesInBounds net b ls) as [[] t].
      reflexivity.
    + unfold Terms.select_twice, bind.
      pose proof (queryFeaturesInBounds_trace net b ls) as Ht.
      pose proof (layers_requests net b (Orchestrator.visibleLayers ls))
        as [Hn _].
      destruct (Orchestrator.queryFeaturesInBounds net b ls) as [[] t].
      cbn [snd] in *. rewrite nativeQueries_app, Ht, nativeQueries_app, Hn.
      cbn. lia.
  - reflexivity.
  - intros queryCache now l b page limit cached Hget Hlive.
    now apply load_hit.
  - intros queryCache now l b page limit. apply load_stale.
  - intros queryCache now l b page limit fc0 t0 fc stored Hmiss Hcount Hpage.
    pose proof (load_fresh JSON_stringify toString queryCache now l b page
                  limit fc0 t0 fc stored Hmiss Hcount Hpage) as E.
    match type of E with
    | _ = (Fulfilled ?r, <[ ?k := ?entry ]> ?c, _) =>
        set (result := r) in *; set (entry' := entry) in *;
        exists result, (<[ k := entry' ]> c)
    end.
    assert (Hget : (<[ Cache.cacheKey JSON_stringify toString l b page limit
                       := entry' ]> queryCache)
                     !! Cache.cacheKey JSON_stringify toString l b page limit
                   = Some entry')
      by apply lookup_insert_eq.
    split; [exact E |]. split; [reflexivity |].
    split; [exact Hget |].
    split; [|split].
    + intros later Hlater.
      apply (load_hit JSON_stringify toString _ later l b page limit entry'
               Hget).
      cbn. lia.
    + intros later Hlater. apply load_stale. right. exists entry'.
      split; [exact Hget |]. cbn. lia.
    + intros later l' b' page' limit' Hne Hmiss'.
      rewrite <- (isCacheValid_other queryCache later _ _ entry' Hne)
        in Hmiss'.
      destruct (load_miss JSON_stringify toString _ later l' b' page' limit'
                  Hmiss') as [t Ht].
      rewrite Ht. unfold Cache.networkCalls. cbn. lia.
  - intros now l b. reflexivity.
Qed.

Lemma cache_consulted_before_network_witness :
  exists result cache',
    Cache.loadFeaturesWithProgress Scenario.stringify Scenario.decimal ∅ 0
      Scenario.service Scenario.columbus 1 50
    = (Fulfilled result, cache',
       [ Cache.SetLoadingProgress 0;
         Cache.NetQuery {| Cache.q_bounds := Scenario.columbus;
                           Cache.q_limit := 1; Cache.q_offset := None |};
         Cache.SetLoadingProgress 10;
         Cache.NetQuery {| Cache.q_bounds := Scenario.columbus;
                           Cache.q_limit := 50;
                           Cache.q_offset := Some ((1 - 1) * 50) |};
         Cache.SetLoadingProgress 100 ]) /\
    Cache.features result = [Scenario.inside] /\
    Cache.loadFeaturesWithProgress Scenario.stringify Scenario.decimal cache'
      2000 Scenario.service Scenario.columbus 1 50
    = (Fulfilled result, cache', []) /\
    (1 <= Cache.networkCalls
            (snd (Cache.loadFeaturesWithProgress Scenario.stringify
                    Scenario.decimal cache' 301000 Scenario.service
                    Scenario.columbus 1 50)))%nat.
Proof.
  destruct (proj1 (proj2 (proj2 (proj2 (proj2
              (cache_consulted_before_network Scenario.stringify
                 Scenario.decimal)))))
              ∅ 0 Scenario.service Scenario.columbus 1 50
              {| Cache.fc_features := Some [Scenario.inside];
                 Cache.fc_totalCount := Some 1 |} 1000
              {| Cache.fc_features := Some [Scenario.inside];
                 Cache.fc_totalCount := Some 1 |} 1000)
    as (result & cache' & Hload & Hfeatures & _ & Hhit & Hstale & _).
  - unfold Cache.isCacheValid. now rewrite lookup_empty.
  - reflexivity.
  - reflexivity.
  - exists result, cache'.
    split; [exact Hload |]. split; [exact Hfeatures |].
    split; [apply Hhit; lia | apply Hstale; lia].
Defined.

(** The selection of the same box twice in a row: the native query and the
    fetch of the bridges layer are sent twice. *)
Lemma identical_selections_requery :
  let trace :=
    snd (Terms.select_twice Scenario.net_fetch_both Scenario.columbus
           Scenario.only_bridges) in
  Terms.nativeQueries trace = 2%nat /\ Terms.fetches trace = 2%nat /\
  List.filter
    (fun e => match e with NetEsriQuery _ _ _ => true | _ => false end) trace
  = [ NetEsriQuery (url Scenario.bridges_layer) Scenario.columbus 100;
      NetEsriQuery (url Scenario.bridges_layer) Scenario.columbus 100 ].
Proof. vm_compute. repeat split; reflexivity. Qed.

(** ** The first "load more" *)

Section Overlap.

(** The features at offsets 50 to 99 of a list are met again 50 places
    further when the 50 features from offset 50 on are appended to its
    first 100. *)
Lemma appended_again {A} (all : list A) (i : nat) :
  (100 <= List.length all)%nat -> (50 <= i < 100)%nat ->
  let shown :=
    (List.firstn 100 all ++ List.firstn 50 (List.skipn 50 all))%list in
  List.nth_error shown (i + 50) = List.nth_error shown i /\
  List.nth_error shown i = List.nth_error all i.
Proof.
  intros Hlen Hi shown. subst shown.
  assert (H100 : List.length (List.firstn 100 all) = 100%nat)
    by now apply List.firstn_length_le.
  rewrite List.nth_error_app2 by lia.
  rewrite List.nth_error_app1 by lia.
  rewrite H100, !List.nth_error_firstn, List.nth_error_skipn.
  replace (i + 50 - 100 <? 50)%nat with true
    by (symmetry; apply Nat.ltb_lt; lia).
  replace (i <? 100)%nat with true by (symmetry; apply Nat.ltb_lt; lia).
  replace (50 + (i + 50 - 100))%nat with i by lia. now split.
Qed.

End Overlap.

(** X13.  An initial load whose service answers and reports more than 100
    features sends the count query and the query for 100 features from
    offset 0, shows them as page 1 and sets [hasMoreFeatures].  The first
    "load more" after it, for the same layer and bounds, is not served from
    the cache: it sends the count query and the query for 50 features from
    offset 50, and appends what it gets to the displayed and to the selected
    features.  With a service that answers by offset, the features at
    offsets 50 to 99 are therefore shown twice, 50 places apart. *)
Theorem load_more_after_initial_overlaps :
  forall (JSON_stringify : bounds -> string) (toString : Z -> string)
         (now now' : Z) (l : Cache.featureLayer) (b : bounds)
         (s0 : Paging.state)
         (fc0 fc1 fc2 : Cache.featureCollection) (t0 t1 t2 total : Z),
    Cache.isCacheValid (Paging.queryCache s0) now
      (Cache.cacheKey JSON_stringify toString l b 1 100) = false ->
    Cache.isCacheValid (Paging.queryCache s0) now'
      (Cache.cacheKey JSON_stringify toString l b 2 50) = false ->
    Cache.cacheKey JSON_stringify toString l b 2 50
    <> Cache.cacheKey JSON_stringify toString l b 1 100 ->
    Paging.isLoadingMore s0 = false ->
    Cache.run l {| Cache.q_bounds := b; Cache.q_limit := 1;
                   Cache.q_offset := None |}
    = (Cache.QueryResult fc0, t0) ->
    Cache.run l {| Cache.q_bounds := b; Cache.q_limit := 100;
                   Cache.q_offset := Some 0 |}
    = (Cache.QueryResult fc1, t1) ->
    Cache.run l {| Cache.q_bounds := b; Cache.q_limit := 50;
                   Cache.q_offset := Some 50 |}
    = (Cache.QueryResult fc2, t2) ->
    Cache.fc_totalCount fc1 = Some total -> 100 < total ->
    let '(s1, trace1, _) :=
      Paging.loadInitialFeatures JSON_stringify toString now l b s0 in
    let '(s2, trace2, _) :=
      Paging.loadMoreFeatures JSON_stringify toString now' (Some l) (Some b)
        s1 in
    let count :=
      {| Cache.q_bounds := b; Cache.q_limit := 1; Cache.q_offset := None |} in
    trace1 =
    [ Cache.SetLoadingProgress 0; Cache.NetQuery count;
      Cache.SetLoadingProgress 10;
      Cache.NetQuery {| Cache.q_bounds := b; Cache.q_limit := 100;
                        Cache.q_offset := Some 0 |};
      Cache.SetLoadingProgress 100 ] /\
    Paging.displayedFeatures s1 = default [] (Cache.fc_features fc1) /\
    Paging.currentPage s1 = 1 /\ Paging.hasMoreFeatures s1 = true /\
    trace2 =
    [ Cache.SetLoadingProgress 0; Cache.NetQuery count;
      Cache.SetLoadingProgress 10;
      Cache.NetQuery {| Cache.q_bounds := b; Cache.q_limit := 50;
                        Cache.q_offset := Some 50 |};
      Cache.SetLoadingProgress 100 ] /\
    Paging.displayedFeatures s2 =
    (default [] (Cache.fc_features fc1) ++ default [] (Cache.fc_features fc2))%list
    /\
    Paging.selectedFeatures s2 = Paging.displayedFeatures s2 /\
    Paging.currentPage s2 = 2 /\
    (forall all : list feature,
        Cache.fc_features fc1 = Some (List.firstn 100 all) ->
        Cache.fc_features fc2 = Some (List.firstn 50 (List.skipn 50 all)) ->
        (100 <= List.length all)%nat ->
        forall i,
          (50 <= i < 100)%nat ->
          List.nth_error (Paging.displayedFeatures s2) (i + 50)
          = List.nth_error (Paging.displayedFeatures s2) i /\
          List.nth_error (Paging.displayedFeatures s2) i
          = List.nth_error all i).
Proof.
  intros JSON_stringify toString now now' l b s0 fc0 fc1 fc2 t0 t1 t2 total
    Hmiss1 Hmiss2 Hkeys Hidle Hcount Hpage1 Hpage2 Htotal Hmore.
  unfold Paging.loadInitialFeatures, Paging.INITIAL_FEATURE_LIMIT.
  rewrite (load_fresh JSON_stringify toString (Paging.queryCache s0) now l b
             1 100 fc0 t0 fc1 t1 Hmiss1 Hcount Hpage1).
  cbv beta iota.
  unfold Paging.loadMoreFeatures, Paging.FEATURES_PER_PAGE.
  cbn [Paging.hasMoreFeatures Paging.isLoadingMore Paging.currentPage
       Paging.queryCache Cache.hasMore Cache.features Cache.totalCount
       Paging.displayedFeatures Paging.selectedFeatures].
  rewrite Htotal, Hidle. cbn [from_option id].
  assert (Hlt : ((1 - 1) * 100 + 100 <? total) = true)
    by (apply Z.ltb_lt; lia).
  rewrite Hlt. cbn [negb orb].
  rewrite <- (isCacheValid_other (Paging.queryCache s0) now' _ _
                {| Cache.data :=
                     {| Cache.features := default [] (Cache.fc_features fc1);
                        Cache.totalCount := total;
                        Cache.hasMore := true |};
                   Cache.timestamp := t1;
                   Cache.expiresAt := t1 + 300000 |} Hkeys) in Hmiss2.
  rewrite (load_fresh JSON_stringify toString _ now' l b (1 + 1) 50 fc0 t0
             fc2 t2 Hmiss2 Hcount Hpage2).
  cbv beta iota zeta.
  cbn [Paging.displayedFeatures Paging.selectedFeatures Paging.currentPage
       Paging.hasMoreFeatures Cache.features].
  repeat (split; [reflexivity |]).
  intros all H1 H2 Hlen i Hi. rewrite H1, H2. cbn [from_option id].
  now apply appended_again.
Qed.

Lemma load_more_after_initial_overlaps_witness :
  let s1 :=
    fst (fst (Paging.loadInitialFeatures Scenario.stringify Scenario.decimal
                0 (Cases.paged_service Cases.many) Scenario.columbus
                Paging.initial)) in
  let s2 :=
    fst (fst (Paging.loadMoreFeatures Scenario.stringify Scenario.decimal 5
                (Some (Cases.paged_service Cases.many))
                (Some Scenario.columbus) s1)) in
  List.nth_error (Paging.displayedFeatures s2) (60 + 50)
  = List.nth_error (Paging.displayedFeatures s2) 60 /\
  List.nth_error (Paging.displayedFeatures s2) 60
  = List.nth_error Cases.many 60.
Proof.
  cbv zeta.
  assert (Hmiss1 : Cache.isCacheValid (Paging.queryCache Paging.initial) 0
                     (Cache.cacheKey Scenario.stringify Scenario.decimal
                        (Cases.paged_service Cases.many) Scenario.columbus
                        1 100) = false)
    by (vm_compute; reflexivity).
  assert (Hmiss2 : Cache.isCacheValid (Paging.queryCache Paging.initial) 5
                     (Cache.cacheKey Scenario.stringify Scenario.decimal
                        (Cases.paged_service Cases.many) Scenario.columbus
                        2 50) = false)
    by (vm_compute; reflexivity).
  assert (Hkeys : Cache.cacheKey Scenario.stringify Scenario.decimal
                    (Cases.paged_service Cases.many) Scenario.columbus 2 50
                  <> Cache.cacheKey Scenario.stringify Scenario.decimal
                       (Cases.paged_service Cases.many) Scenario.columbus
                       1 100)
    by (vm_compute; discriminate).
  assert (Hmore : 100 < 120) by lia.
  pose proof (load_more_after_initial_overlaps Scenario.stringify
                Scenario.decimal 0 5 (Cases.paged_service Cases.many)
                Scenario.columbus Paging.initial
                {| Cache.fc_features :=
                     Some (List.firstn 1 (List.skipn 0 Cases.many));
                   Cache.fc_totalCount := Some 120 |}
                {| Cache.fc_features :=
                     Some (List.firstn 100 (List.skipn 0 Cases.many));
                   Cache.fc_totalCount := Some 120 |}
                {| Cache.fc_features :=
                     Some (List.firstn 50 (List.skipn 50 Cases.many));
                   Cache.fc_totalCount := Some 120 |}
                1000 1000 1000 120 Hmiss1 Hmiss2 Hkeys eq_refl eq_refl
                eq_refl eq_refl eq_refl Hmore) as H.
  destruct (Paging.loadInitialFeatures Scenario.stringify Scenario.decimal 0
              (Cases.paged_service Cases.many) Scenario.columbus
              Paging.initial) as [[s1 trace1] logged1].
  cbv beta iota zeta in H. cbn [fst].
  destruct (Paging.loadMoreFeatures Scenario.stringify Scenario.decimal 5
              (Some (Cases.paged_service Cases.many))
              (Some Scenario.columbus) s1) as [[s2 trace2] logged2].
  cbv beta iota zeta in H. cbn [fst].
  destruct H as (_ & _ & _ & _ & _ & _ & _ & _ & Hnth).
  apply (Hnth Cases.many); [reflexivity | reflexivity | | lia].
  vm_compute. lia.
Defined.
